(** * ESPAsyncTCP: the connection object [AsyncClient] over the lwIP raw API

    A shallow embedding of [ESPAsuncTCP/ESPAsyncTCP.cpp].  Every member
    function of [AsyncClient] that the properties below talk about is a
    function on an explicit world: the object's fields, and the part of the
    environment the code reads or writes (the millisecond clock, the results
    lwIP returns, the error callbacks lwIP has on file).  Each function also
    returns the ordered list of what it did to the outside: the lwIP calls it
    issued and the application callbacks it invoked. *)

From Stdlib Require Import ZArith List Bool Lia String.
From Stdlib.Strings Require Import Byte.
Import ListNotations.
Local Open Scope Z_scope.

(** ** Machine integers

    [size_t] and [uint32_t] are 32 bits wide on the target; arithmetic on
    them wraps. *)

Definition uint32 (x : Z) : Z := x mod 2 ^ 32.

(** lwIP's [u16_t]: a wider count passed where one is expected is narrowed. *)
Definition uint16 (x : Z) : Z := x mod 2 ^ 16.

(** ** The transport binding: lwIP as the source sees it *)

Module Lwip.

(** Values of [err_t] the source names; [errorToString] fixes the numbers. *)
Definition ERR_OK : Z := 0.
Definition ERR_INPROGRESS : Z := -5.
Definition ERR_ABRT : Z := -8.

Definition TCP_PRIO_MIN : Z := 1.

(** [tcp_pcb]: the fields of the protocol control block the source reads.
    [pcb_id] stands for the address of the block. *)
Record tcp_pcb : Type := mk_pcb {
  pcb_id : nat;
  state : Z;
  snd_buf : Z
}.

Definition set_snd_buf (v : Z) (p : tcp_pcb) : tcp_pcb :=
  mk_pcb (pcb_id p) (state p) v.

(** One [pbuf]; a chain ([next] pointers) is a list, the null chain [[]].
    [len] is a [u16_t] in lwIP. *)
Record pbuf : Type := mk_pbuf {
  payload : list byte;
  len : Z
}.

(** A [tcp_pcb*] argument as it is passed to lwIP: [None] is [NULL]. *)
Definition handle : Type := option nat.

Definition ptr (p : option tcp_pcb) : handle := option_map pcb_id p.

(** The calls the source makes.  For the registration calls the boolean
    says whether the argument was the object / its static trampoline
    ([true]) or [NULL] ([false]). *)
Inductive call : Type :=
| IpRoute (addr : Z)
| TcpNew
| DnsGetHostByName (host : string)
| TcpSetprio (p : handle) (prio : Z)
| TcpArg (p : handle) (arg : bool)
| TcpRecv (p : handle) (fn : bool)
| TcpSent (p : handle) (fn : bool)
| TcpErr (p : handle) (fn : bool)
| TcpPoll (p : handle) (fn : bool) (interval : Z)
| TcpConnect (p : handle) (addr port : Z)
| TcpAbort (p : handle)
| TcpClose (p : handle)
| TcpWrite (p : handle) (data : list byte) (len flags : Z)
| TcpOutput (p : handle)
| TcpRecved (p : handle) (len : Z)
| PbufFree (b : pbuf).

End Lwip.

(** ** Application callbacks

    A handler is a C function pointer with a [void*] argument.  The object
    stores the pointer ([None] is the null pointer); what the function at
    that address does is application code, given by [App] below. *)

Definition fn_ptr : Type := nat.
Definition ctx : Type := Z.

(** Which slot is being invoked, with the arguments the core passes. *)
Inductive Callback : Type :=
| OnConnect
| OnDisconnect
| OnAck (len time : Z)
| OnError (err : Z)
| OnData (data : list byte) (len : Z)
| OnTimeout (time : Z)
| OnPoll.

(** What a member function does to the outside, in order.  A handler may
    call back into the object; what it did is kept inside its own [Fire]
    node, so the top level of a trace is what the core itself did. *)
#[local] Unset Elimination Schemes.
Inductive Event : Type :=
| Net (c : Lwip.call)
| Fire (cb : Callback) (f : fn_ptr) (arg : ctx) (inner : list Event).
#[local] Set Elimination Schemes.

(** ** The object *)

Record AsyncClient : Type := mkAsyncClient {
  _pcb : option Lwip.tcp_pcb;
  _connect_cb : option fn_ptr;
  _connect_cb_arg : ctx;
  _discard_cb : option fn_ptr;
  _discard_cb_arg : ctx;
  _sent_cb : option fn_ptr;
  _sent_cb_arg : ctx;
  _error_cb : option fn_ptr;
  _error_cb_arg : ctx;
  _recv_cb : option fn_ptr;
  _recv_cb_arg : ctx;
  _timeout_cb : option fn_ptr;
  _timeout_cb_arg : ctx;
  _poll_cb : option fn_ptr;
  _poll_cb_arg : ctx;
  _pcb_busy : bool;
  _pcb_sent_at : Z;
  _close_pcb : bool;
  _ack_pcb : bool;
  _rx_ack_len : Z;
  _rx_last_packet : Z;
  _rx_since_timeout : Z;
  _ack_timeout : Z;
  _connect_port : Z
}.

Definition set_pcb (v : option Lwip.tcp_pcb) (c : AsyncClient) : AsyncClient :=
  mkAsyncClient v (_connect_cb c) (_connect_cb_arg c) (_discard_cb c) (_discard_cb_arg c)
    (_sent_cb c) (_sent_cb_arg c) (_error_cb c) (_error_cb_arg c) (_recv_cb c) (_recv_cb_arg c)
    (_timeout_cb c) (_timeout_cb_arg c) (_poll_cb c) (_poll_cb_arg c) (_pcb_busy c)
    (_pcb_sent_at c) (_close_pcb c) (_ack_pcb c) (_rx_ack_len c) (_rx_last_packet c)
    (_rx_since_timeout c) (_ack_timeout c) (_connect_port c).

Definition set_pcb_busy (v : bool) (c : AsyncClient) : AsyncClient :=
  mkAsyncClient (_pcb c) (_connect_cb c) (_connect_cb_arg c) (_discard_cb c) (_discard_cb_arg c)
    (_sent_cb c) (_sent_cb_arg c) (_error_cb c) (_error_cb_arg c) (_recv_cb c) (_recv_cb_arg c)
    (_timeout_cb c) (_timeout_cb_arg c) (_poll_cb c) (_poll_cb_arg c) v (_pcb_sent_at c)
    (_close_pcb c) (_ack_pcb c) (_rx_ack_len c) (_rx_last_packet c) (_rx_since_timeout c)
    (_ack_timeout c) (_connect_port c).

Definition set_pcb_sent_at (v : Z) (c : AsyncClient) : AsyncClient :=
  mkAsyncClient (_pcb c) (_connect_cb c) (_connect_cb_arg c) (_discard_cb c) (_discard_cb_arg c)
    (_sent_cb c) (_sent_cb_arg c) (_error_cb c) (_error_cb_arg c) (_recv_cb c) (_recv_cb_arg c)
    (_timeout_cb c) (_timeout_cb_arg c) (_poll_cb c) (_poll_cb_arg c) (_pcb_busy c) v
    (_close_pcb c) (_ack_pcb c) (_rx_ack_len c) (_rx_last_packet c) (_rx_since_timeout c)
    (_ack_timeout c) (_connect_port c).

Definition set_close_pcb (v : bool) (c : AsyncClient) : AsyncClient :=
  mkAsyncClient (_pcb c) (_connect_cb c) (_connect_cb_arg c) (_discard_cb c) (_discard_cb_arg c)
    (_sent_cb c) (_sent_cb_arg c) (_error_cb c) (_error_cb_arg c) (_recv_cb c) (_recv_cb_arg c)
    (_timeout_cb c) (_timeout_cb_arg c) (_poll_cb c) (_poll_cb_arg c) (_pcb_busy c)
    (_pcb_sent_at c) v (_ack_pcb c) (_rx_ack_len c) (_rx_last_packet c) (_rx_since_timeout c)
    (_ack_timeout c) (_connect_port c).

Definition set_ack_pcb (v : bool) (c : AsyncClient) : AsyncClient :=
  mkAsyncClient (_pcb c) (_connect_cb c) (_connect_cb_arg c) (_discard_cb c) (_discard_cb_arg c)
    (_sent_cb c) (_sent_cb_arg c) (_error_cb c) (_error_cb_arg c) (_recv_cb c) (_recv_cb_arg c)
    (_timeout_cb c) (_timeout_cb_arg c) (_poll_cb c) (_poll_cb_arg c) (_pcb_busy c)
    (_pcb_sent_at c) (_close_pcb c) v (_rx_ack_len c) (_rx_last_packet c) (_rx_since_timeout c)
    (_ack_timeout c) (_connect_port c).

Definition set_rx_ack_len (v : Z) (c : AsyncClient) : AsyncClient :=
  mkAsyncClient (_pcb c) (_connect_cb c) (_connect_cb_arg c) (_discard_cb c) (_discard_cb_arg c)
    (_sent_cb c) (_sent_cb_arg c) (_error_cb c) (_error_cb_arg c) (_recv_cb c) (_recv_cb_arg c)
    (_timeout_cb c) (_timeout_cb_arg c) (_poll_cb c) (_poll_cb_arg c) (_pcb_busy c)
    (_pcb_sent_at c) (_close_pcb c) (_ack_pcb c) v (_rx_last_packet c) (_rx_since_timeout c)
    (_ack_timeout c) (_connect_port c).

Definition set_rx_last_packet (v : Z) (c : AsyncClient) : AsyncClient :=
  mkAsyncClient (_pcb c) (_connect_cb c) (_connect_cb_arg c) (_discard_cb c) (_discard_cb_arg c)
    (_sent_cb c) (_sent_cb_arg c) (_error_cb c) (_error_cb_arg c) (_recv_cb c) (_recv_cb_arg c)
    (_timeout_cb c) (_timeout_cb_arg c) (_poll_cb c) (_poll_cb_arg c) (_pcb_busy c)
    (_pcb_sent_at c) (_close_pcb c) (_ack_pcb c) (_rx_ack_len c) v (_rx_since_timeout c)
    (_ack_timeout c) (_connect_port c).

Definition set_rx_since_timeout (v : Z) (c : AsyncClient) : AsyncClient :=
  mkAsyncClient (_pcb c) (_connect_cb c) (_connect_cb_arg c) (_discard_cb c) (_discard_cb_arg c)
    (_sent_cb c) (_sent_cb_arg c) (_error_cb c) (_error_cb_arg c) (_recv_cb c) (_recv_cb_arg c)
    (_timeout_cb c) (_timeout_cb_arg c) (_poll_cb c) (_poll_cb_arg c) (_pcb_busy c)
    (_pcb_sent_at c) (_close_pcb c) (_ack_pcb c) (_rx_ack_len c) (_rx_last_packet c) v
    (_ack_timeout c) (_connect_port c).

Definition set_ack_timeout (v : Z) (c : AsyncClient) : AsyncClient :=
  mkAsyncClient (_pcb c) (_connect_cb c) (_connect_cb_arg c) (_discard_cb c) (_discard_cb_arg c)
    (_sent_cb c) (_sent_cb_arg c) (_error_cb c) (_error_cb_arg c) (_recv_cb c) (_recv_cb_arg c)
    (_timeout_cb c) (_timeout_cb_arg c) (_poll_cb c) (_poll_cb_arg c) (_pcb_busy c)
    (_pcb_sent_at c) (_close_pcb c) (_ack_pcb c) (_rx_ack_len c) (_rx_last_packet c)
    (_rx_since_timeout c) v (_connect_port c).

Definition set_connect_port (v : Z) (c : AsyncClient) : AsyncClient :=
  mkAsyncClient (_pcb c) (_connect_cb c) (_connect_cb_arg c) (_discard_cb c) (_discard_cb_arg c)
    (_sent_cb c) (_sent_cb_arg c) (_error_cb c) (_error_cb_arg c) (_recv_cb c) (_recv_cb_arg c)
    (_timeout_cb c) (_timeout_cb_arg c) (_poll_cb c) (_poll_cb_arg c) (_pcb_busy c)
    (_pcb_sent_at c) (_close_pcb c) (_ack_pcb c) (_rx_ack_len c) (_rx_last_packet c)
    (_rx_since_timeout c) (_ack_timeout c) v.

Definition set_connect_cb (cb : option fn_ptr) (arg : ctx) (c : AsyncClient) : AsyncClient :=
  mkAsyncClient (_pcb c) cb arg (_discard_cb c) (_discard_cb_arg c) (_sent_cb c) (_sent_cb_arg
    c) (_error_cb c) (_error_cb_arg c) (_recv_cb c) (_recv_cb_arg c) (_timeout_cb c)
    (_timeout_cb_arg c) (_poll_cb c) (_poll_cb_arg c) (_pcb_busy c) (_pcb_sent_at c) (_close_pcb
    c) (_ack_pcb c) (_rx_ack_len c) (_rx_last_packet c) (_rx_since_timeout c) (_ack_timeout c)
    (_connect_port c).

Definition set_discard_cb (cb : option fn_ptr) (arg : ctx) (c : AsyncClient) : AsyncClient :=
  mkAsyncClient (_pcb c) (_connect_cb c) (_connect_cb_arg c) cb arg (_sent_cb c) (_sent_cb_arg
    c) (_error_cb c) (_error_cb_arg c) (_recv_cb c) (_recv_cb_arg c) (_timeout_cb c)
    (_timeout_cb_arg c) (_poll_cb c) (_poll_cb_arg c) (_pcb_busy c) (_pcb_sent_at c) (_close_pcb
    c) (_ack_pcb c) (_rx_ack_len c) (_rx_last_packet c) (_rx_since_timeout c) (_ack_timeout c)
    (_connect_port c).

Definition set_sent_cb (cb : option fn_ptr) (arg : ctx) (c : AsyncClient) : AsyncClient :=
  mkAsyncClient (_pcb c) (_connect_cb c) (_connect_cb_arg c) (_discard_cb c) (_discard_cb_arg c)
    cb arg (_error_cb c) (_error_cb_arg c) (_recv_cb c) (_recv_cb_arg c) (_timeout_cb c)
    (_timeout_cb_arg c) (_poll_cb c) (_poll_cb_arg c) (_pcb_busy c) (_pcb_sent_at c) (_close_pcb
    c) (_ack_pcb c) (_rx_ack_len c) (_rx_last_packet c) (_rx_since_timeout c) (_ack_timeout c)
    (_connect_port c).

Definition set_error_cb (cb : option fn_ptr) (arg : ctx) (c : AsyncClient) : AsyncClient :=
  mkAsyncClient (_pcb c) (_connect_cb c) (_connect_cb_arg c) (_discard_cb c) (_discard_cb_arg c)
    (_sent_cb c) (_sent_cb_arg c) cb arg (_recv_cb c) (_recv_cb_arg c) (_timeout_cb c)
    (_timeout_cb_arg c) (_poll_cb c) (_poll_cb_arg c) (_pcb_busy c) (_pcb_sent_at c) (_close_pcb
    c) (_ack_pcb c) (_rx_ack_len c) (_rx_last_packet c) (_rx_since_timeout c) (_ack_timeout c)
    (_connect_port c).

Definition set_recv_cb (cb : option fn_ptr) (arg : ctx) (c : AsyncClient) : AsyncClient :=
  mkAsyncClient (_pcb c) (_connect_cb c) (_connect_cb_arg c) (_discard_cb c) (_discard_cb_arg c)
    (_sent_cb c) (_sent_cb_arg c) (_error_cb c) (_error_cb_arg c) cb arg (_timeout_cb c)
    (_timeout_cb_arg c) (_poll_cb c) (_poll_cb_arg c) (_pcb_busy c) (_pcb_sent_at c) (_close_pcb
    c) (_ack_pcb c) (_rx_ack_len c) (_rx_last_packet c) (_rx_since_timeout c) (_ack_timeout c)
    (_connect_port c).

Definition set_timeout_cb (cb : option fn_ptr) (arg : ctx) (c : AsyncClient) : AsyncClient :=
  mkAsyncClient (_pcb c) (_connect_cb c) (_connect_cb_arg c) (_discard_cb c) (_discard_cb_arg c)
    (_sent_cb c) (_sent_cb_arg c) (_error_cb c) (_error_cb_arg c) (_recv_cb c) (_recv_cb_arg c)
    cb arg (_poll_cb c) (_poll_cb_arg c) (_pcb_busy c) (_pcb_sent_at c) (_close_pcb c) (_ack_pcb
    c) (_rx_ack_len c) (_rx_last_packet c) (_rx_since_timeout c) (_ack_timeout c) (_connect_port
    c).

Definition set_poll_cb (cb : option fn_ptr) (arg : ctx) (c : AsyncClient) : AsyncClient :=
  mkAsyncClient (_pcb c) (_connect_cb c) (_connect_cb_arg c) (_discard_cb c) (_discard_cb_arg c)
    (_sent_cb c) (_sent_cb_arg c) (_error_cb c) (_error_cb_arg c) (_recv_cb c) (_recv_cb_arg c)
    (_timeout_cb c) (_timeout_cb_arg c) cb arg (_pcb_busy c) (_pcb_sent_at c) (_close_pcb c)
    (_ack_pcb c) (_rx_ack_len c) (_rx_last_packet c) (_rx_since_timeout c) (_ack_timeout c)
    (_connect_port c).

(** ** The world

    [clock k] is what the [k]-th call of [millis()] returns and [reads]
    counts the calls made so far; [lwip_err k] is the [err_t] returned by
    the [k]-th call of [tcp_write], [tcp_output] or [tcp_close].  [pool]
    holds the blocks [tcp_new] can still hand out, [route] says whether
    [ip_route] finds an interface, and [resolver] is the answer of
    [dns_gethostbyname]: its [err_t] and, for [ERR_OK], the address.
    [errf i] says whether lwIP has an error callback on file for the block
    at address [i]: [tcp_err] writes it, [tcp_abort] reads it. *)

Record Sys : Type := mkSys {
  clock : nat -> Z;
  reads : nat;
  lwip_err : nat -> Z;
  lwip_n : nat;
  pool : list Lwip.tcp_pcb;
  route : Z -> bool;
  resolver : string -> Z * Z;
  errf : nat -> bool
}.

(** [tcp_err(pcb, fn)] as lwIP stores it. *)
Definition set_errf (h : Lwip.handle) (fn : bool) (s : Sys) : Sys :=
  match h with
  | Some i =>
      mkSys (clock s) (reads s) (lwip_err s) (lwip_n s) (pool s) (route s) (resolver s)
            (fun j => if Nat.eqb j i then fn else errf s j)
  | None => s
  end.

Record World : Type := mkWorld {
  obj : AsyncClient;
  sys : Sys
}.

(** The world once lwIP has stored what [tcp_err(pcb, fn)] was given. *)
Definition with_errf (h : Lwip.handle) (fn : bool) (w : World) : World :=
  mkWorld (obj w) (set_errf h fn (sys w)).

Definition App_t : Type := fn_ptr -> ctx -> Callback -> World -> World * list Event.

(** ** Stateful computations that log what they do *)

Definition M (A : Type) : Type := World -> A * World * list Event.

Definition val {A} (r : A * World * list Event) : A := fst (fst r).
Definition post {A} (r : A * World * list Event) : World := snd (fst r).
Definition trace {A} (r : A * World * list Event) : list Event := snd r.

Definition ret {A} (x : A) : M A := fun w => (x, w, []).

Definition bind {A B} (m : M A) (k : A -> M B) : M B := fun w =>
  let '(a, w1, t1) := m w in
  let '(b, w2, t2) := k a w1 in
  (b, w2, t1 ++ t2).

Notation "x <- m ;; k" := (bind m (fun x => k))
  (at level 61, m at next level, right associativity).
Notation "m ;; k" := (bind m (fun _ => k))
  (at level 61, right associativity).

Definition this : M AsyncClient := fun w => (obj w, w, []).

Definition upd (f : AsyncClient -> AsyncClient) : M unit := fun w =>
  (tt, mkWorld (f (obj w)) (sys w), []).

Definition net (c : Lwip.call) : M unit := fun w => (tt, w, [Net c]).

Definition millis : M Z := fun w =>
  let s := sys w in
  (uint32 (clock s (reads s)),
   mkWorld (obj w)
     (mkSys (clock s) (S (reads s)) (lwip_err s) (lwip_n s) (pool s) (route s) (resolver s)
        (errf s)),
   []).

Definition lwip_result : M Z := fun w =>
  let s := sys w in
  (lwip_err s (lwip_n s),
   mkWorld (obj w)
     (mkSys (clock s) (reads s) (lwip_err s) (S (lwip_n s)) (pool s) (route s) (resolver s)
        (errf s)),
   []).

(** *** lwIP operations

    A call is logged and, where the source uses its result, answers from
    the world.  The events lwIP delivers later ([_connected], [_recv],
    [_sent], [_error], [_poll], [_dns_found]) are members of their own
    below; the one callback lwIP makes before a call returns is the error
    callback of [tcp_abort].  The block a held handle points to is kept in
    the [_pcb] field itself. *)

Definition tcp_setprio (p : option Lwip.tcp_pcb) (prio : Z) : M unit :=
  net (Lwip.TcpSetprio (Lwip.ptr p) prio).
Definition tcp_arg (p : option Lwip.tcp_pcb) (arg : bool) : M unit :=
  net (Lwip.TcpArg (Lwip.ptr p) arg).
Definition tcp_recv (p : option Lwip.tcp_pcb) (fn : bool) : M unit :=
  net (Lwip.TcpRecv (Lwip.ptr p) fn).
Definition tcp_sent (p : option Lwip.tcp_pcb) (fn : bool) : M unit :=
  net (Lwip.TcpSent (Lwip.ptr p) fn).
Definition tcp_err (p : option Lwip.tcp_pcb) (fn : bool) : M unit := fun w =>
  (tt, with_errf (Lwip.ptr p) fn w, [Net (Lwip.TcpErr (Lwip.ptr p) fn)]).
Definition tcp_poll (p : option Lwip.tcp_pcb) (fn : bool) (interval : Z) : M unit :=
  net (Lwip.TcpPoll (Lwip.ptr p) fn interval).
(** [len] is a [u16_t]: a caller holding a wider count narrows it. *)
Definition tcp_recved (p : option Lwip.tcp_pcb) (len : Z) : M unit :=
  net (Lwip.TcpRecved (Lwip.ptr p) len).
Definition pbuf_free (b : Lwip.pbuf) : M unit :=
  net (Lwip.PbufFree b).
Definition tcp_connect (p : option Lwip.tcp_pcb) (addr port : Z) : M unit :=
  net (Lwip.TcpConnect (Lwip.ptr p) addr port).

(** [tcp_abort(pcb)] frees the block and, if an error callback is on file
    for it, calls that callback with [ERR_ABRT] before it returns.  The
    only error callback this program registers is the object's own
    trampoline, passed here as [err_fn].  With none on file the call is
    silent. *)
Definition tcp_abort (p : option Lwip.tcp_pcb) (err_fn : Z -> M unit) : M unit := fun w =>
  match p with
  | Some b =>
      if errf (sys w) (Lwip.pcb_id b)
      then bind (fun w0 => (tt, with_errf (Lwip.ptr p) false w0,
                            [Net (Lwip.TcpAbort (Lwip.ptr p))]))
                (fun _ => err_fn Lwip.ERR_ABRT) w
      else net (Lwip.TcpAbort (Lwip.ptr p)) w
  | None => net (Lwip.TcpAbort None) w
  end.

Definition tcp_close (p : option Lwip.tcp_pcb) : M Z :=
  net (Lwip.TcpClose (Lwip.ptr p)) ;; lwip_result.

Definition tcp_output (p : option Lwip.tcp_pcb) : M Z :=
  net (Lwip.TcpOutput (Lwip.ptr p)) ;; lwip_result.

(** [tcp_sndbuf] is a macro reading [snd_buf]; only called on a held handle. *)
Definition tcp_sndbuf (p : option Lwip.tcp_pcb) : Z :=
  match p with Some b => Lwip.snd_buf b | None => 0 end.

(** [tcp_write] on the held handle: when lwIP accepts the bytes it charges
    them to the block's send buffer, [snd_buf -= len]. *)
Definition tcp_write (data : list byte) (len flags : Z) : M Z :=
  c <- this ;;
  net (Lwip.TcpWrite (Lwip.ptr (_pcb c)) data len flags) ;;
  err <- lwip_result ;;
  (if err =? Lwip.ERR_OK
   then upd (fun c => set_pcb
               (option_map (fun b => Lwip.set_snd_buf (Lwip.snd_buf b - len) b) (_pcb c)) c)
   else ret tt) ;;
  ret err.

Definition ip_route (addr : Z) : M bool := fun w =>
  (route (sys w) addr, w, [Net (Lwip.IpRoute addr)]).

Definition tcp_new : M (option Lwip.tcp_pcb) := fun w =>
  let s := sys w in
  match pool s with
  | [] => (None, w, [Net Lwip.TcpNew])
  | b :: rest =>
      (Some b,
       mkWorld (obj w)
         (mkSys (clock s) (reads s) (lwip_err s) (lwip_n s) rest (route s) (resolver s)
            (errf s)),
       [Net Lwip.TcpNew])
  end.

Definition dns_gethostbyname (host : string) : M (Z * Z) := fun w =>
  (resolver (sys w) host, w, [Net (Lwip.DnsGetHostByName host)]).

(** ** Read-only members *)

Definition space (c : AsyncClient) : Z :=
  match _pcb c with
  | Some p => if Lwip.state p =? 4 then Lwip.snd_buf p else 0
  | None => 0
  end.

Definition canSend (c : AsyncClient) : bool := 0 <? space c.

Definition state (c : AsyncClient) : Z :=
  match _pcb c with
  | None => 0
  | Some p => Lwip.state p
  end.

Definition connected (c : AsyncClient) : bool :=
  match _pcb c with
  | None => false
  | Some p => Lwip.state p =? 4
  end.

Definition connecting (c : AsyncClient) : bool :=
  match _pcb c with
  | None => false
  | Some p => (0 <? Lwip.state p) && (Lwip.state p <? 4)
  end.

Definition disconnecting (c : AsyncClient) : bool :=
  match _pcb c with
  | None => false
  | Some p => (4 <? Lwip.state p) && (Lwip.state p <? 10)
  end.

Definition disconnected (c : AsyncClient) : bool :=
  match _pcb c with
  | None => true
  | Some p => (Lwip.state p =? 0) || (Lwip.state p =? 10)
  end.

Definition free (c : AsyncClient) : bool :=
  match _pcb c with
  | None => true
  | Some p => (Lwip.state p =? 0) || (4 <? Lwip.state p)
  end.

Definition freeable (c : AsyncClient) : bool :=
  match _pcb c with
  | None => true
  | Some p => (Lwip.state p =? 0) || (4 <? Lwip.state p)
  end.

Definition stateToString (c : AsyncClient) : string :=
  match state c with
  | 0 => "Closed"
  | 1 => "Listen"
  | 2 => "SYN Sent"
  | 3 => "SYN Received"
  | 4 => "Established"
  | 5 => "FIN Wait 1"
  | 6 => "FIN Wait 2"
  | 7 => "Close Wait"
  | 8 => "Closing"
  | 9 => "Last ACK"
  | 10 => "Time Wait"
  | _ => "UNKNOWN"
  end%string.

Definition errorToString (error : Z) : string :=
  match error with
  | 0 => "OK"
  | -1 => "Out of memory error"
  | -2 => "Buffer error"
  | -3 => "Timeout"
  | -4 => "Routing problem"
  | -5 => "Operation in progress"
  | -6 => "Illegal value"
  | -7 => "Operation would block"
  | -8 => "Connection aborted"
  | -9 => "Connection reset"
  | -10 => "Connection closed"
  | -11 => "Not connected"
  | -12 => "Illegal argument"
  | -13 => "Address in use"
  | -14 => "Low-level netif error"
  | -15 => "Already connected"
  | -55 => "DNS failed"
  | _ => "UNKNOWN"
  end%string.

Definition getRxTimeout (c : AsyncClient) : Z := _rx_since_timeout c.
Definition getAckTimeout (c : AsyncClient) : Z := _ack_timeout c.

(** ** Members that act *)

Section Members.

(** The application's code: what the function at address [f] does when it is
    called with context [arg] for the event [cb], and what it did to the
    outside while it ran. *)
Variable App : App_t.

(** [if(cb) cb(arg, this, ...)] *)
Definition invoke (cb : option fn_ptr) (arg : ctx) (ev : Callback) : M unit := fun w =>
  match cb with
  | None => (tt, w, [])
  | Some f => let r := App f arg ev w in (tt, fst r, [Fire ev f arg (snd r)])
  end.

Definition connect (ip port : Z) : M bool :=
  c <- this ;;
  if _pcb c is Some _ then ret false else
  interface <- ip_route ip ;;
  if negb interface then ret false else
  pcb <- tcp_new ;;
  if pcb is Some _ then
    tcp_arg pcb true ;;
    tcp_err pcb true ;;
    tcp_connect pcb ip port ;;
    ret true
  else ret false.

Definition connect_host (host : string) (port : Z) : M bool :=
  r <- dns_gethostbyname host ;;
  if fst r =? Lwip.ERR_OK then connect (snd r) port
  else if fst r =? Lwip.ERR_INPROGRESS then
    upd (set_connect_port port) ;;
    ret true
  else ret false.

(** [_error(err)] and its trampoline [_s_error], the one error callback the
    object registers with [tcp_err].  They stand here, ahead of their place
    in the source, because lwIP calls the trampoline from inside
    [tcp_abort]. *)
Definition _error (err : Z) : M unit :=
  c <- this ;;
  (if _pcb c is Some _ then
     tcp_arg (_pcb c) false ;;
     tcp_sent (_pcb c) false ;;
     tcp_recv (_pcb c) false ;;
     tcp_err (_pcb c) false ;;
     tcp_poll (_pcb c) false 0 ;;
     upd (set_pcb None)
   else ret tt) ;;
  c <- this ;;
  invoke (_error_cb c) (_error_cb_arg c) (OnError err) ;;
  c <- this ;;
  invoke (_discard_cb c) (_discard_cb_arg c) OnDisconnect.

Definition _s_error (err : Z) : M unit := _error err.

Definition abort : M Z :=
  c <- this ;;
  (if _pcb c is Some _ then
     tcp_abort (_pcb c) _s_error ;;
     upd (set_pcb None)
   else ret tt) ;;
  ret Lwip.ERR_ABRT.

Definition _close : M Z :=
  c <- this ;;
  if _pcb c is Some _ then
    tcp_arg (_pcb c) false ;;
    tcp_sent (_pcb c) false ;;
    tcp_recv (_pcb c) false ;;
    tcp_err (_pcb c) false ;;
    tcp_poll (_pcb c) false 0 ;;
    err <- tcp_close (_pcb c) ;;
    err <- (if negb (err =? Lwip.ERR_OK) then abort else ret err) ;;
    upd (set_pcb None) ;;
    c <- this ;;
    invoke (_discard_cb c) (_discard_cb_arg c) OnDisconnect ;;
    ret err
  else ret Lwip.ERR_OK.

(** [~AsyncClient()] *)
Definition destroy : M unit :=
  c <- this ;;
  if _pcb c is Some _ then _close ;; ret tt else ret tt.

(** [operator=] *)
Definition assign (other : AsyncClient) : M unit :=
  c <- this ;;
  (if _pcb c is Some _ then _close ;; ret tt else ret tt) ;;
  upd (set_pcb (_pcb other)) ;;
  c <- this ;;
  if _pcb c is Some _ then
    tcp_setprio (_pcb c) Lwip.TCP_PRIO_MIN ;;
    tcp_arg (_pcb c) true ;;
    tcp_recv (_pcb c) true ;;
    tcp_sent (_pcb c) true ;;
    tcp_err (_pcb c) true ;;
    tcp_poll (_pcb c) true 1
  else ret tt.

(** [close(now)].  [_rx_ack_len] is a 32-bit count; [tcp_recved] takes a
    [u16_t], so the call narrows it. *)
Definition close (now : bool) : M unit :=
  c <- this ;;
  tcp_recved (_pcb c) (uint16 (_rx_ack_len c)) ;;
  if now then _close ;; ret tt
  else upd (set_close_pcb true).

Definition stop : M unit := close false.

(** [write(data, size)].  [data] is [None] for the null pointer.  The
    recursion of the source is on the bytes left; [fuel] bounds its depth
    and [None] is returned only when the bound is hit. *)
Fixpoint write_fuel (fuel : nat) (data : option (list byte)) (size : Z) : M (option Z) :=
  match fuel with
  | O => ret None
  | S fuel' =>
      c <- this ;;
      match _pcb c, data with
      | Some _, Some bytes =>
          if size =? 0 then ret (Some 0) else
          if negb (canSend c) then ret (Some 0) else
          let room := tcp_sndbuf (_pcb c) in
          let will_send := if room <? size then room else size in
          err <- tcp_write (firstn (Z.to_nat will_send) bytes) will_send 0 ;;
          if negb (err =? Lwip.ERR_OK) then ret (Some 0) else
          c <- this ;;
          err <- tcp_output (_pcb c) ;;
          if negb (err =? Lwip.ERR_OK) then ret (Some 0) else
          now <- millis ;;
          upd (set_pcb_sent_at now) ;;
          upd (set_pcb_busy true) ;;
          if will_send <? size then
            let left := uint32 (size - will_send) in
            r <- write_fuel fuel' (Some (skipn (Z.to_nat will_send) bytes)) left ;;
            ret (option_map (fun n => uint32 (will_send + n)) r)
          else ret (Some size)
      | _, _ => ret (Some 0)
      end
  end.

Definition write (data : option (list byte)) (size : Z) : M (option Z) :=
  write_fuel (S (Z.to_nat size)) data size.

Definition add (data : option (list byte)) (size : Z) : M Z :=
  c <- this ;;
  match _pcb c, data with
  | Some _, Some bytes =>
      if size =? 0 then ret 0 else
      let room := tcp_sndbuf (_pcb c) in
      if room =? 0 then ret 0 else
      let will_send := if room <? size then room else size in
      err <- tcp_write (firstn (Z.to_nat will_send) bytes) will_send 0 ;;
      if negb (err =? Lwip.ERR_OK) then ret 0 else ret will_send
  | _, _ => ret 0
  end.

Definition send : M bool :=
  c <- this ;;
  if negb (canSend c) then ret false else
  err <- tcp_output (_pcb c) ;;
  if err =? Lwip.ERR_OK then
    upd (set_pcb_busy true) ;;
    now <- millis ;;
    upd (set_pcb_sent_at now) ;;
    ret true
  else ret false.

(** [ack(len)].  [len] is a [size_t]; the call to [tcp_recved] narrows it
    to [u16_t]. *)
Definition ack (len : Z) : M Z :=
  c <- this ;;
  let len := if _rx_ack_len c <? len then _rx_ack_len c else len in
  (if negb (len =? 0) then tcp_recved (_pcb c) (uint16 len) else ret tt) ;;
  upd (fun c => set_rx_ack_len (uint32 (_rx_ack_len c - len)) c) ;;
  ret len.

(** *** Events delivered by lwIP *)

Definition _connected (pcb : option Lwip.tcp_pcb) (err : Z) : M Z :=
  upd (set_pcb pcb) ;;
  c <- this ;;
  (if _pcb c is Some _ then
     tcp_setprio (_pcb c) Lwip.TCP_PRIO_MIN ;;
     tcp_recv (_pcb c) true ;;
     tcp_sent (_pcb c) true ;;
     tcp_poll (_pcb c) true 1 ;;
     upd (set_pcb_busy false)
   else ret tt) ;;
  c <- this ;;
  invoke (_connect_cb c) (_connect_cb_arg c) OnConnect ;;
  ret Lwip.ERR_OK.

Definition _sent (pcb : option Lwip.tcp_pcb) (len : Z) : M Z :=
  now <- millis ;;
  upd (set_rx_last_packet now) ;;
  upd (set_pcb_busy false) ;;
  c <- this ;;
  (if _sent_cb c is Some _ then
     now <- millis ;;
     invoke (_sent_cb c) (_sent_cb_arg c) (OnAck len (uint32 (now - _pcb_sent_at c)))
   else ret tt) ;;
  ret Lwip.ERR_OK.

(** The [while(pb != NULL)] loop of [_recv], one [pbuf] of the chain per turn. *)
Fixpoint _recv_loop (pcb : option Lwip.tcp_pcb) (pb : list Lwip.pbuf) : M unit :=
  match pb with
  | [] => ret tt
  | b :: next =>
      upd (set_ack_pcb true) ;;
      c <- this ;;
      invoke (_recv_cb c) (_recv_cb_arg c) (OnData (Lwip.payload b) (Lwip.len b)) ;;
      c <- this ;;
      (if negb (_ack_pcb c)
       then upd (fun c => set_rx_ack_len (uint32 (_rx_ack_len c + Lwip.len b)) c)
       else tcp_recved pcb (Lwip.len b)) ;;
      pbuf_free b ;;
      _recv_loop pcb next
  end.

Definition _recv (pcb : option Lwip.tcp_pcb) (pb : list Lwip.pbuf) (err : Z) : M Z :=
  match pb with
  | [] => _close
  | _ =>
      now <- millis ;;
      upd (set_rx_last_packet now) ;;
      _recv_loop pcb pb ;;
      ret Lwip.ERR_OK
  end.

Definition _poll (pcb : option Lwip.tcp_pcb) : M Z :=
  c <- this ;;
  if _close_pcb c then
    upd (set_close_pcb false) ;;
    _close ;;
    ret Lwip.ERR_OK
  else
    now <- millis ;;
    if _pcb_busy c && negb (_ack_timeout c =? 0)
       && (_ack_timeout c <=? uint32 (now - _pcb_sent_at c))
    then
      upd (set_pcb_busy false) ;;
      invoke (_timeout_cb c) (_timeout_cb_arg c) (OnTimeout (uint32 (now - _pcb_sent_at c))) ;;
      ret Lwip.ERR_OK
    else if negb (_rx_since_timeout c =? 0)
            && (uint32 (_rx_since_timeout c * 1000) <=? uint32 (now - _rx_last_packet c))
    then
      _close ;;
      ret Lwip.ERR_OK
    else
      invoke (_poll_cb c) (_poll_cb_arg c) OnPoll ;;
      ret Lwip.ERR_OK.

Definition _dns_found (ipaddr : option Z) : M unit :=
  c <- this ;;
  match ipaddr with
  | Some addr =>
      connect addr (_connect_port c) ;;
      ret tt
  | None =>
      invoke (_error_cb c) (_error_cb_arg c) (OnError (-55)) ;;
      c <- this ;;
      invoke (_discard_cb c) (_discard_cb_arg c) OnDisconnect
  end.

(** *** Configuration *)

Definition setRxTimeout (timeout : Z) : M unit := upd (set_rx_since_timeout timeout).
Definition setAckTimeout (timeout : Z) : M unit := upd (set_ack_timeout timeout).

Definition onConnect (cb : option fn_ptr) (arg : ctx) : M unit := upd (set_connect_cb cb arg).
Definition onDisconnect (cb : option fn_ptr) (arg : ctx) : M unit := upd (set_discard_cb cb arg).
Definition onAck (cb : option fn_ptr) (arg : ctx) : M unit := upd (set_sent_cb cb arg).
Definition onError (cb : option fn_ptr) (arg : ctx) : M unit := upd (set_error_cb cb arg).
Definition onData (cb : option fn_ptr) (arg : ctx) : M unit := upd (set_recv_cb cb arg).
Definition onTimeout (cb : option fn_ptr) (arg : ctx) : M unit := upd (set_timeout_cb cb arg).
Definition onPoll (cb : option fn_ptr) (arg : ctx) : M unit := upd (set_poll_cb cb arg).

End Members.

(** ** The periodic tick, as the design describes it

    The four things a tick can do, and the first-match rule that picks one.
    [tick_choice] and [perform] are written from the description of the
    timeout supervisor; [_poll] above is the code.  [now] is the clock
    reading the tick takes. *)

Inductive TickAction : Type :=
| DeferredClose
| AckTimeout (elapsed : Z)
| IdleClose
| Heartbeat.

(** Milliseconds from [since] to [now] on the wrapping 32-bit clock. *)
Definition elapsed (now since : Z) : Z := uint32 (now - since).

(** The idle-receive threshold in milliseconds, as [_poll] computes it:
    [_rx_since_timeout * 1000] in 32-bit arithmetic. *)
Definition idle_limit (c : AsyncClient) : Z := uint32 (_rx_since_timeout c * 1000).

Definition ack_timeout_due (c : AsyncClient) (now : Z) : bool :=
  _pcb_busy c && negb (_ack_timeout c =? 0) && (_ack_timeout c <=? elapsed now (_pcb_sent_at c)).

Definition idle_timeout_due (c : AsyncClient) (now : Z) : bool :=
  negb (_rx_since_timeout c =? 0) && (idle_limit c <=? elapsed now (_rx_last_packet c)).

Definition tick_choice (c : AsyncClient) (now : Z) : TickAction :=
  if _close_pcb c then DeferredClose
  else if ack_timeout_due c now then AckTimeout (elapsed now (_pcb_sent_at c))
  else if idle_timeout_due c now then IdleClose
  else Heartbeat.

Definition perform (App : App_t) (a : TickAction) : M unit :=
  match a with
  | DeferredClose =>
      upd (set_close_pcb false) ;;
      _close App ;;
      ret tt
  | AckTimeout e =>
      upd (set_pcb_busy false) ;;
      c <- this ;;
      invoke App (_timeout_cb c) (_timeout_cb_arg c) (OnTimeout e)
  | IdleClose =>
      _close App ;;
      ret tt
  | Heartbeat =>
      c <- this ;;
      invoke App (_poll_cb c) (_poll_cb_arg c) OnPoll
  end.

(** The clock reading the next [millis()] returns. *)
Definition next_millis (w : World) : Z := uint32 (clock (sys w) (reads (sys w))).

(** The world once that reading has been taken. *)
Definition tick_clock (w : World) : World := snd (fst (millis w)).

(** ** Reading a trace *)

(** The callbacks the core itself invoked, in order. *)
Definition callbacks (t : list Event) : list Callback :=
  flat_map (fun e => match e with Fire cb _ _ _ => [cb] | Net _ => [] end) t.

(** The lwIP calls the core itself issued, in order. *)
Definition calls (t : list Event) : list Lwip.call :=
  flat_map (fun e => match e with Net c => [c] | Fire _ _ _ _ => [] end) t.

(** Bytes acknowledged to the transport: the lengths passed to [tcp_recved]. *)
Definition acked_bytes (t : list Event) : Z :=
  fold_right (fun c n => match c with Lwip.TcpRecved _ len => len + n | _ => n end) 0 (calls t).

(** Bytes handed to [tcp_write]. *)
Definition queued_bytes (t : list Event) : list byte :=
  flat_map (fun c => match c with Lwip.TcpWrite _ data _ _ => data | _ => [] end) (calls t).

(** The world once the object has let go of its handle: the field is null
    and lwIP has no error callback on file for the block any more. *)
Definition released (w : World) : World :=
  mkWorld (set_pcb None (obj w)) (set_errf (Lwip.ptr (_pcb (obj w))) false (sys w)).

(** The five calls that take the object's callbacks off a handle. *)
Definition deregister (h : Lwip.handle) : list Event :=
  [Net (Lwip.TcpArg h false); Net (Lwip.TcpSent h false); Net (Lwip.TcpRecv h false);
   Net (Lwip.TcpErr h false); Net (Lwip.TcpPoll h false 0)].

(** How often the core itself invoked [onDisconnect]. *)
Definition disconnects (t : list Event) : nat :=
  List.length (filter (fun cb => match cb with OnDisconnect => true | _ => false end) (callbacks t)).


(** [t], then what [r] did. *)
Definition prepend {A} (t : list Event) (r : A * World * list Event) : A * World * list Event :=
  (val r, post r, t ++ trace r).

(** The result the next fallible lwIP call returns, and the world after it. *)
Definition next_result (w : World) : Z := lwip_err (sys w) (lwip_n (sys w)).
Definition took_result (w : World) : World := snd (fst (lwip_result w)).

(** The world after a chunk of [n] bytes went out: the bytes are charged to
    the send buffer, two lwIP results and one clock reading are used up, and
    the send is marked in flight. *)
Definition after_chunk (n : Z) (w : World) : World :=
  let s := sys w in
  mkWorld
    (set_pcb_busy true
       (set_pcb_sent_at (uint32 (clock s (reads s)))
          (set_pcb (option_map (fun b => Lwip.set_snd_buf (Lwip.snd_buf b - n) b) (_pcb (obj w)))
             (obj w))))
    (mkSys (clock s) (S (reads s)) (lwip_err s) (S (S (lwip_n s))) (pool s) (route s)
       (resolver s) (errf s)).

(** ** Sample worlds, for evaluating the members on concrete input *)

Module Sample.

(** An application whose handlers do nothing. *)
Definition quiet : App_t := fun _ _ _ w => (w, []).

Definition established (window : Z) : Lwip.tcp_pcb := Lwip.mk_pcb 1 4 window.

(** A clock that reads 0, 1500, 3000, ... and an lwIP that never fails; the
    block at address 1 has the error callback on file. *)
Definition env : Sys :=
  mkSys (fun k => 1500 * Z.of_nat k) 0 (fun _ => Lwip.ERR_OK) 0
        [Lwip.mk_pcb 2 0 2920] (fun _ => true) (fun _ => (Lwip.ERR_INPROGRESS, 0))
        (Nat.eqb 1).

(** A connected object with every handler installed and nothing pending. *)
Definition client (window : Z) : AsyncClient :=
  mkAsyncClient (Some (established window))
    (Some 1%nat) 0 (Some 2%nat) 0 (Some 3%nat) 0 (Some 4%nat) 0
    (Some 5%nat) 0 (Some 6%nat) 0 (Some 7%nat) 0
    false 0 false true 0 0 0 5000 0.

Definition world (window : Z) : World := mkWorld (client window) env.

Definition detached : World := mkWorld (set_pcb None (client 0)) env.


(** Handlers that clear the per-delivery auto-ack flag when data arrives. *)
Definition defers : App_t := fun _ _ ev w =>
  match ev with
  | OnData _ _ => (mkWorld (set_ack_pcb false (obj w)) (sys w), [])
  | _ => (w, [])
  end.

(** The connected object with an idle-receive timeout of [secs] seconds. *)
Definition idle_world (secs : Z) : World :=
  mkWorld (set_rx_since_timeout secs (client 100)) env.

(** One [pbuf] of [n] bytes. *)
Definition packet (n : nat) : Lwip.pbuf := Lwip.mk_pbuf (repeat x78 n) (Z.of_nat n).

End Sample.

(** ** Further members of [AsyncClient] *)

(** [strlen]: the bytes before the first NUL.  The list is the memory from
    the pointer on. *)
Fixpoint strlen (s : list byte) : Z :=
  match s with
  | [] => 0
  | b :: rest => if Byte.eqb b x00 then 0 else 1 + strlen rest
  end.

(** [write(const char* data)] *)
Definition write_str (data : option (list byte)) : M (option Z) :=
  match data with
  | None => ret (Some 0)
  | Some s => write data (strlen s)
  end.

(** [AsyncClient(tcp_pcb* pcb)].  The world's object before the call is the
    storage the object is built in: a member the initialiser list does not
    name keeps what the storage held.  [ASYNC_MAX_ACK_TIME] is a constant of
    the header. *)
Definition construct (ASYNC_MAX_ACK_TIME : Z) (pcb : option Lwip.tcp_pcb) : M unit :=
  upd (fun raw =>
         mkAsyncClient (_pcb raw) None 0 None 0 None 0 None 0 None 0 None 0
           (_poll_cb raw) (_poll_cb_arg raw)
           false 0 false true (_rx_ack_len raw) 0 0 ASYNC_MAX_ACK_TIME 0) ;;
  upd (set_pcb pcb) ;;
  c <- this ;;
  if _pcb c is Some _ then
    tcp_setprio (_pcb c) Lwip.TCP_PRIO_MIN ;;
    tcp_arg (_pcb c) true ;;
    tcp_recv (_pcb c) true ;;
    tcp_sent (_pcb c) true ;;
    tcp_err (_pcb c) true ;;
    tcp_poll (_pcb c) true 1
  else ret tt.

(** ** The passive listener [AsyncServer] *)

Module Server.

Record AsyncServer : Type := mkAsyncServer {
  _port : Z;
  _addr : Z;
  _noDelay : bool;
  _pcb : option Lwip.tcp_pcb;
  _connect_cb : option fn_ptr;
  _connect_cb_arg : ctx
}.

Definition set_pcb (v : option Lwip.tcp_pcb) (s : AsyncServer) : AsyncServer :=
  mkAsyncServer (_port s) (_addr s) (_noDelay s) v (_connect_cb s) (_connect_cb_arg s).

(** The lwIP calls only the listener makes. *)
Inductive call : Type :=
| TcpBind (p : Lwip.handle) (addr port : Z)
| TcpListen (p : Lwip.handle)
| TcpAccept (p : Lwip.handle) (fn : bool)
| TcpNagleDisable (p : Lwip.handle)
| TcpNagleEnable (p : Lwip.handle).

(** What the listener does to the outside: calls it shares with the client,
    calls of its own, and the acceptance callback with what that did. *)
Inductive event : Type :=
| Lw (c : Lwip.call)
| Srv (c : call)
| Accepted (f : fn_ptr) (arg : ctx) (inner : list Event).

Definition IPADDR_ANY : Z := 0.
Definition LISTEN : Z := 1.

(** [AsyncServer(IPAddress addr, uint16_t port)] and [AsyncServer(uint16_t port)] *)
Definition create (addr port : Z) : AsyncServer :=
  mkAsyncServer port addr false None None 0.

Definition create_any (port : Z) : AsyncServer :=
  mkAsyncServer port IPADDR_ANY false None None 0.

Definition onClient (cb : option fn_ptr) (arg : ctx) (s : AsyncServer) : AsyncServer :=
  mkAsyncServer (_port s) (_addr s) (_noDelay s) (_pcb s) cb arg.

Definition setNoDelay (nodelay : bool) (s : AsyncServer) : AsyncServer :=
  mkAsyncServer (_port s) (_addr s) nodelay (_pcb s) (_connect_cb s) (_connect_cb_arg s).

Definition getNoDelay (s : AsyncServer) : bool := _noDelay s.

Definition status (s : AsyncServer) : Z :=
  match _pcb s with
  | None => 0
  | Some p => Lwip.state p
  end.

(** The next [err_t] lwIP returns ([tcp_bind] and [tcp_close] draw from the
    same sequence as the client's calls), and the next free block. *)
Definition take_result (y : Sys) : Z * Sys :=
  (lwip_err y (lwip_n y),
   mkSys (clock y) (reads y) (lwip_err y) (S (lwip_n y)) (pool y) (route y) (resolver y)
         (errf y)).

Definition take_block (y : Sys) : option Lwip.tcp_pcb * Sys :=
  match pool y with
  | [] => (None, y)
  | b :: rest =>
      (Some b,
       mkSys (clock y) (reads y) (lwip_err y) (lwip_n y) rest (route y) (resolver y) (errf y))
  end.

(** [tcp_listen] gives back a block of its own, in state LISTEN, or [NULL]
    when there is none to be had. *)
Definition listen_block (y : Sys) : option Lwip.tcp_pcb * Sys :=
  (option_map (fun b => Lwip.mk_pcb (Lwip.pcb_id b) LISTEN (Lwip.snd_buf b)) (fst (take_block y)),
   snd (take_block y)).

Definition begin (s : AsyncServer) (y : Sys) : AsyncServer * Sys * list event :=
  match _pcb s with
  | Some _ => (s, y, [])
  | None =>
      let pcb := fst (take_block y) in
      let y1 := snd (take_block y) in
      match pcb with
      | None => (s, y1, [Lw Lwip.TcpNew])
      | Some _ =>
          let err := fst (take_result y1) in
          let y2 := snd (take_result y1) in
          if negb (err =? Lwip.ERR_OK) then
            (s, snd (take_result y2),
             [Lw Lwip.TcpNew; Srv (TcpBind (Lwip.ptr pcb) (_addr s) (_port s));
              Lw (Lwip.TcpClose (Lwip.ptr pcb))])
          else
            let listen_pcb := fst (listen_block y2) in
            let y3 := snd (listen_block y2) in
            match listen_pcb with
            | None =>
                (s, snd (take_result y3),
                 [Lw Lwip.TcpNew; Srv (TcpBind (Lwip.ptr pcb) (_addr s) (_port s));
                  Srv (TcpListen (Lwip.ptr pcb)); Lw (Lwip.TcpClose (Lwip.ptr pcb))])
            | Some _ =>
                (set_pcb listen_pcb s, y3,
                 [Lw Lwip.TcpNew; Srv (TcpBind (Lwip.ptr pcb) (_addr s) (_port s));
                  Srv (TcpListen (Lwip.ptr pcb));
                  Lw (Lwip.TcpArg (Lwip.ptr listen_pcb) true);
                  Srv (TcpAccept (Lwip.ptr listen_pcb) true)])
            end
      end
  end.

(** [end()].  The listener never calls [tcp_err], so no error callback is
    on file for its block and [tcp_abort] is silent. *)
Definition end_ (s : AsyncServer) (y : Sys) : AsyncServer * Sys * list event :=
  match _pcb s with
  | Some _ =>
      (set_pcb None s, y,
       [Lw (Lwip.TcpAbort (Lwip.ptr (_pcb s))); Lw (Lwip.TcpArg (Lwip.ptr (_pcb s)) false);
        Srv (TcpAccept (Lwip.ptr (_pcb s)) false)])
  | None => (s, y, [])
  end.

(** The tail of [_accept]: [tcp_close], and [tcp_abort] when that fails.  The
    block has not been given to a client, so no error callback is on file
    for it. *)
Definition refuse (pcb : option Lwip.tcp_pcb) (y : Sys) : Sys * list event :=
  let err := fst (take_result y) in
  (snd (take_result y),
   Lw (Lwip.TcpClose (Lwip.ptr pcb)) ::
   (if negb (err =? Lwip.ERR_OK) then [Lw (Lwip.TcpAbort (Lwip.ptr pcb))] else [])).

(** [_accept(pcb, err)].  [storage] is what [new AsyncClient] finds: [None]
    when there is no memory, else the storage the client is built in.  The
    result is the [err_t], the client handed to the callback (as the callback
    left it, with the system) when there is one, else the system alone, and
    the trace.  The callback runs on the new client. *)
Definition _accept (App : App_t) (ASYNC_MAX_ACK_TIME : Z) (storage : option AsyncClient)
    (pcb : option Lwip.tcp_pcb) (err : Z) (s : AsyncServer) (y : Sys)
    : Z * (option AsyncClient * Sys) * list event :=
  match _connect_cb s with
  | Some f =>
      let nagle := Srv (if _noDelay s then TcpNagleDisable (Lwip.ptr pcb)
                        else TcpNagleEnable (Lwip.ptr pcb)) in
      match storage with
      | Some raw =>
          let built := construct ASYNC_MAX_ACK_TIME pcb (mkWorld raw y) in
          let h := App f (_connect_cb_arg s) OnConnect (post built) in
          (Lwip.ERR_OK, (Some (obj (fst h)), sys (fst h)),
           nagle :: map Lw (calls (trace built)) ++ [Accepted f (_connect_cb_arg s) (snd h)])
      | None =>
          (Lwip.ERR_OK, (None, fst (refuse pcb y)), nagle :: snd (refuse pcb y))
      end
  | None => (Lwip.ERR_OK, (None, fst (refuse pcb y)), snd (refuse pcb y))
  end.

End Server.

(** ** Measures used in the statements *)

(** The bytes in a [pbuf] chain. *)
Definition chain_len (pb : list Lwip.pbuf) : Z :=
  fold_right (fun b n => Lwip.len b + n) 0 pb.

(** The world once [tcp_new] has taken a block and left [rest] in the pool. *)
Definition with_pool (rest : list Lwip.tcp_pcb) (w : World) : World :=
  mkWorld (obj w)
    (mkSys (clock (sys w)) (reads (sys w)) (lwip_err (sys w)) (lwip_n (sys w)) rest
       (route (sys w)) (resolver (sys w)) (errf (sys w))).

(** The five calls of a [connect] that goes through, on block [b]. *)
Definition connecting_calls (b : Lwip.tcp_pcb) (ip port : Z) : list Event :=
  [Net (Lwip.IpRoute ip); Net Lwip.TcpNew; Net (Lwip.TcpArg (Some (Lwip.pcb_id b)) true);
   Net (Lwip.TcpErr (Some (Lwip.pcb_id b)) true);
   Net (Lwip.TcpConnect (Some (Lwip.pcb_id b)) ip port)].

(** ** More sample worlds *)

Module Fixture.

(** An lwIP whose second answer is an out-of-memory error; the error
    callback is on file for the block at address 1. *)
Definition flaky_env : Sys :=
  mkSys (fun k => 1500 * Z.of_nat k) 0 (fun k => if Nat.eqb k 1 then -1 else 0) 0
        [] (fun _ => true) (fun _ => (Lwip.ERR_INPROGRESS, 0)) (Nat.eqb 1).

Definition flaky_world : World := mkWorld (Sample.client 100) flaky_env.

(** Two free blocks, a clock standing at [t], and the error callback on
    file for the block at address 1. *)
Definition env_at (t : Z) : Sys :=
  mkSys (fun _ => t) 0 (fun _ => Lwip.ERR_OK) 0
        [Lwip.mk_pcb 2 0 2920; Lwip.mk_pcb 3 0 2920] (fun _ => true)
        (fun _ => (Lwip.ERR_INPROGRESS, 0)) (Nat.eqb 1).

Definition unconnected : World := mkWorld (set_pcb None (Sample.client 0)) (env_at 0).

(** A send in flight since 100 ms before the clock wrapped, ack timeout 5000. *)
Definition in_flight : World :=
  mkWorld (set_pcb_sent_at (2 ^ 32 - 100) (set_pcb_busy true (Sample.client 100)))
          (env_at 5900).

(** An idle timeout of 4294968 s; the clock stands at 1500 ms. *)
Definition long_idle : World :=
  mkWorld (set_rx_since_timeout 4294968 (Sample.client 100)) (env_at 1500).

(** A backlog of 40 bytes. *)
Definition backlog_40 : World := mkWorld (set_rx_ack_len 40 (Sample.client 100)) Sample.env.

(** A listener on port 80 with an acceptance callback. *)
Definition listener : Server.AsyncServer :=
  Server.onClient (Some 9%nat) 0 (Server.create_any 80).

(** Characters and a terminator, then more memory. *)
Definition hello : list byte := [x68; x65; x6c; x6c; x6f; x00; x78; x78].

End Fixture.

(** * Running a computation, one step at a time

    Equations that execute the first step of a computation on a world.
    Rewriting with them runs a member symbolically without unfolding the
    members it calls. *)

Lemma run_bind_ret {A B} (x : A) (k : A -> M B) (w : World) : bind (ret x) k w = k x w.
Proof. unfold bind, ret. now destruct (k x w) as [[b w2] t2]. Qed.

Lemma run_bind_this {B} (k : AsyncClient -> M B) (w : World) : bind this k w = k (obj w) w.
Proof. unfold bind, this. now destruct (k (obj w) w) as [[b w2] t2]. Qed.

Lemma run_bind_upd {B} (f : AsyncClient -> AsyncClient) (k : unit -> M B) (w : World) :
  bind (upd f) k w = k tt (mkWorld (f (obj w)) (sys w)).
Proof. unfold bind, upd. now destruct (k tt _) as [[b w2] t2]. Qed.

Lemma run_bind_net {B} (c : Lwip.call) (k : unit -> M B) (w : World) :
  bind (net c) k w = prepend [Net c] (k tt w).
Proof. unfold bind, net, prepend. now destruct (k tt w) as [[b w2] t2]. Qed.

Lemma run_bind_tcp_err {B} (p : option Lwip.tcp_pcb) (fn : bool) (k : unit -> M B)
    (w : World) :
  bind (tcp_err p fn) k w =
  prepend [Net (Lwip.TcpErr (Lwip.ptr p) fn)] (k tt (with_errf (Lwip.ptr p) fn w)).
Proof. unfold bind, tcp_err, prepend. now destruct (k tt _) as [[b w2] t2]. Qed.

(** [tcp_abort] on a block: with an error callback on file lwIP forgets the
    block and runs the callback; with none it only aborts. *)
Lemma run_bind_tcp_abort {B} (p : Lwip.tcp_pcb) (f : Z -> M unit) (k : unit -> M B)
    (w : World) :
  bind (tcp_abort (Some p) f) k w =
  prepend [Net (Lwip.TcpAbort (Some (Lwip.pcb_id p)))]
    (if errf (sys w) (Lwip.pcb_id p)
     then bind (f Lwip.ERR_ABRT) k (with_errf (Some (Lwip.pcb_id p)) false w)
     else k tt w).
Proof.
  unfold bind at 1. unfold tcp_abort. destruct (errf (sys w) (Lwip.pcb_id p)).
  - unfold bind, prepend. cbn [Lwip.ptr option_map].
    destruct (f Lwip.ERR_ABRT _) as [[u w1] t1]. now destruct (k u w1) as [[b w2] t2].
  - unfold net, prepend. cbn [Lwip.ptr option_map]. now destruct (k tt w) as [[b w2] t2].
Qed.

(** What [tcp_err] leaves alone, and what it writes. *)
Lemma obj_with_errf (h : Lwip.handle) (fn : bool) (w : World) : obj (with_errf h fn w) = obj w.
Proof. reflexivity. Qed.

Lemma errf_with_same (i : nat) (fn : bool) (w : World) :
  errf (sys (with_errf (Some i) fn w)) i = fn.
Proof. cbn. now rewrite Nat.eqb_refl. Qed.

Lemma errf_with_other (i j : nat) (fn : bool) (w : World) :
  j <> i -> errf (sys (with_errf (Some i) fn w)) j = errf (sys w) j.
Proof. intros H. cbn. apply Nat.eqb_neq in H. now rewrite H. Qed.

Lemma next_result_with_errf (h : Lwip.handle) (fn : bool) (w : World) :
  next_result (with_errf h fn w) = next_result w.
Proof. now destruct h. Qed.

Lemma took_result_with_errf (h : Lwip.handle) (fn : bool) (w : World) :
  took_result (with_errf h fn w) = with_errf h fn (took_result w).
Proof. now destruct h. Qed.

Lemma next_millis_with_errf (h : Lwip.handle) (fn : bool) (w : World) :
  next_millis (with_errf h fn w) = next_millis w.
Proof. now destruct h. Qed.

Lemma tick_clock_with_errf (h : Lwip.handle) (fn : bool) (w : World) :
  tick_clock (with_errf h fn w) = with_errf h fn (tick_clock w).
Proof. now destruct h. Qed.

Lemma pool_with_errf (h : Lwip.handle) (fn : bool) (w : World) :
  pool (sys (with_errf h fn w)) = pool (sys w).
Proof. now destruct h. Qed.

Lemma route_with_errf (h : Lwip.handle) (fn : bool) (w : World) :
  route (sys (with_errf h fn w)) = route (sys w).
Proof. now destruct h. Qed.

Lemma run_bind_millis {B} (k : Z -> M B) (w : World) :
  bind millis k w = k (next_millis w) (tick_clock w).
Proof.
  unfold bind, next_millis, tick_clock, millis. cbn.
  now destruct (k _ _) as [[b w2] t2].
Qed.

Lemma run_bind_lwip_result {B} (k : Z -> M B) (w : World) :
  bind lwip_result k w = k (next_result w) (took_result w).
Proof.
  unfold bind, next_result, took_result, lwip_result. cbn.
  now destruct (k _ _) as [[b w2] t2].
Qed.

Lemma run_bind_assoc {A B C} (m : M A) (k1 : A -> M B) (k2 : B -> M C) (w : World) :
  bind (bind m k1) k2 w = bind m (fun a => bind (k1 a) k2) w.
Proof.
  unfold bind. destruct (m w) as [[a w1] t1]. destruct (k1 a w1) as [[b w2] t2].
  destruct (k2 b w2) as [[c w3] t3]. now rewrite app_assoc.
Qed.

Lemma run_bind_prepend {A B} (m : M A) (k : A -> M B) (w : World) :
  bind m k w = prepend (trace (m w)) (k (val (m w)) (post (m w))).
Proof.
  unfold bind, prepend. destruct (m w) as [[a w1] t1]. cbn.
  now destruct (k a w1) as [[b w2] t2].
Qed.

Lemma run_then_ret {A B} (m : M A) (x : B) (w : World) :
  bind m (fun _ => ret x) w = (x, post (m w), trace (m w)).
Proof. unfold bind, ret. destruct (m w) as [[a w1] t1]. cbn. now rewrite app_nil_r. Qed.

Lemma run_invoke (App : App_t) (cb : option fn_ptr) (arg : ctx) (ev : Callback) (w : World) :
  invoke App cb arg ev w =
  match cb with
  | None => (tt, w, [])
  | Some f => (tt, fst (App f arg ev w), [Fire ev f arg (snd (App f arg ev w))])
  end.
Proof. reflexivity. Qed.

Lemma run_bind_invoke {B} (App : App_t) (cb : option fn_ptr) (arg : ctx) (ev : Callback)
    (k : unit -> M B) (w : World) :
  bind (invoke App cb arg ev) k w =
  match cb with
  | None => k tt w
  | Some f => prepend [Fire ev f arg (snd (App f arg ev w))] (k tt (fst (App f arg ev w)))
  end.
Proof.
  unfold bind, invoke, prepend. destruct cb as [f|].
  - now destruct (k tt _) as [[b w2] t2].
  - now destruct (k tt w) as [[b w2] t2].
Qed.

Lemma obj_tick_clock (w : World) : obj (tick_clock w) = obj w.
Proof. reflexivity. Qed.

Lemma obj_took_result (w : World) : obj (took_result w) = obj w.
Proof. reflexivity. Qed.

(** Projections of records and of results, and nothing else. *)
Ltac fields :=
  cbn [obj sys clock reads lwip_err lwip_n pool route resolver errf with_pool
       _pcb _connect_cb _connect_cb_arg _discard_cb _discard_cb_arg _sent_cb _sent_cb_arg
       _error_cb _error_cb_arg _recv_cb _recv_cb_arg _timeout_cb _timeout_cb_arg
       _poll_cb _poll_cb_arg _pcb_busy _pcb_sent_at _close_pcb _ack_pcb _rx_ack_len
       _rx_last_packet _rx_since_timeout _ack_timeout _connect_port
       set_pcb set_pcb_busy set_pcb_sent_at set_close_pcb set_ack_pcb set_rx_ack_len
       set_rx_last_packet set_rx_since_timeout set_ack_timeout set_connect_port
       set_connect_cb set_discard_cb set_sent_cb set_error_cb set_recv_cb set_timeout_cb
       set_poll_cb
       Lwip.pcb_id Lwip.state Lwip.snd_buf Lwip.set_snd_buf Lwip.payload Lwip.len Lwip.ptr
       option_map ret val post trace prepend fst snd app negb andb orb] in *.

Ltac step :=
  first
    [ rewrite run_bind_assoc
    | rewrite run_bind_ret
    | rewrite run_bind_this
    | rewrite run_bind_upd
    | rewrite run_bind_net
    | rewrite run_bind_tcp_err
    | rewrite run_bind_millis
    | rewrite run_bind_lwip_result
    | rewrite run_bind_invoke
    | rewrite run_invoke ];
  cbv beta.

Ltac exec :=
  unfold tcp_setprio, tcp_arg, tcp_recv, tcp_sent, tcp_poll, tcp_recved,
    pbuf_free, tcp_connect, tcp_close, tcp_output;
  repeat (progress (repeat step; fields;
                    rewrite ?obj_tick_clock, ?obj_took_result, ?obj_with_errf,
                      ?next_result_with_errf, ?took_result_with_errf,
                      ?next_millis_with_errf, ?tick_clock_with_errf in * )).

(** ** What the members do on a held and on an absent handle *)

Lemma run_close_none (App : App_t) (w : World) :
  _pcb (obj w) = None -> _close App w = (Lwip.ERR_OK, w, []).
Proof. intros H. unfold _close. exec. now rewrite H. Qed.

(** [abort()] on a block with no error callback on file: one [tcp_abort]. *)
Lemma run_abort_quiet (App : App_t) (w : World) (p : Lwip.tcp_pcb) :
  _pcb (obj w) = Some p ->
  errf (sys w) (Lwip.pcb_id p) = false ->
  abort App w =
  (Lwip.ERR_ABRT, mkWorld (set_pcb None (obj w)) (sys w),
   [Net (Lwip.TcpAbort (Some (Lwip.pcb_id p)))]).
Proof.
  intros H He. unfold abort. exec. rewrite H. rewrite run_bind_assoc, run_bind_tcp_abort, He.
  exec. reflexivity.
Qed.

(** [abort()] on a block with the error callback on file: lwIP runs
    [_error(ERR_ABRT)] from inside [tcp_abort], while the object still holds
    the handle; [abort()] then clears the field once more. *)
Lemma run_abort_live (App : App_t) (w : World) (p : Lwip.tcp_pcb) :
  _pcb (obj w) = Some p ->
  errf (sys w) (Lwip.pcb_id p) = true ->
  let e := _error App Lwip.ERR_ABRT (with_errf (Some (Lwip.pcb_id p)) false w) in
  abort App w =
  (Lwip.ERR_ABRT, mkWorld (set_pcb None (obj (post e))) (sys (post e)),
   Net (Lwip.TcpAbort (Some (Lwip.pcb_id p))) :: trace e).
Proof.
  intros H He e. subst e. unfold abort. exec. rewrite H.
  rewrite run_bind_assoc, run_bind_tcp_abort, He. unfold _s_error.
  rewrite run_bind_prepend. exec. unfold prepend, ret. cbn [val post trace fst snd app].
  rewrite app_nil_r. reflexivity.
Qed.

(** [_close] on a held handle: deregister, [tcp_close], [tcp_abort] if that
    failed, drop the handle, then [onDisconnect] on the world without it. *)
Lemma run_close_held (App : App_t) (w : World) (p : Lwip.tcp_pcb) :
  _pcb (obj w) = Some p ->
  let h := Some (Lwip.pcb_id p) in
  let ok := next_result w =? Lwip.ERR_OK in
  let r := invoke App (_discard_cb (obj w)) (_discard_cb_arg (obj w)) OnDisconnect
             (released (took_result w)) in
  _close App w =
  (if ok then Lwip.ERR_OK else Lwip.ERR_ABRT,
   post r,
   deregister h ++ Net (Lwip.TcpClose h) :: (if ok then [] else [Net (Lwip.TcpAbort h)])
     ++ trace r).
Proof.
  intros H h ok r. subst h ok r. unfold _close. exec. rewrite H. exec.
  destruct (Z.eqb_spec (next_result w) Lwip.ERR_OK) as [E|E]; cbn [negb].
  - exec. unfold released. rewrite ?obj_took_result, H. fields.
    destruct (_discard_cb (obj w)); exec; rewrite E; reflexivity.
  - rewrite run_bind_prepend.
    rewrite (run_abort_quiet App _ p) by first [exact H|apply errf_with_same].
    exec. unfold released. rewrite ?obj_took_result, H. fields.
    destruct (_discard_cb (obj w)); exec; reflexivity.
Qed.

Lemma run_close_now (App : App_t) (w : World) :
  close App true w =
  prepend [Net (Lwip.TcpRecved (Lwip.ptr (_pcb (obj w))) (uint16 (_rx_ack_len (obj w))))]
    (tt, post (_close App w), trace (_close App w)).
Proof. unfold close. exec. now rewrite run_then_ret. Qed.

Lemma disconnects_app (t1 t2 : list Event) :
  disconnects (t1 ++ t2) = (disconnects t1 + disconnects t2)%nat.
Proof.
  unfold disconnects, callbacks. now rewrite flat_map_app, filter_app, length_app.
Qed.

Lemma disconnects_close_held (App : App_t) (w : World) (p : Lwip.tcp_pcb) (g : fn_ptr) :
  _pcb (obj w) = Some p -> _discard_cb (obj w) = Some g ->
  disconnects (trace (_close App w)) = 1%nat.
Proof.
  intros Hp Hg. rewrite (run_close_held App w p Hp). rewrite Hg.
  cbn [trace snd]. rewrite disconnects_app.
  change (?a :: ?l ++ ?t) with ((a :: l) ++ t). rewrite disconnects_app.
  now destruct (next_result w =? Lwip.ERR_OK).
Qed.

(** [ack(n)] on a backlog of [b]: the clamped count goes to [tcp_recved]
    narrowed to 16 bits, unless it is zero. *)
Lemma run_ack (n : Z) (w : World) :
  0 <= n -> 0 <= _rx_ack_len (obj w) < 2 ^ 32 ->
  let b := _rx_ack_len (obj w) in
  ack n w =
  (Z.min n b, mkWorld (set_rx_ack_len (Z.max 0 (b - n)) (obj w)) (sys w),
   if Z.min n b =? 0 then []
   else [Net (Lwip.TcpRecved (Lwip.ptr (_pcb (obj w))) (uint16 (Z.min n b)))]).
Proof.
  intros Hn Hb b.
  assert (Hm : (if b <? n then b else n) = Z.min n b).
  { destruct (Z.ltb_spec b n); lia. }
  assert (Hleft : uint32 (b - Z.min n b) = Z.max 0 (b - n)).
  { unfold uint32. rewrite Z.mod_small by (subst b; lia). lia. }
  unfold ack. exec. fold b. rewrite Hm.
  destruct (Z.min n b =? 0); exec; fold b; rewrite Hleft; reflexivity.
Qed.

Lemma uint16_small (x : Z) : 0 <= x < 2 ^ 16 -> uint16 x = x.
Proof. intros H. unfold uint16. now apply Z.mod_small. Qed.

(** ** Reading off calls and callbacks *)

Lemma callbacks_app (t1 t2 : list Event) :
  callbacks (t1 ++ t2) = callbacks t1 ++ callbacks t2.
Proof. unfold callbacks. apply flat_map_app. Qed.

Lemma calls_app (t1 t2 : list Event) : calls (t1 ++ t2) = calls t1 ++ calls t2.
Proof. unfold calls. apply flat_map_app. Qed.

Lemma calls_invoke (App : App_t) (cb : option fn_ptr) (arg : ctx) (ev : Callback) (w : World) :
  calls (trace (invoke App cb arg ev w)) = [].
Proof. rewrite run_invoke. now destruct cb. Qed.

Lemma callbacks_invoke (App : App_t) (cb : option fn_ptr) (arg : ctx) (ev : Callback)
    (w : World) :
  callbacks (trace (invoke App cb arg ev w)) = (if cb is Some _ then [ev] else []).
Proof. rewrite run_invoke. now destruct cb. Qed.

(** What [_close] on a held handle does to the outside. *)
Lemma close_held_outside (App : App_t) (w : World) (p : Lwip.tcp_pcb) :
  _pcb (obj w) = Some p ->
  let h := Some (Lwip.pcb_id p) in
  let r := _close App w in
  calls (trace r) =
    calls (deregister h) ++ Lwip.TcpClose h ::
    (if next_result w =? Lwip.ERR_OK then [] else [Lwip.TcpAbort h]) /\
  callbacks (trace r) = (if _discard_cb (obj w) is Some _ then [OnDisconnect] else []) /\
  val r = (if next_result w =? Lwip.ERR_OK then Lwip.ERR_OK else Lwip.ERR_ABRT) /\
  post r = post (invoke App (_discard_cb (obj w)) (_discard_cb_arg (obj w)) OnDisconnect
                   (released (took_result w))).
Proof.
  intros Hp h r. subst h r. rewrite (run_close_held App w p Hp). fields.
  change (?a ++ ?x :: ?b ++ ?c) with (a ++ (x :: b) ++ c).
  rewrite !calls_app, !callbacks_app, calls_invoke, callbacks_invoke, app_nil_r.
  repeat split.
  - now destruct (next_result w =? Lwip.ERR_OK).
  - now destruct (next_result w =? Lwip.ERR_OK).
Qed.

(** ** The tick follows its description *)

Lemma poll_refines_tick (App : App_t) (pcb : option Lwip.tcp_pcb) (w : World) :
  _poll App pcb w =
  let a := tick_choice (obj w) (next_millis w) in
  let r := perform App a (if _close_pcb (obj w) then w else tick_clock w) in
  (Lwip.ERR_OK, post r, trace r).
Proof.
  unfold _poll, tick_choice, perform. exec.
  destruct (_close_pcb (obj w)) eqn:Hc.
  - exec. now rewrite !run_then_ret.
  - exec. unfold ack_timeout_due, idle_timeout_due, elapsed, idle_limit.
    destruct (_pcb_busy (obj w) && _ && _).
    + exec. now destruct (_timeout_cb (obj w)).
    + destruct (negb (_rx_since_timeout (obj w) =? 0) && _).
      * now rewrite !run_then_ret.
      * exec. now destruct (_poll_cb (obj w)).
Qed.

(** * [write]: the bound on the recursion is never hit *)

Lemma uint32_le (x : Z) : 0 <= x -> 0 <= uint32 x <= x.
Proof.
  intros H. unfold uint32. split.
  - apply Z.mod_pos_bound. lia.
  - apply Z.mod_le; lia.
Qed.

Lemma run_then_map {A B} (m : M A) (f : A -> B) (w : World) :
  bind m (fun a => ret (f a)) w = (f (val (m w)), post (m w), trace (m w)).
Proof. unfold bind, ret. destruct (m w) as [[a w1] t1]. cbn. now rewrite app_nil_r. Qed.

Lemma write_fuel_no_window (fuel : nat) (data : option (list byte)) (size : Z) (w : World) :
  canSend (obj w) = false ->
  write_fuel (S fuel) data size w = (Some 0, w, []).
Proof.
  intros H. cbn [write_fuel]. exec.
  destruct (_pcb (obj w)), data; try reflexivity.
  destruct (size =? 0); [reflexivity|]. now rewrite H.
Qed.

(** One turn of [write] when the handle is established, the window is open
    and lwIP accepts the chunk. *)
Lemma write_fuel_chunk (fuel : nat) (bytes : list byte) (size : Z) (w : World)
    (p : Lwip.tcp_pcb) :
  _pcb (obj w) = Some p ->
  Lwip.state p = 4 ->
  0 < Lwip.snd_buf p ->
  size <> 0 ->
  lwip_err (sys w) (lwip_n (sys w)) = Lwip.ERR_OK ->
  lwip_err (sys w) (S (lwip_n (sys w))) = Lwip.ERR_OK ->
  let n := Z.min (Lwip.snd_buf p) size in
  let sent := [Net (Lwip.TcpWrite (Some (Lwip.pcb_id p)) (firstn (Z.to_nat n) bytes) n 0);
               Net (Lwip.TcpOutput (Some (Lwip.pcb_id p)))] in
  write_fuel (S fuel) (Some bytes) size w =
  if n <? size then
    let r := write_fuel fuel (Some (skipn (Z.to_nat n) bytes)) (uint32 (size - n))
               (after_chunk n w) in
    (option_map (fun k => uint32 (n + k)) (val r), post r, sent ++ trace r)
  else (Some size, after_chunk n w, sent).
Proof.
  intros Hp Hst Hroom Hsize Hw Ho n sent. subst n sent.
  assert (Hc : canSend (obj w) = true).
  { unfold canSend, space. rewrite Hp, Hst. cbn. now apply Z.ltb_lt. }
  apply Z.eqb_neq in Hsize.
  assert (Hw' : next_result w = Lwip.ERR_OK) by exact Hw.
  assert (Ho' : next_result (took_result w) = Lwip.ERR_OK) by exact Ho.
  cbn [write_fuel]. unfold tcp_write. exec. rewrite Hp, Hsize, Hc. cbv iota. exec.
  rewrite Hw'. repeat (progress (exec; rewrite ?Z.eqb_refl, ?Hp)).
  change (next_result _) with (next_result (took_result w)).
  rewrite Ho'. repeat (progress (exec; rewrite ?Z.eqb_refl, ?Hp)).
  unfold tcp_sndbuf.
  match goal with |- context [(if _ then _ else _) ?w'] =>
    assert (Hw1 : w' = after_chunk (if Lwip.snd_buf p <? size then Lwip.snd_buf p else size) w)
      by (unfold after_chunk; rewrite Hp; reflexivity);
    rewrite Hw1; clear Hw1
  end.
  destruct (Z.ltb_spec (Lwip.snd_buf p) size) as [Hlt|Hle].
  - rewrite Z.min_l by lia.
    assert (E : (Lwip.snd_buf p <? size) = true) by now apply Z.ltb_lt.
    rewrite E. rewrite run_then_map . reflexivity.
  - rewrite Z.min_r by lia.
    assert (E : (size <? size) = false) by (apply Z.ltb_ge; lia).
    rewrite E. reflexivity.
Qed.

Lemma write_fuel_total (fuel : nat) :
  forall data size w, (Z.to_nat size < fuel)%nat -> val (write_fuel fuel data size w) <> None.
Proof.
  induction fuel as [|fuel IH]; intros data size w Hf; [lia|].
  cbn [write_fuel]. unfold tcp_write. exec.
  destruct (_pcb (obj w)) as [p|] eqn:Hp; [|discriminate].
  destruct data as [bytes|]; [|discriminate].
  destruct (Z.eqb_spec size 0); [discriminate|].
  destruct (canSend (obj w)) eqn:Hc; [|discriminate]. exec.
  unfold canSend, space in Hc. rewrite Hp in Hc.
  destruct (Lwip.state p =? 4); [|discriminate]. apply Z.ltb_lt in Hc.
  destruct (next_result w =? Lwip.ERR_OK) eqn:E1;
    repeat (progress (exec; rewrite ?E1, ?Hp)); [|discriminate].
  match goal with |- context [next_result ?x =? Lwip.ERR_OK] =>
    destruct (next_result x =? Lwip.ERR_OK) eqn:E2 end;
    repeat (progress (exec; rewrite ?E2, ?Hp)); [|discriminate].
  unfold tcp_sndbuf.
  destruct (Z.ltb_spec (Lwip.snd_buf p) size) as [Hlt|Hle].
  - assert (E : (Lwip.snd_buf p <? size) = true) by now apply Z.ltb_lt.
    rewrite E. rewrite run_then_map. fields.
    match goal with |- context [write_fuel fuel ?d ?s ?w'] =>
      specialize (IH d s w'); destruct (write_fuel fuel d s w') as [[a w1] t1] end.
    fields. destruct a; [discriminate|]. exfalso. apply IH; [|reflexivity].
    pose proof (uint32_le (size - Lwip.snd_buf p)). lia.
  - assert (E : (size <? size) = false) by (apply Z.ltb_ge; lia).
    rewrite E. discriminate.
Qed.

(** [write] always returns a count. *)
Lemma write_returns (data : option (list byte)) (size : Z) (w : World) :
  exists n, val (write data size w) = Some n.
Proof.
  destruct (val (write data size w)) as [n|] eqn:E; [now exists n|].
  exfalso. revert E. apply write_fuel_total. lia.
Qed.

(** * Properties of the connection object *)

(** ** Write pacing *)

(** C1: an established handle with a free send window of exactly 100 bytes,
    [write(data, 250)], every [tcp_write] and [tcp_output] succeeding and
    nothing reopening the window.  The call returns 100: it queues the first
    [min(100, 250) = 100] bytes, flushes them, marks the send in flight and
    recurses on the other 150; with the window at zero that call returns 0
    and touches nothing, so those bytes never reach [tcp_write]. *)
Theorem write_250_into_window_100 (w : World) (p : Lwip.tcp_pcb) (bytes : list byte) :
  _pcb (obj w) = Some p ->
  Lwip.state p = 4 ->
  Lwip.snd_buf p = 100 ->
  (forall k, lwip_err (sys w) k = Lwip.ERR_OK) ->
  let r := write (Some bytes) 250 w in
  val r = Some 100 /\
  trace r = [Net (Lwip.TcpWrite (Some (Lwip.pcb_id p)) (firstn 100 bytes) 100 0);
             Net (Lwip.TcpOutput (Some (Lwip.pcb_id p)))] /\
  queued_bytes (trace r) = firstn 100 bytes /\
  post r = after_chunk 100 w /\
  _pcb_busy (obj (post r)) = true /\
  space (obj (post r)) = 0 /\
  write (Some (skipn 100 bytes)) 150 (post r) = (Some 0, post r, []).
Proof.
  intros Hp Hst Hbuf Hok r.
  assert (Hc : canSend (obj (after_chunk 100 w)) = false).
  { unfold canSend, space, after_chunk. fields. rewrite Hp. fields.
    rewrite Hst, Hbuf. reflexivity. }
  assert (Hr : r = (Some 100, after_chunk 100 w,
             [Net (Lwip.TcpWrite (Some (Lwip.pcb_id p)) (firstn 100 bytes) 100 0);
              Net (Lwip.TcpOutput (Some (Lwip.pcb_id p)))])).
  { subst r. unfold write.
    rewrite (write_fuel_chunk _ bytes 250 w p Hp Hst); try (rewrite ?Hbuf; lia); try apply Hok.
    rewrite Hbuf. change (Z.min 100 250) with 100. change (100 <? 250) with true.
    change (uint32 (250 - 100)) with 150. cbv iota.
    change (Z.to_nat 250) with (S (Z.to_nat 249)).
    rewrite write_fuel_no_window by exact Hc. reflexivity. }
  rewrite Hr. unfold val, post, trace. cbn [fst snd].
  repeat split.
  - unfold queued_bytes. cbn. apply app_nil_r.
  - unfold space, after_chunk. fields. rewrite Hp. fields. rewrite Hst, Hbuf. reflexivity.
  - unfold write. now rewrite write_fuel_no_window.
Qed.

Lemma write_250_into_window_100_witness :
  Lwip.snd_buf (Sample.established 100) = 100 /\
  val (write (Some (repeat x78 250)) 250 (Sample.world 100)) = Some 100.
Proof.
  split; [reflexivity|].
  apply (write_250_into_window_100 (Sample.world 100) (Sample.established 100)
           (repeat x78 250)); reflexivity.
Defined.

(** ** Teardown *)

(** Where the error callback comes from: the constructor and [connect]
    register it on the block they are given or create, and [operator=] on
    the handle it takes over. *)
Lemma handle_gets_error_callback (App : App_t) (w : World) (b : Lwip.tcp_pcb) :
  (forall max_ack, errf (sys (post (construct max_ack (Some b) w))) (Lwip.pcb_id b) = true) /\
  (forall ip port rest,
     _pcb (obj w) = None -> route (sys w) ip = true -> pool (sys w) = b :: rest ->
     errf (sys (post (connect ip port w))) (Lwip.pcb_id b) = true) /\
  (forall other,
     _pcb (obj w) = None -> _pcb other = Some b ->
     errf (sys (post (assign App other w))) (Lwip.pcb_id b) = true).
Proof.
  repeat split.
  - intros max_ack. unfold construct. exec. apply errf_with_same.
  - intros ip port rest Hp Hr Hpool. unfold connect. exec. rewrite Hp.
    unfold ip_route. rewrite run_bind_prepend. cbn [val post trace fst snd]. rewrite Hr.
    cbn [negb]. unfold tcp_new. rewrite run_bind_prepend. rewrite Hpool. exec.
    apply errf_with_same.
  - intros other Hp Ho. unfold assign. exec. rewrite Hp. exec. rewrite Ho. exec.
    apply errf_with_same.
Qed.

(** C2: with a handle held, the error callback on file for it (as it is
    for every handle the object stores) and an [onDisconnect] handler
    installed (and handlers that leave that slot alone), every release
    invokes [onDisconnect] exactly once: [close(true)], an empty delivery, a
    tick that performs the deferred close or the idle-receive close, a
    transport error, the destructor, an assignment, and [abort()].  In
    [abort()] it is lwIP that reports: [tcp_abort] calls the error callback
    with the connection-aborted code before it returns, so [_error] takes the
    callbacks off the handle and invokes [onError], then [onDisconnect];
    [abort()] returns that code with the handle gone. *)
Theorem release_fires_disconnect
    (App : App_t) (w : World) (p : Lwip.tcp_pcb) (g : fn_ptr) :
  _pcb (obj w) = Some p ->
  errf (sys w) (Lwip.pcb_id p) = true ->
  _discard_cb (obj w) = Some g ->
  (forall f a ev w', _discard_cb (obj (fst (App f a ev w'))) = _discard_cb (obj w')) ->
  let h := Some (Lwip.pcb_id p) in
  disconnects (trace (close App true w)) = 1%nat /\
  (forall pcb err, disconnects (trace (_recv App pcb [] err w)) = 1%nat) /\
  (forall pcb, tick_choice (obj w) (next_millis w) = DeferredClose \/
               tick_choice (obj w) (next_millis w) = IdleClose ->
               disconnects (trace (_poll App pcb w)) = 1%nat) /\
  (forall err, disconnects (trace (_error App err w)) = 1%nat) /\
  disconnects (trace (destroy App w)) = 1%nat /\
  (forall other, disconnects (trace (assign App other w)) = 1%nat) /\
  (disconnects (trace (abort App w)) = 1%nat /\
   _pcb (obj (post (abort App w))) = None /\
   errorToString (val (abort App w)) = "Connection aborted"%string /\
   trace (abort App w) =
     Net (Lwip.TcpAbort h) :: trace (_error App Lwip.ERR_ABRT (with_errf h false w)) /\
   calls (trace (abort App w)) = Lwip.TcpAbort h :: calls (deregister h) /\
   callbacks (trace (abort App w)) =
     (if _error_cb (obj w) is Some _ then [OnError Lwip.ERR_ABRT] else []) ++ [OnDisconnect]).
Proof.
  intros Hp He Hg Hkeep h. subst h.
  pose proof (disconnects_close_held App w p g Hp Hg) as Hclose.
  assert (Herr : forall err w0,
             _pcb (obj w0) = Some p -> _discard_cb (obj w0) = Some g ->
             calls (trace (_error App err w0)) = calls (deregister (Some (Lwip.pcb_id p))) /\
             callbacks (trace (_error App err w0)) =
               (if _error_cb (obj w0) is Some _ then [OnError err] else []) ++ [OnDisconnect]).
  { intros err w0 Hp0 Hg0. unfold _error. exec. rewrite Hp0. exec.
    destruct (_error_cb (obj w0)) as [f|]; exec.
    - rewrite Hkeep. fields. rewrite Hg0. split; reflexivity.
    - rewrite Hg0. split; reflexivity. }
  assert (Hcb : forall c t, callbacks (Net c :: t) = callbacks t) by reflexivity.
  assert (Hcl : forall c t, calls (Net c :: t) = c :: calls t) by reflexivity.
  destruct (Herr Lwip.ERR_ABRT (with_errf (Some (Lwip.pcb_id p)) false w) Hp Hg)
    as [Hcalls Hcbs].
  rewrite obj_with_errf in Hcbs.
  repeat split.
  - rewrite run_close_now. unfold prepend. cbn [trace val post fst snd].
    rewrite disconnects_app. exact Hclose.
  - intros pcb err. exact Hclose.
  - intros pcb Ha. rewrite poll_refines_tick. cbv zeta. cbn [trace snd].
    destruct Ha as [Ha|Ha]; rewrite Ha; unfold perform.
    + unfold tick_choice in Ha. destruct (_close_pcb (obj w)) eqn:Hc.
      * exec. rewrite run_then_ret. cbn [trace snd].
        now apply (disconnects_close_held App _ p g).
      * destruct (ack_timeout_due _ _); [discriminate|].
        destruct (idle_timeout_due _ _); discriminate.
    + unfold tick_choice in Ha. destruct (_close_pcb (obj w)) eqn:Hc; [discriminate|].
      rewrite run_then_ret. cbn [trace snd].
      now apply (disconnects_close_held App _ p g).
  - intros err. unfold disconnects. destruct (Herr err w Hp Hg) as [_ ->].
    now destruct (_error_cb (obj w)).
  - unfold destroy. exec. rewrite Hp. rewrite run_then_ret. exact Hclose.
  - intros other. unfold assign. exec. rewrite Hp.
    rewrite run_bind_assoc. rewrite run_bind_prepend. unfold prepend. cbn [trace snd].
    rewrite disconnects_app, Hclose. exec.
    destruct (_pcb other); exec; reflexivity.
  - rewrite (run_abort_live App w p Hp He). cbn [trace snd]. unfold disconnects.
    rewrite Hcb, Hcbs. now destruct (_error_cb (obj w)).
  - now rewrite (run_abort_live App w p Hp He).
  - now rewrite (run_abort_live App w p Hp He).
  - now rewrite (run_abort_live App w p Hp He).
  - rewrite (run_abort_live App w p Hp He). cbn [trace snd]. now rewrite Hcl, Hcalls.
  - rewrite (run_abort_live App w p Hp He). cbn [trace snd]. now rewrite Hcb, Hcbs.
Qed.

Lemma release_fires_disconnect_witness :
  errf (sys (Sample.world 100)) 1 = true /\
  _discard_cb (obj (Sample.world 100)) = Some 2%nat /\
  disconnects (trace (close Sample.quiet true (Sample.world 100))) = 1%nat /\
  disconnects (trace (abort Sample.quiet (Sample.world 100))) = 1%nat /\
  callbacks (trace (abort Sample.quiet (Sample.world 100))) =
    [OnError Lwip.ERR_ABRT; OnDisconnect].
Proof.
  pose proof (release_fires_disconnect Sample.quiet (Sample.world 100)
                (Sample.established 100) 2%nat eq_refl eq_refl eq_refl
                (fun _ _ _ _ => eq_refl)) as H.
  cbv zeta in H.
  split; [reflexivity|]. split; [reflexivity|].
  split; [apply H|]. split; apply H.
Defined.

(** ** Deferred acknowledgment *)




(** ** Transport errors *)

(** C4: on a transport error with a handle held, [_error] first takes all
    five callbacks off the handle, then drops the handle, then invokes
    [onError] (if installed) and after it [onDisconnect] (if installed when
    [onError] has returned).  [onDisconnect] does not depend on an [onError]
    handler, and [onError] comes first whenever both fire. *)
Theorem error_deregisters_releases_then_reports
    (App : App_t) (err : Z) (w : World) (p : Lwip.tcp_pcb) :
  _pcb (obj w) = Some p ->
  let h := Some (Lwip.pcb_id p) in
  let r1 := invoke App (_error_cb (obj w)) (_error_cb_arg (obj w)) (OnError err) (released w) in
  let r2 := invoke App (_discard_cb (obj (post r1))) (_discard_cb_arg (obj (post r1)))
              OnDisconnect (post r1) in
  let r := _error App err w in
  trace r = deregister h ++ trace r1 ++ trace r2 /\
  post r = post r2 /\
  _pcb (obj (released w)) = None /\
  calls (trace r) = calls (deregister h) /\
  callbacks (trace r) =
    (if _error_cb (obj w) is Some _ then [OnError err] else []) ++
    (if _discard_cb (obj (post r1)) is Some _ then [OnDisconnect] else []).
Proof.
  intros Hp h r1 r2 r. subst h r1 r2 r. unfold _error. exec. rewrite Hp. exec.
  unfold released. rewrite Hp. fields.
  change (set_errf ?h ?fn (sys w)) with (sys (with_errf h fn w)).
  destruct (_error_cb (obj w)) as [f|]; exec.
  - destruct (_discard_cb _) as [g|]; repeat split.
  - destruct (_discard_cb _) as [g|]; repeat split.
Qed.

Lemma error_deregisters_releases_then_reports_witness :
  _pcb (obj (Sample.world 100)) = Some (Sample.established 100) /\
  callbacks (trace (_error Sample.quiet (-9) (Sample.world 100))) = [OnError (-9); OnDisconnect].
Proof.
  split; [reflexivity|].
  apply (error_deregisters_releases_then_reports Sample.quiet (-9) (Sample.world 100)
           (Sample.established 100) eq_refl).
Defined.

(** ** Closing twice *)

Lemma run_close_now_detached (App : App_t) (w : World) :
  _pcb (obj w) = None ->
  close App true w = (tt, w, [Net (Lwip.TcpRecved None (uint16 (_rx_ack_len (obj w))))]).
Proof.
  intros H. rewrite run_close_now, (run_close_none App w H), H. reflexivity.
Qed.

(** C5: [close(true)] twice on a connected object.  The first call releases
    the handle and invokes [onDisconnect]; the second changes nothing and
    invokes nothing, but it does reach the transport: it calls [tcp_recved]
    with a null handle. *)
Theorem second_close_reaches_transport :
  let first := close Sample.quiet true (Sample.world 100) in
  let second := close Sample.quiet true (post first) in
  callbacks (trace first) = [OnDisconnect] /\
  _pcb (obj (post first)) = None /\
  post second = post first /\
  callbacks (trace second) = [] /\
  calls (trace second) = [Lwip.TcpRecved None 0].
Proof. vm_compute. repeat split. Qed.

(** ** Acknowledging a backlog *)

(** C6, as stated, fails in two ways.  [tcp_recved] takes a 16-bit
    length: with a backlog of 70000, [ack(70000)] returns 70000 and empties
    the backlog, but the transport is told 4464.  And [ack] does not look at
    the handle: after the object has let go of it, [ack(25)] on a backlog of
    40 calls [tcp_recved] with a null handle, so nothing is acknowledged. *)
Lemma ack_narrows_and_ignores_the_handle :
  let w := mkWorld (set_rx_ack_len 70000 (Sample.client 100)) Sample.env in
  let r := ack 70000 w in
  let w' := mkWorld (set_rx_ack_len 40 (obj Sample.detached)) Sample.env in
  let r' := ack 25 w' in
  (val r = 70000 /\ _rx_ack_len (obj (post r)) = 0 /\
   calls (trace r) = [Lwip.TcpRecved (Some 1%nat) 4464] /\
   acked_bytes (trace r) <> Z.min 70000 (_rx_ack_len (obj w))) /\
  (_pcb (obj w') = None /\ val r' = 25 /\ calls (trace r') = [Lwip.TcpRecved None 25]).
Proof.
  vm_compute. repeat split; discriminate.
Qed.

(** C6, amended: with a handle held, [ack(n)] on a backlog of [b] bytes
    returns [min(n, b)] and leaves a backlog of [max(0, b - n)], never below
    zero.  It makes no call when [min(n, b)] is zero and otherwise one
    [tcp_recved] on the handle, with [min(n, b)] narrowed to 16 bits; so the
    transport is told exactly [min(n, b)], the number returned, whenever that
    is below 65536. *)
Theorem ack_on_a_handle_clamps_to_backlog (n : Z) (w : World) (p : Lwip.tcp_pcb) :
  _pcb (obj w) = Some p ->
  0 <= n -> 0 <= _rx_ack_len (obj w) < 2 ^ 32 ->
  let b := _rx_ack_len (obj w) in
  let m := Z.min n b in
  let r := ack n w in
  val r = m /\
  trace r = (if m =? 0 then []
             else [Net (Lwip.TcpRecved (Some (Lwip.pcb_id p)) (uint16 m))]) /\
  acked_bytes (trace r) = uint16 m /\
  (m < 2 ^ 16 ->
   acked_bytes (trace r) = m /\
   trace r = (if m =? 0 then [] else [Net (Lwip.TcpRecved (Some (Lwip.pcb_id p)) m)])) /\
  _rx_ack_len (obj (post r)) = Z.max 0 (b - n) /\
  0 <= _rx_ack_len (obj (post r)) /\
  _pcb (obj (post r)) = Some p.
Proof.
  intros Hp Hn Hb b m r.
  assert (Hm : (if b <? n then b else n) = m).
  { subst m. destruct (Z.ltb_spec b n); lia. }
  assert (Hr : r = (m, mkWorld (set_rx_ack_len (uint32 (b - m)) (obj w)) (sys w),
                    if m =? 0 then []
                    else [Net (Lwip.TcpRecved (Some (Lwip.pcb_id p)) (uint16 m))])).
  { subst r. unfold ack. exec. fold b. rewrite Hm, Hp.
    destruct (m =? 0); exec; reflexivity. }
  assert (Hacked : acked_bytes (if m =? 0 then []
                     else [Net (Lwip.TcpRecved (Some (Lwip.pcb_id p)) (uint16 m))]) = uint16 m).
  { destruct (Z.eqb_spec m 0) as [->|_]; [reflexivity|]. cbn. lia. }
  assert (Hleft : uint32 (b - m) = Z.max 0 (b - n)).
  { unfold uint32. rewrite Z.mod_small by (subst b m; lia). subst m. lia. }
  rewrite Hr. cbn [val post trace fst snd].
  split; [reflexivity|]. split; [reflexivity|]. split; [exact Hacked|].
  split.
  - intros Hsmall.
    assert (Hu : uint16 m = m) by (unfold uint16; apply Z.mod_small; subst b m; lia).
    rewrite Hacked, Hu. split; reflexivity.
  - fields. rewrite Hleft. repeat split; [lia|exact Hp].
Qed.

Lemma ack_on_a_handle_clamps_to_backlog_witness :
  _rx_ack_len (obj Fixture.backlog_40) = 40 /\
  val (ack 25 Fixture.backlog_40) = 25 /\
  calls (trace (ack 25 Fixture.backlog_40)) = [Lwip.TcpRecved (Some 1%nat) 25] /\
  _rx_ack_len (obj (post (ack 25 Fixture.backlog_40))) = 15.
Proof.
  pose proof (ack_on_a_handle_clamps_to_backlog 25 Fixture.backlog_40
                (Sample.established 100) eq_refl ltac:(lia) ltac:(cbn; lia)) as H.
  cbv zeta in H. destruct H as [H1 [_ [_ [H2 [H3 _]]]]].
  split; [reflexivity|]. split; [exact H1|].
  split; [|exact H3].
  destruct (H2 ltac:(cbn; lia)) as [_ H4]. rewrite H4. reflexivity.
Defined.

(** ** Name resolution *)

(** C7: [connect(hostname, port)] whose resolution is still in progress
    returns true, keeps the port and invokes nothing; when the resolver later
    reports failure, [_dns_found] invokes [onError] with -55 exactly once,
    then [onDisconnect] exactly once, never [onConnect], and issues no lwIP
    call, although no handle was held at any point. *)
Theorem failed_resolution_reports_error_then_disconnect
    (App : App_t) (host : string) (port : Z) (w : World) (f g : fn_ptr) :
  fst (resolver (sys w) host) = Lwip.ERR_INPROGRESS ->
  _pcb (obj w) = None ->
  _error_cb (obj w) = Some f ->
  let started := connect_host host port w in
  let w1 := post started in
  let h := App f (_error_cb_arg (obj w)) (OnError (-55)) w1 in
  _discard_cb (obj (fst h)) = Some g ->
  let r := _dns_found App None w1 in
  val started = true /\
  trace started = [Net (Lwip.DnsGetHostByName host)] /\
  _pcb (obj w1) = None /\
  _connect_port (obj w1) = port /\
  trace r = [Fire (OnError (-55)) f (_error_cb_arg (obj w)) (snd h);
             Fire OnDisconnect g (_discard_cb_arg (obj (fst h)))
               (snd (App g (_discard_cb_arg (obj (fst h))) OnDisconnect (fst h)))] /\
  callbacks (trace r) = [OnError (-55); OnDisconnect] /\
  errorToString (-55) = "DNS failed"%string /\
  calls (trace r) = [] /\
  ~ In OnConnect (callbacks (trace started ++ trace r)).
Proof.
  intros Hdns Hp Hf started w1 h Hg r.
  assert (Hs : started = (true, mkWorld (set_connect_port port (obj w)) (sys w),
                          [Net (Lwip.DnsGetHostByName host)])).
  { subst started. unfold connect_host, dns_gethostbyname.
    rewrite run_bind_prepend. cbn [val post trace fst snd]. rewrite Hdns.
    cbn [Z.eqb Lwip.ERR_INPROGRESS Lwip.ERR_OK]. exec. reflexivity. }
  assert (Hr : r = (tt, fst (App g (_discard_cb_arg (obj (fst h))) OnDisconnect (fst h)),
             [Fire (OnError (-55)) f (_error_cb_arg (obj w)) (snd h);
              Fire OnDisconnect g (_discard_cb_arg (obj (fst h)))
                (snd (App g (_discard_cb_arg (obj (fst h))) OnDisconnect (fst h)))])).
  { subst r. unfold _dns_found. exec. subst w1. rewrite Hs. fields. rewrite Hf. exec.
    subst h. rewrite Hs in *. fields. rewrite Hg. reflexivity. }
  rewrite Hr. subst w1. rewrite Hs. fields. repeat split; try assumption.
  cbn. intros [H|[H|[]]]; discriminate.
Qed.

Lemma failed_resolution_reports_error_then_disconnect_witness :
  fst (resolver (sys Sample.detached) "example.org") = Lwip.ERR_INPROGRESS /\
  callbacks (trace (_dns_found Sample.quiet None
                      (post (connect_host "example.org" 80 Sample.detached)))) =
  [OnError (-55); OnDisconnect].
Proof.
  split; [reflexivity|].
  apply (failed_resolution_reports_error_then_disconnect Sample.quiet "example.org" 80
           Sample.detached 4%nat 2%nat); reflexivity.
Defined.

(** ** The timeout supervisor *)

(** When the 32-bit product does not wrap, the idle threshold is the
    configured number of seconds, in milliseconds. *)
Lemma idle_limit_exact (c : AsyncClient) :
  0 <= _rx_since_timeout c -> _rx_since_timeout c * 1000 < 2 ^ 32 ->
  idle_limit c = _rx_since_timeout c * 1000.
Proof. intros H1 H2. unfold idle_limit, uint32. apply Z.mod_small. lia. Qed.

Lemma calls_perform_no_close (App : App_t) (a : TickAction) (w : World) :
  a <> DeferredClose -> a <> IdleClose -> calls (trace (perform App a w)) = [].
Proof.
  intros H1 H2. destruct a as [|e| |]; try contradiction; unfold perform; exec.
  - now destruct (_timeout_cb (obj w)).
  - now destruct (_poll_cb (obj w)).
Qed.

(** C8: a tick performs exactly one action, the first that matches in the
    order: the pending deferred close; else, with a send in flight, a nonzero
    ack timeout and at least that much time since the send, clearing the
    in-flight flag and invoking [onTimeout] with the elapsed time, with no
    lwIP call (so no close), no idle check and no [onPoll]; else, with a
    nonzero idle timeout that has been reached, an immediate close; else
    [onPoll].  A close, deferred or for idleness, on a held handle takes the
    five callbacks off the handle, calls [tcp_close] (and [tcp_abort] if that
    fails), lets go of the handle and then invokes [onDisconnect]; with no
    handle it does nothing.  The idle threshold is [idle_limit], the 32-bit
    product the code compares against. *)
Theorem tick_runs_first_matching_action
    (App : App_t) (pcb : option Lwip.tcp_pcb) (w : World) :
  let c := obj w in
  let now := next_millis w in
  let a := tick_choice c now in
  let r := _poll App pcb w in
  r = (Lwip.ERR_OK,
       post (perform App a (if _close_pcb c then w else tick_clock w)),
       trace (perform App a (if _close_pcb c then w else tick_clock w))) /\
  match a with
  | DeferredClose =>
      let w1 := mkWorld (set_close_pcb false c) (sys w) in
      _close_pcb c = true /\
      post r = post (_close App w1) /\
      trace r = trace (_close App w1) /\
      match _pcb c with
      | Some p =>
          let h := Some (Lwip.pcb_id p) in
          let d := invoke App (_discard_cb c) (_discard_cb_arg c) OnDisconnect
                     (released (took_result w1)) in
          trace r = deregister h ++ Net (Lwip.TcpClose h) ::
                    (if next_result w =? Lwip.ERR_OK then [] else [Net (Lwip.TcpAbort h)]) ++
                    trace d /\
          post r = post d /\
          _pcb (obj (released (took_result w1))) = None /\
          _close_pcb (obj (released (took_result w1))) = false /\
          callbacks (trace r) = (if _discard_cb c is Some _ then [OnDisconnect] else [])
      | None => post r = w1 /\ trace r = []
      end
  | AckTimeout e =>
      _close_pcb c = false /\
      _pcb_busy c = true /\ _ack_timeout c <> 0 /\
      e = elapsed now (_pcb_sent_at c) /\ _ack_timeout c <= e /\
      calls (trace r) = [] /\
      callbacks (trace r) = (if _timeout_cb c is Some _ then [OnTimeout e] else []) /\
      post r = post (invoke App (_timeout_cb c) (_timeout_cb_arg c) (OnTimeout e)
                       (mkWorld (set_pcb_busy false c) (sys (tick_clock w))))
  | IdleClose =>
      _close_pcb c = false /\ ack_timeout_due c now = false /\
      _rx_since_timeout c <> 0 /\ idle_limit c <= elapsed now (_rx_last_packet c) /\
      post r = post (_close App (tick_clock w)) /\
      trace r = trace (_close App (tick_clock w)) /\
      match _pcb c with
      | Some p =>
          let h := Some (Lwip.pcb_id p) in
          let d := invoke App (_discard_cb c) (_discard_cb_arg c) OnDisconnect
                     (released (took_result (tick_clock w))) in
          trace r = deregister h ++ Net (Lwip.TcpClose h) ::
                    (if next_result w =? Lwip.ERR_OK then [] else [Net (Lwip.TcpAbort h)]) ++
                    trace d /\
          post r = post d /\
          _pcb (obj (released (took_result (tick_clock w)))) = None /\
          callbacks (trace r) = (if _discard_cb c is Some _ then [OnDisconnect] else [])
      | None => post r = tick_clock w /\ trace r = []
      end
  | Heartbeat =>
      _close_pcb c = false /\ ack_timeout_due c now = false /\
      idle_timeout_due c now = false /\
      calls (trace r) = [] /\
      callbacks (trace r) = (if _poll_cb c is Some _ then [OnPoll] else [])
  end.
Proof.
  intros c now a r. subst r. rewrite poll_refines_tick. fold c now a. cbv zeta.
  split; [reflexivity|]. cbn [post trace fst snd].
  assert (Hclose : forall w1 : World,
            post (_close App w1) = post (_close App w1) /\
            trace (_close App w1) = trace (_close App w1) /\
            match _pcb (obj w1) with
            | Some p =>
                trace (_close App w1) =
                  deregister (Some (Lwip.pcb_id p)) ++ Net (Lwip.TcpClose (Some (Lwip.pcb_id p))) ::
                  (if next_result w1 =? Lwip.ERR_OK then []
                   else [Net (Lwip.TcpAbort (Some (Lwip.pcb_id p)))]) ++
                  trace (invoke App (_discard_cb (obj w1)) (_discard_cb_arg (obj w1))
                           OnDisconnect (released (took_result w1))) /\
                post (_close App w1) =
                  post (invoke App (_discard_cb (obj w1)) (_discard_cb_arg (obj w1))
                          OnDisconnect (released (took_result w1))) /\
                _pcb (obj (released (took_result w1))) = None /\
                _close_pcb (obj (released (took_result w1))) = _close_pcb (obj w1) /\
                callbacks (trace (_close App w1)) =
                  (if _discard_cb (obj w1) is Some _ then [OnDisconnect] else [])
            | None => post (_close App w1) = w1 /\ trace (_close App w1) = []
            end).
  { intros w1. split; [reflexivity|]. split; [reflexivity|].
    destruct (_pcb (obj w1)) as [p|] eqn:Hp.
    - destruct (close_held_outside App w1 p Hp) as [_ [Hb _]]. rewrite Hb.
      rewrite (run_close_held App w1 p Hp). cbv zeta. cbn [post trace fst snd].
      repeat split.
    - rewrite (run_close_none App w1 Hp). now split. }
  subst a. unfold tick_choice.
  destruct (_close_pcb c) eqn:Hc.
  - unfold perform. exec. rewrite !run_then_ret. cbn [post trace fst snd].
    split; [reflexivity|]. fold c.
    pose proof (Hclose (mkWorld (set_close_pcb false c) (sys w))) as H.
    cbn [obj _pcb set_close_pcb _discard_cb _discard_cb_arg _close_pcb] in H.
    change (next_result (mkWorld (set_close_pcb false c) (sys w))) with (next_result w) in H.
    destruct (_pcb c) as [p|]; exact H.
  - destruct (ack_timeout_due c now) eqn:Ha.
    + unfold ack_timeout_due in Ha.
      apply andb_prop in Ha as [Ha He]. apply andb_prop in Ha as [Hb Ht].
      apply negb_true_iff, Z.eqb_neq in Ht. apply Z.leb_le in He.
      unfold perform. exec. fold c.
      destruct (_timeout_cb c); repeat split; assumption.
    + destruct (idle_timeout_due c now) eqn:Hi.
      * unfold idle_timeout_due in Hi. apply andb_prop in Hi as [Ht He].
        apply negb_true_iff, Z.eqb_neq in Ht. apply Z.leb_le in He.
        unfold perform. rewrite run_then_ret. cbn [post trace fst snd].
        do 4 (split; [assumption || reflexivity|]).
        pose proof (Hclose (tick_clock w)) as H.
        rewrite obj_tick_clock in H. fold c in H.
        change (next_result (tick_clock w)) with (next_result w) in H.
        destruct (_pcb c) as [p|].
        -- destruct H as [H1 [H2 [H3 [H4 [H5 [_ H6]]]]]]. repeat split; assumption.
        -- exact H.
      * unfold perform. exec. fold c. destruct (_poll_cb c); repeat split.
Qed.

(** ** State projection and [canSend] *)

(** C9: with no handle held, [state()] is 0, the value labelled "Closed",
    [canSend()] is false and [space()] is zero; and [canSend()] is true only
    with a handle in state 4 (Established) whose free send window is not
    zero. *)
Theorem no_handle_is_closed_and_cannot_send (c : AsyncClient) :
  (_pcb c = None ->
     state c = 0 /\ stateToString c = "Closed"%string /\ canSend c = false /\ space c = 0) /\
  (canSend c = true ->
     exists p, _pcb c = Some p /\ Lwip.state p = 4 /\
               stateToString c = "Established"%string /\ Lwip.snd_buf p <> 0).
Proof.
  unfold canSend, stateToString, state, space. split.
  - intros ->. repeat split.
  - destruct (_pcb c) as [p|]; [|discriminate].
    destruct (Lwip.state p =? 4) eqn:E; [|discriminate].
    apply Z.eqb_eq in E. intros H. apply Z.ltb_lt in H.
    exists p. rewrite E. repeat split. lia.
Qed.

Lemma no_handle_is_closed_and_cannot_send_witness :
  (state (obj Sample.detached) = 0 /\
   stateToString (obj Sample.detached) = "Closed"%string /\
   canSend (obj Sample.detached) = false /\ space (obj Sample.detached) = 0) /\
  (exists p, _pcb (Sample.client 100) = Some p /\ Lwip.state p = 4 /\
             stateToString (Sample.client 100) = "Established"%string /\
             Lwip.snd_buf p <> 0).
Proof.
  split.
  - apply (proj1 (no_handle_is_closed_and_cannot_send (obj Sample.detached))). reflexivity.
  - apply (proj2 (no_handle_is_closed_and_cannot_send (Sample.client 100))). reflexivity.
Defined.

(** ** Sent-confirmations and the idle timeout *)

(** C10: [_sent] stamps [_rx_last_packet] with the current clock reading
    (handlers cannot write that field).  While that stamp stands, a tick that
    comes less than the idle threshold after it never picks the idle-receive
    close, and unless a deferred close was requested it issues no lwIP call
    at all: confirmations alone keep the idle check from closing. *)
Theorem sent_confirmation_postpones_idle_close
    (App : App_t) (pcb : option Lwip.tcp_pcb) (len : Z) (w : World) :
  (forall f a ev w', _rx_last_packet (obj (fst (App f a ev w'))) = _rx_last_packet (obj w')) ->
  let confirmed := next_millis w in
  _rx_last_packet (obj (post (_sent App pcb len w))) = confirmed /\
  forall (pcb' : option Lwip.tcp_pcb) (w' : World),
    _rx_last_packet (obj w') = confirmed ->
    elapsed (next_millis w') confirmed < idle_limit (obj w') ->
    tick_choice (obj w') (next_millis w') <> IdleClose /\
    (_close_pcb (obj w') = false -> calls (trace (_poll App pcb' w')) = []).
Proof.
  intros Hkeep confirmed. split.
  - unfold _sent. exec. destruct (_sent_cb (obj w)) as [f|]; exec.
    + rewrite Hkeep. reflexivity.
    + reflexivity.
  - intros pcb' w' Hlast Hfresh.
    assert (Hi : idle_timeout_due (obj w') (next_millis w') = false).
    { unfold idle_timeout_due. rewrite Hlast. apply andb_false_iff. right.
      apply Z.leb_gt. exact Hfresh. }
    assert (Hne : tick_choice (obj w') (next_millis w') <> IdleClose).
    { unfold tick_choice. rewrite Hi.
      destruct (_close_pcb (obj w')); [discriminate|].
      destruct (ack_timeout_due _ _); discriminate. }
    split; [exact Hne|]. intros Hc. rewrite poll_refines_tick. cbv zeta. cbn [trace snd].
    apply calls_perform_no_close; [|exact Hne].
    unfold tick_choice. rewrite Hc, Hi. destruct (ack_timeout_due _ _); discriminate.
Qed.

Lemma sent_confirmation_postpones_idle_close_witness :
  let w' := post (_sent Sample.quiet None 10 (Sample.idle_world 5)) in
  _rx_last_packet (obj w') = 0 /\
  elapsed (next_millis w') 0 < idle_limit (obj w') /\
  tick_choice (obj w') (next_millis w') <> IdleClose /\
  calls (trace (_poll Sample.quiet None w')) = [].
Proof.
  destruct (sent_confirmation_postpones_idle_close Sample.quiet None 10 (Sample.idle_world 5)
              (fun _ _ _ _ => eq_refl)) as [H1 H2].
  assert (Hfresh : elapsed (next_millis (post (_sent Sample.quiet None 10 (Sample.idle_world 5))))
                     (next_millis (Sample.idle_world 5)) <
                   idle_limit (obj (post (_sent Sample.quiet None 10 (Sample.idle_world 5)))))
    by (vm_compute; reflexivity).
  destruct (H2 None _ H1 Hfresh) as [H3 H4].
  split; [exact H1|]. split; [exact Hfresh|]. split; [exact H3|]. apply H4. reflexivity.
Defined.
Lemma queued_bytes_app (t1 t2 : list Event) :
  queued_bytes (t1 ++ t2) = queued_bytes t1 ++ queued_bytes t2.
Proof. unfold queued_bytes, calls. now rewrite !flat_map_app. Qed.

Lemma firstn_then_more {A} (n m : nat) (l : list A) :
  firstn n l ++ firstn m (skipn n l) = firstn (n + m) l.
Proof.
  revert l. induction n as [|n IH]; intros l; [reflexivity|].
  destruct l as [|x l]; cbn; [now rewrite firstn_nil|]. now rewrite IH.
Qed.

Lemma write_fuel_inv (fuel : nat) :
  forall bytes size w, 0 <= size < 2 ^ 32 ->
  let r := write_fuel fuel (Some bytes) size w in
  exists k, 0 <= k <= size /\
    queued_bytes (trace r) = firstn (Z.to_nat k) bytes /\
    forall n, val r = Some n -> 0 <= n <= k.
Proof.
  induction fuel as [|fuel IH]; intros bytes size w Hs r; subst r.
  { exists 0. cbn. repeat split; try lia; discriminate. }
  cbn [write_fuel]. unfold tcp_write. exec.
  assert (Hzero : forall w', exists k, 0 <= k <= size /\
            queued_bytes (trace (Some 0, w', @nil Event)) = firstn (Z.to_nat k) bytes /\
            forall n, val (Some 0, w', @nil Event) = Some n -> 0 <= n <= k).
  { intros w'. exists 0. repeat split; try lia; injection H as <-; lia. }
  destruct (_pcb (obj w)) as [p|] eqn:Hp; [|apply Hzero].
  destruct (Z.eqb_spec size 0) as [Hz|Hz]; [apply Hzero|].
  destruct (canSend (obj w)) eqn:Hc; [|apply Hzero]. exec.
  unfold canSend, space in Hc. rewrite Hp in Hc.
  destruct (Lwip.state p =? 4); [|discriminate]. apply Z.ltb_lt in Hc.
  unfold tcp_sndbuf.
  set (n := if Lwip.snd_buf p <? size then Lwip.snd_buf p else size).
  assert (Hn : 0 < n <= size) by (subst n; destruct (Z.ltb_spec (Lwip.snd_buf p) size); lia).
  destruct (next_result w =? Lwip.ERR_OK) eqn:E1;
    repeat (progress (exec; rewrite ?E1, ?Hp)).
  2:{ exists n. split; [lia|]. split; [unfold queued_bytes; cbn; apply app_nil_r|].
      intros m [= <-]; lia. }
  match goal with |- context [next_result ?x =? Lwip.ERR_OK] =>
    destruct (next_result x =? Lwip.ERR_OK) eqn:E2 end;
    repeat (progress (exec; rewrite ?E2, ?Hp)).
  2:{ exists n. split; [lia|]. split; [unfold queued_bytes; cbn; apply app_nil_r|].
      intros m [= <-]; lia. }
  destruct (n <? size) eqn:E.
  - apply Z.ltb_lt in E. rewrite run_then_map. fields.
    match goal with |- context [write_fuel fuel (Some ?d) ?s ?w'] =>
      destruct (IH d s w') as [k [Hk [IHq IHv]]]; [unfold uint32; apply Z.mod_pos_bound; lia|];
      destruct (write_fuel fuel (Some d) s w') as [[a w1] t1] end.
    fields. pose proof (uint32_le (size - n)) as Hu.
    exists (n + k). split; [lia|]. split.
    + change (?a :: ?b :: t1) with ([a] ++ [b] ++ t1).
      rewrite !queued_bytes_app, IHq. unfold queued_bytes at 1 2. cbn.
      rewrite app_nil_r, firstn_then_more. f_equal. lia.
    + intros m Hm. destruct a as [a|]; [|discriminate]. injection Hm as <-.
      specialize (IHv a eq_refl). unfold uint32. rewrite Z.mod_small; lia.
  - exists n. split; [lia|]. split; [unfold queued_bytes; cbn; apply app_nil_r|].
    intros m [= <-]. apply Z.ltb_ge in E. lia.
Qed.

(** X1: [write(data, size)] with [size] below 2^32 always returns a count [n];
    the bytes handed to [tcp_write], taken in order, are the first [k] bytes of
    [data] for some [n <= k <= size]: it never reads past the request, never
    reorders, and never reports more than it queued. *)
Theorem write_stays_within_request (bytes : list byte) (size : Z) (w : World) :
  0 <= size < 2 ^ 32 ->
  let r := write (Some bytes) size w in
  exists n k,
    val r = Some n /\ 0 <= n <= k /\ k <= size /\
    queued_bytes (trace r) = firstn (Z.to_nat k) bytes.
Proof.
  intros Hs r. destruct (write_returns (Some bytes) size w) as [n Hn].
  destruct (write_fuel_inv (S (Z.to_nat size)) bytes size w Hs) as [k [Hk [Hq Hv]]].
  exists n, k. fold (write (Some bytes) size) in Hq, Hv. fold r in Hn, Hq, Hv.
  specialize (Hv n Hn). repeat split; try assumption; lia.
Qed.

Lemma write_stays_within_request_witness :
  exists n k,
    val (write (Some (repeat x78 250)) 250 (Sample.world 100)) = Some n /\
    0 <= n <= k /\ k <= 250 /\
    queued_bytes (trace (write (Some (repeat x78 250)) 250 (Sample.world 100))) =
    firstn (Z.to_nat k) (repeat x78 250).
Proof.
  apply (write_stays_within_request (repeat x78 250) 250 (Sample.world 100)). lia.
Defined.

Lemma strlen_nonneg (s : list byte) : 0 <= strlen s.
Proof. induction s as [|b s IH]; cbn [strlen]; [lia|]. destruct (Byte.eqb b x00); lia. Qed.

Lemma no_nul_before_strlen (s : list byte) :
  forall k, 0 <= k <= strlen s -> ~ In x00 (firstn (Z.to_nat k) s).
Proof.
  induction s as [|b s IH]; intros k Hk.
  - rewrite firstn_nil. intros [].
  - cbn [strlen] in Hk. destruct (Byte.eqb b x00) eqn:E.
    + replace k with 0 by lia. intros [].
    + destruct (Z.to_nat k) as [|m] eqn:Em; [intros []|].
      cbn. intros [H|H].
      * subst b. discriminate.
      * apply (IH (k - 1)); [lia|]. replace (Z.to_nat (k - 1)) with m by lia. exact H.
Qed.

(** X2: [write(const char* data)] on a string of fewer than 2^32 characters
    returns a count [n], and the bytes that reach [tcp_write], in order, are the
    first [k] bytes of the string for some [n <= k <= strlen]: only characters
    before the terminator are sent, never the terminator or the memory after
    it. *)
Theorem write_str_sends_only_the_characters (s : list byte) (w : World) :
  strlen s < 2 ^ 32 ->
  let r := write_str (Some s) w in
  exists n k,
    val r = Some n /\ 0 <= n <= k /\ k <= strlen s /\
    queued_bytes (trace r) = firstn (Z.to_nat k) s /\
    ~ In x00 (queued_bytes (trace r)).
Proof.
  intros Hs r. subst r. unfold write_str.
  pose proof (strlen_nonneg s) as H0.
  destruct (write_returns (Some s) (strlen s) w) as [n Hn].
  destruct (write_fuel_inv (S (Z.to_nat (strlen s))) s (strlen s) w) as [k [Hk [Hq Hv]]];
    [lia|].
  fold (write (Some s) (strlen s)) in Hq, Hv. specialize (Hv n Hn).
  exists n, k. rewrite Hq. repeat split; try assumption; try lia.
  apply no_nul_before_strlen. lia.
Qed.

Lemma write_str_sends_only_the_characters_witness :
  strlen Fixture.hello = 5 /\
  exists n k,
    val (write_str (Some Fixture.hello) (Sample.world 100)) = Some n /\
    0 <= n <= k /\ k <= strlen Fixture.hello /\
    queued_bytes (trace (write_str (Some Fixture.hello) (Sample.world 100))) =
      firstn (Z.to_nat k) Fixture.hello /\
    ~ In x00 (queued_bytes (trace (write_str (Some Fixture.hello) (Sample.world 100)))).
Proof.
  split; [reflexivity|].
  apply (write_str_sends_only_the_characters Fixture.hello (Sample.world 100)).
  reflexivity.
Defined.

(** The world after [n] bytes were queued with [tcp_write]: charged to the
    send buffer, one lwIP result used up. *)
Lemma run_tcp_write_ok {B} (data : list byte) (n flags : Z) (k : Z -> M B) (w : World) :
  next_result w = Lwip.ERR_OK ->
  bind (tcp_write data n flags) k w =
  prepend [Net (Lwip.TcpWrite (Lwip.ptr (_pcb (obj w))) data n flags)]
    (k Lwip.ERR_OK
       (mkWorld (set_pcb (option_map (fun b => Lwip.set_snd_buf (Lwip.snd_buf b - n) b)
                            (_pcb (obj w))) (obj w))
                (sys (took_result w)))).
Proof.
  intros H. unfold tcp_write. exec. rewrite H. exec. rewrite Z.eqb_refl. exec. reflexivity.
Qed.

Lemma run_tcp_write_failed {B} (data : list byte) (n flags : Z) (k : Z -> M B) (w : World) :
  next_result w <> Lwip.ERR_OK ->
  bind (tcp_write data n flags) k w =
  prepend [Net (Lwip.TcpWrite (Lwip.ptr (_pcb (obj w))) data n flags)]
    (k (next_result w) (took_result w)).
Proof.
  intros H. apply Z.eqb_neq in H. unfold tcp_write. exec. rewrite H. exec.
  now destruct w.
Qed.

Lemma run_write_open (w : World) (p : Lwip.tcp_pcb) (bytes : list byte) (size : Z) :
  _pcb (obj w) = Some p ->
  Lwip.state p = 4 ->
  0 < Lwip.snd_buf p ->
  0 < size < 2 ^ 32 ->
  next_result w = Lwip.ERR_OK ->
  next_result (took_result w) = Lwip.ERR_OK ->
  let n := Z.min (Lwip.snd_buf p) size in
  write (Some bytes) size w =
  (Some n, after_chunk n w,
   [Net (Lwip.TcpWrite (Some (Lwip.pcb_id p)) (firstn (Z.to_nat n) bytes) n 0);
    Net (Lwip.TcpOutput (Some (Lwip.pcb_id p)))]).
Proof.
  intros Hp Hst Hroom Hsize Hw Ho n. unfold write.
  rewrite (write_fuel_chunk _ bytes size w p Hp Hst Hroom); [|lia|exact Hw|exact Ho].
  fold n. cbv zeta. destruct (Z.ltb_spec n size) as [Hlt|Hle].
  - assert (Hn : n = Lwip.snd_buf p) by (subst n; lia).
    assert (Hc : canSend (obj (after_chunk n w)) = false).
    { unfold canSend, space, after_chunk. fields. rewrite Hp. fields.
      rewrite Hst, Hn, Z.sub_diag. reflexivity. }
    destruct (Z.to_nat size) as [|f] eqn:Ef; [lia|].
    rewrite (write_fuel_no_window f _ _ _ Hc). fields.
    unfold uint32. rewrite Z.add_0_r, Z.mod_small by lia. reflexivity.
  - assert (Hn : n = size) by (subst n; lia). rewrite Hn. reflexivity.
Qed.

(** X3: established handle, free window [snd_buf > 0], [tcp_write] and
    [tcp_output] both succeeding.  [write(data, size)] returns
    [min(snd_buf, size)], the lwIP calls are exactly one [tcp_write] of that
    prefix and one [tcp_output], the window shrinks by the same amount, and the
    send is marked in flight at the current [millis()]. *)
Theorem write_sends_what_the_window_admits
    (w : World) (p : Lwip.tcp_pcb) (bytes : list byte) (size : Z) :
  _pcb (obj w) = Some p ->
  Lwip.state p = 4 ->
  0 < Lwip.snd_buf p ->
  0 < size < 2 ^ 32 ->
  next_result w = Lwip.ERR_OK ->
  next_result (took_result w) = Lwip.ERR_OK ->
  let n := Z.min (Lwip.snd_buf p) size in
  let r := write (Some bytes) size w in
  val r = Some n /\
  trace r = [Net (Lwip.TcpWrite (Some (Lwip.pcb_id p)) (firstn (Z.to_nat n) bytes) n 0);
             Net (Lwip.TcpOutput (Some (Lwip.pcb_id p)))] /\
  space (obj (post r)) = Lwip.snd_buf p - n /\
  _pcb_busy (obj (post r)) = true /\
  _pcb_sent_at (obj (post r)) = next_millis w.
Proof.
  intros Hp Hst Hroom Hsize Hw Ho n r. subst r n.
  rewrite (run_write_open w p bytes size Hp Hst Hroom Hsize Hw Ho). fields.
  repeat split.
  unfold space, after_chunk. fields. rewrite Hp. fields. rewrite Hst. reflexivity.
Qed.

Lemma write_sends_what_the_window_admits_witness :
  val (write (Some (repeat x78 250)) 250 (Sample.world 100)) = Some 100 /\
  val (write (Some (repeat x78 250)) 60 (Sample.world 100)) = Some 60.
Proof.
  split.
  - apply (write_sends_what_the_window_admits (Sample.world 100) (Sample.established 100)
             (repeat x78 250) 250); reflexivity || lia.
  - apply (write_sends_what_the_window_admits (Sample.world 100) (Sample.established 100)
             (repeat x78 250) 60); reflexivity || lia.
Defined.

(** X4: established handle, [tcp_write] succeeds and the [tcp_output] after it
    fails.  [write] returns 0 although the first [min(snd_buf, size)] bytes were
    queued and the window was charged for them; the in-flight flag and the send
    timestamp keep their old values. *)
Theorem write_reports_nothing_when_the_flush_fails
    (w : World) (p : Lwip.tcp_pcb) (bytes : list byte) (size : Z) :
  _pcb (obj w) = Some p ->
  Lwip.state p = 4 ->
  0 < Lwip.snd_buf p ->
  0 < size ->
  next_result w = Lwip.ERR_OK ->
  next_result (took_result w) <> Lwip.ERR_OK ->
  let n := Z.min (Lwip.snd_buf p) size in
  let r := write (Some bytes) size w in
  val r = Some 0 /\
  queued_bytes (trace r) = firstn (Z.to_nat n) bytes /\
  space (obj (post r)) = Lwip.snd_buf p - n /\
  _pcb_busy (obj (post r)) = _pcb_busy (obj w) /\
  _pcb_sent_at (obj (post r)) = _pcb_sent_at (obj w).
Proof.
  intros Hp Hst Hroom Hsize Hw Ho n r. subst r.
  assert (Hc : canSend (obj w) = true).
  { unfold canSend, space. rewrite Hp, Hst. cbn. now apply Z.ltb_lt. }
  assert (Hz : (size =? 0) = false) by (apply Z.eqb_neq; lia).
  assert (Hmin : (if Lwip.snd_buf p <? size then Lwip.snd_buf p else size) = n).
  { subst n. destruct (Z.ltb_spec (Lwip.snd_buf p) size); lia. }
  apply Z.eqb_neq in Ho.
  unfold write. cbn [write_fuel]. exec. rewrite Hp, Hz, Hc. cbv iota. exec.
  rewrite (run_tcp_write_ok _ _ _ _ w Hw). rewrite Z.eqb_refl. exec.
  unfold tcp_sndbuf. rewrite Hmin, Hp.
  change (next_result _) with (next_result (took_result w)). rewrite Ho. exec.
  repeat split.
  - unfold queued_bytes. cbn. apply app_nil_r.
  - unfold space. fields. rewrite Hst. reflexivity.
Qed.

Lemma write_reports_nothing_when_the_flush_fails_witness :
  val (write (Some (repeat x78 250)) 60 Fixture.flaky_world) = Some 0 /\
  queued_bytes (trace (write (Some (repeat x78 250)) 60 Fixture.flaky_world)) =
  repeat x78 60.
Proof.
  pose proof (write_reports_nothing_when_the_flush_fails Fixture.flaky_world
                (Sample.established 100) (repeat x78 250) 60 eq_refl eq_refl eq_refl eq_refl
                eq_refl ltac:(discriminate)) as H.
  cbv zeta in H. destruct H as [H1 [H2 _]].
  split; [exact H1|exact H2].
Defined.

(** X5: established handle, [0 < size < snd_buf], lwIP succeeding.  [add] then
    [send] is [write]: [add] returns [size], [send] returns [true], [write]
    returns [size], and the two routes make the same lwIP calls and end in the
    same world. *)
Theorem add_then_send_is_write
    (w : World) (p : Lwip.tcp_pcb) (bytes : list byte) (size : Z) :
  _pcb (obj w) = Some p ->
  Lwip.state p = 4 ->
  0 < size < Lwip.snd_buf p ->
  size < 2 ^ 32 ->
  next_result w = Lwip.ERR_OK ->
  next_result (took_result w) = Lwip.ERR_OK ->
  let a := add (Some bytes) size w in
  let s := send (post a) in
  let r := write (Some bytes) size w in
  val a = size /\ val s = true /\ val r = Some size /\
  post s = post r /\
  trace a ++ trace s = trace r.
Proof.
  intros Hp Hst Hsize Hlim Hw Ho a s r.
  assert (Hz : (size =? 0) = false) by (apply Z.eqb_neq; lia).
  assert (Hrz : (Lwip.snd_buf p =? 0) = false) by (apply Z.eqb_neq; lia).
  assert (Hlt : (Lwip.snd_buf p <? size) = false) by (apply Z.ltb_ge; lia).
  assert (Ha : a = (size,
                    mkWorld (set_pcb (Some (Lwip.set_snd_buf (Lwip.snd_buf p - size) p)) (obj w))
                            (sys (took_result w)),
                    [Net (Lwip.TcpWrite (Some (Lwip.pcb_id p))
                            (firstn (Z.to_nat size) bytes) size 0)])).
  { subst a. unfold add. exec. rewrite Hp, Hz. cbv iota. unfold tcp_sndbuf.
    rewrite Hrz, Hlt. rewrite (run_tcp_write_ok _ _ _ _ w Hw). rewrite Z.eqb_refl, Hp.
    reflexivity. }
  assert (Hr : r = (Some size, after_chunk size w,
            [Net (Lwip.TcpWrite (Some (Lwip.pcb_id p)) (firstn (Z.to_nat size) bytes) size 0);
             Net (Lwip.TcpOutput (Some (Lwip.pcb_id p)))])).
  { subst r. rewrite (run_write_open w p bytes size Hp Hst); try assumption; try lia.
    rewrite Z.min_r by lia. reflexivity. }
  subst s. rewrite Ha. fields. unfold send. exec.
  assert (Hc : canSend (set_pcb (Some (Lwip.set_snd_buf (Lwip.snd_buf p - size) p)) (obj w))
               = true).
  { unfold canSend, space. fields. rewrite Hst. cbn. apply Z.ltb_lt. lia. }
  rewrite Hc. exec.
  change (next_result _) with (next_result (took_result w)). rewrite Ho, Z.eqb_refl. exec.
  rewrite Hr. fields. repeat split.
  unfold after_chunk. rewrite Hp. reflexivity.
Qed.

Lemma add_then_send_is_write_witness :
  val (add (Some (repeat x78 250)) 60 (Sample.world 100)) = 60 /\
  post (send (post (add (Some (repeat x78 250)) 60 (Sample.world 100)))) =
  post (write (Some (repeat x78 250)) 60 (Sample.world 100)).
Proof.
  pose proof (add_then_send_is_write (Sample.world 100) (Sample.established 100)
                (repeat x78 250) 60 eq_refl eq_refl ltac:(cbn; lia) eq_refl eq_refl
                eq_refl) as H.
  cbv zeta in H. destruct H as [H1 [_ [_ [H2 _]]]].
  split; [exact H1|exact H2].
Defined.

(** X6: [add] on a handle that is not established, or whose window the request
    fills: [min(snd_buf, size)] bytes are queued, the in-flight flag is
    untouched, and the [send] that follows returns [false] with no lwIP call at
    all, since [canSend] is false by then. *)
Theorem add_without_send_window_is_stuck
    (w : World) (p : Lwip.tcp_pcb) (bytes : list byte) (size : Z) :
  _pcb (obj w) = Some p ->
  0 < Lwip.snd_buf p ->
  0 < size ->
  next_result w = Lwip.ERR_OK ->
  Lwip.state p <> 4 \/ Lwip.snd_buf p <= size ->
  let a := add (Some bytes) size w in
  val a = Z.min (Lwip.snd_buf p) size /\
  queued_bytes (trace a) = firstn (Z.to_nat (Z.min (Lwip.snd_buf p) size)) bytes /\
  _pcb_busy (obj (post a)) = _pcb_busy (obj w) /\
  send (post a) = (false, post a, []).
Proof.
  intros Hp Hroom Hsize Hw Hstuck a.
  assert (Hz : (size =? 0) = false) by (apply Z.eqb_neq; lia).
  assert (Hrz : (Lwip.snd_buf p =? 0) = false) by (apply Z.eqb_neq; lia).
  assert (Hmin : (if Lwip.snd_buf p <? size then Lwip.snd_buf p else size) =
                 Z.min (Lwip.snd_buf p) size).
  { destruct (Z.ltb_spec (Lwip.snd_buf p) size); lia. }
  set (n := Z.min (Lwip.snd_buf p) size) in *.
  assert (Ha : a = (n,
                    mkWorld (set_pcb (Some (Lwip.set_snd_buf (Lwip.snd_buf p - n) p)) (obj w))
                            (sys (took_result w)),
                    [Net (Lwip.TcpWrite (Some (Lwip.pcb_id p))
                            (firstn (Z.to_nat n) bytes) n 0)])).
  { subst a. unfold add. exec. rewrite Hp, Hz. cbv iota. unfold tcp_sndbuf.
    rewrite Hrz, Hmin. rewrite (run_tcp_write_ok _ _ _ _ w Hw). rewrite Z.eqb_refl, Hp.
    reflexivity. }
  rewrite Ha. fields. repeat split.
  - unfold queued_bytes. cbn. apply app_nil_r.
  - unfold send. exec.
    assert (Hc : canSend (set_pcb (Some (Lwip.set_snd_buf (Lwip.snd_buf p - n) p)) (obj w))
                 = false).
    { unfold canSend, space. fields. destruct (Z.eqb_spec (Lwip.state p) 4) as [E|E];
        [|reflexivity].
      destruct Hstuck as [H|H]; [contradiction|]. apply Z.ltb_ge. subst n. lia. }
    rewrite Hc. reflexivity.
Qed.

Lemma add_without_send_window_is_stuck_witness :
  val (add (Some (repeat x78 250)) 250 (Sample.world 100)) = 100 /\
  val (send (post (add (Some (repeat x78 250)) 250 (Sample.world 100)))) = false.
Proof.
  pose proof (add_without_send_window_is_stuck (Sample.world 100) (Sample.established 100)
                (repeat x78 250) 250 eq_refl eq_refl eq_refl eq_refl
                ltac:(right; cbn; lia)) as H.
  cbv zeta in H. destruct H as [H1 [_ [_ H2]]].
  split; [exact H1|]. rewrite H2. reflexivity.
Defined.

(** ** Acknowledgment *)

Lemma acked_bytes_app (t1 t2 : list Event) :
  acked_bytes (t1 ++ t2) = acked_bytes t1 + acked_bytes t2.
Proof.
  unfold acked_bytes, calls. rewrite flat_map_app.
  induction (flat_map _ t1) as [|c l IH]; [reflexivity|].
  cbn [app fold_right]. rewrite IH. destruct c; lia.
Qed.

(** What [ack(n)] does when the clamped count fits 16 bits. *)
Lemma ack_inv (n : Z) (w : World) (p : Lwip.tcp_pcb) :
  _pcb (obj w) = Some p ->
  0 <= n -> 0 <= _rx_ack_len (obj w) < 2 ^ 32 ->
  Z.min n (_rx_ack_len (obj w)) < 2 ^ 16 ->
  let b := _rx_ack_len (obj w) in
  let r := ack n w in
  val r = Z.min n b /\
  calls (trace r) =
    (if Z.min n b =? 0 then [] else [Lwip.TcpRecved (Some (Lwip.pcb_id p)) (Z.min n b)]) /\
  acked_bytes (trace r) = Z.min n b /\
  post r = mkWorld (set_rx_ack_len (Z.max 0 (b - n)) (obj w)) (sys w).
Proof.
  intros Hp Hn Hb Hm b r. subst r. rewrite (run_ack n w Hn Hb), Hp. fold b.
  cbn [Lwip.ptr option_map].
  rewrite uint16_small by (subst b; lia). cbn [val post trace fst snd].
  destruct (Z.eqb_spec (Z.min n b) 0) as [E|E].
  - rewrite E. repeat split.
  - repeat split. unfold acked_bytes. cbn. lia.
Qed.

(** X7: a held handle, a backlog below 65536, so that every length fits the
    16 bits of [tcp_recved], and [a + b] below 2^32, so that the 32-bit sum does
    not wrap.  [ack(a)] then [ack(b)] return counts that add up to
    [min(a + b, backlog)], pass exactly those counts to [tcp_recved] on the
    handle, and end in the world of the single call [ack(a + b)]. *)
Theorem ack_twice_is_ack_of_the_sum (a b : Z) (w : World) (p : Lwip.tcp_pcb) :
  _pcb (obj w) = Some p ->
  0 <= a -> 0 <= b -> a + b < 2 ^ 32 ->
  0 <= _rx_ack_len (obj w) < 2 ^ 16 ->
  let backlog := _rx_ack_len (obj w) in
  let r1 := ack a w in
  let r2 := ack b (post r1) in
  val r1 + val r2 = Z.min (a + b) backlog /\
  acked_bytes (trace r1 ++ trace r2) = Z.min (a + b) backlog /\
  calls (trace r1 ++ trace r2) =
    (if Z.min a backlog =? 0 then []
     else [Lwip.TcpRecved (Some (Lwip.pcb_id p)) (Z.min a backlog)]) ++
    (if Z.min b (backlog - Z.min a backlog) =? 0 then []
     else [Lwip.TcpRecved (Some (Lwip.pcb_id p)) (Z.min b (backlog - Z.min a backlog))]) /\
  _rx_ack_len (obj (post r2)) = Z.max 0 (backlog - (a + b)) /\
  post r2 = post (ack (a + b) w).
Proof.
  intros Hp Ha Hb Hsum Hw backlog r1 r2.
  destruct (ack_inv a w p Hp Ha ltac:(lia) ltac:(lia)) as [V1 [C1 [A1 P1]]].
  fold r1 backlog in V1, C1, A1, P1.
  assert (Hp1 : _pcb (obj (post r1)) = Some p) by (rewrite P1; exact Hp).
  assert (Hb1 : _rx_ack_len (obj (post r1)) = Z.max 0 (backlog - a)) by (now rewrite P1).
  destruct (ack_inv b (post r1) p Hp1 Hb ltac:(lia) ltac:(lia)) as [V2 [C2 [A2 P2]]].
  fold r2 in V2, C2, A2, P2. rewrite Hb1 in V2, C2, A2, P2.
  destruct (ack_inv (a + b) w p Hp ltac:(lia) ltac:(lia) ltac:(lia)) as [_ [_ [_ P3]]].
  fold backlog in P3.
  assert (Hrest : Z.max 0 (backlog - a) = backlog - Z.min a backlog) by lia.
  rewrite acked_bytes_app, calls_app, A1, A2, V1, V2, C1, C2, P2, P3, P1, <- Hrest.
  cbn [obj sys _rx_ack_len set_rx_ack_len].
  replace (Z.max 0 (Z.max 0 (backlog - a) - b)) with (Z.max 0 (backlog - (a + b))) by lia.
  repeat split; lia.
Qed.

Lemma ack_twice_is_ack_of_the_sum_witness :
  val (ack 25 Fixture.backlog_40) + val (ack 25 (post (ack 25 Fixture.backlog_40))) = 40 /\
  calls (trace (ack 25 Fixture.backlog_40) ++
         trace (ack 25 (post (ack 25 Fixture.backlog_40)))) =
    [Lwip.TcpRecved (Some 1%nat) 25; Lwip.TcpRecved (Some 1%nat) 15] /\
  _rx_ack_len (obj (post (ack 25 (post (ack 25 Fixture.backlog_40))))) = 0.
Proof.
  pose proof (ack_twice_is_ack_of_the_sum 25 25 Fixture.backlog_40 (Sample.established 100)
                eq_refl ltac:(lia) ltac:(lia) ltac:(lia) ltac:(cbn; lia)) as H.
  cbv zeta in H. destruct H as [H1 [_ [H2 [H3 _]]]].
  split; [exact H1|]. split; [exact H2|exact H3].
Defined.

(** ** Inbound chains *)

Lemma recv_loop_untouched (App : App_t) (pcb : option Lwip.tcp_pcb) (pb : list Lwip.pbuf) :
  (forall f a ev w, obj (fst (App f a ev w)) = obj w) ->
  forall w,
  let r := _recv_loop App pcb pb w in
  calls (trace r) =
    flat_map (fun b => [Lwip.TcpRecved (Lwip.ptr pcb) (Lwip.len b); Lwip.PbufFree b]) pb /\
  callbacks (trace r) =
    (if _recv_cb (obj w) is Some _
     then map (fun b => OnData (Lwip.payload b) (Lwip.len b)) pb else []) /\
  obj (post r) = (if pb is [] then obj w else set_ack_pcb true (obj w)).
Proof.
  intros Hkeep. induction pb as [|b pb IH]; intros w r; subst r.
  - cbn. now destruct (_recv_cb (obj w)).
  - cbn [_recv_loop]. exec.
    destruct (_recv_cb (obj w)) as [f|] eqn:Hf.
    + exec. rewrite Hkeep. exec.
      match goal with |- context [_recv_loop App pcb pb ?w'] =>
        destruct (IH w') as [IH1 [IH2 IH3]];
        assert (Ho : obj w' = set_ack_pcb true (obj w)) by apply Hkeep;
        rewrite Ho in IH2, IH3;
        destruct (_recv_loop App pcb pb w') as [[u w1] t1] end.
      fields. cbn [_recv_cb set_ack_pcb] in IH2. rewrite Hf in IH2.
      cbn [calls callbacks flat_map app map]. fold (calls t1). fold (callbacks t1).
      rewrite IH1, IH2, IH3. repeat split. now destruct pb.
    + exec.
      match goal with |- context [_recv_loop App pcb pb ?w'] =>
        destruct (IH w') as [IH1 [IH2 IH3]];
        destruct (_recv_loop App pcb pb w') as [[u w1] t1] end.
      fields. rewrite Hf in IH2.
      cbn [calls callbacks flat_map app map]. fold (calls t1). fold (callbacks t1).
      rewrite IH1, IH2, IH3. repeat split. now destruct pb.
Qed.

Lemma acked_bytes_of_chain (h : Lwip.handle) (pb : list Lwip.pbuf) (t : list Event) :
  calls t = flat_map (fun b => [Lwip.TcpRecved h (Lwip.len b); Lwip.PbufFree b]) pb ->
  acked_bytes t = chain_len pb.
Proof.
  unfold acked_bytes. intros ->. induction pb as [|b pb IH]; [reflexivity|].
  cbn [flat_map app fold_right chain_len]. rewrite IH. reflexivity.
Qed.

(** X8: a nonempty chain, handlers that leave the object alone.  [_recv]
    returns [ERR_OK]; for each buffer in order it calls [tcp_recved] with the
    buffer's length and then [pbuf_free]; the acknowledged total is the length of
    the chain, [onData] fires once per buffer, the backlog is unchanged and the
    last-packet time is the current [millis()]. *)
Theorem delivery_is_acknowledged_in_full_and_freed
    (App : App_t) (pcb : option Lwip.tcp_pcb) (b : Lwip.pbuf) (pb : list Lwip.pbuf)
    (err : Z) (w : World) :
  (forall f a ev w', obj (fst (App f a ev w')) = obj w') ->
  let r := _recv App pcb (b :: pb) err w in
  val r = Lwip.ERR_OK /\
  calls (trace r) =
    flat_map (fun b => [Lwip.TcpRecved (Lwip.ptr pcb) (Lwip.len b); Lwip.PbufFree b])
      (b :: pb) /\
  acked_bytes (trace r) = chain_len (b :: pb) /\
  callbacks (trace r) =
    (if _recv_cb (obj w) is Some _
     then map (fun b => OnData (Lwip.payload b) (Lwip.len b)) (b :: pb) else []) /\
  _rx_ack_len (obj (post r)) = _rx_ack_len (obj w) /\
  _rx_last_packet (obj (post r)) = next_millis w.
Proof.
  intros Hkeep r. subst r. unfold _recv. exec. rewrite run_then_ret.
  match goal with |- context [_recv_loop App pcb (b :: pb) ?w'] =>
    destruct (recv_loop_untouched App pcb (b :: pb) Hkeep w') as [H1 [H2 H3]] end.
  fields. rewrite H3. fields.
  repeat split; try assumption.
  apply (acked_bytes_of_chain (Lwip.ptr pcb)). exact H1.
Qed.

Lemma delivery_is_acknowledged_in_full_and_freed_witness :
  acked_bytes (trace (_recv Sample.quiet (Some (Sample.established 100))
                        [Sample.packet 40; Sample.packet 10] 0 (Sample.world 100))) = 50.
Proof.
  pose proof (delivery_is_acknowledged_in_full_and_freed Sample.quiet
                (Some (Sample.established 100)) (Sample.packet 40) [Sample.packet 10] 0
                (Sample.world 100) (fun _ _ _ _ => eq_refl)) as H.
  cbv zeta in H. destruct H as [_ [_ [H _]]].
  exact H.
Defined.

Lemma chain_len_nonneg (pb : list Lwip.pbuf) :
  Forall (fun b => 0 <= Lwip.len b) pb -> 0 <= chain_len pb.
Proof.
  induction 1 as [|b pb Hb _ IH]; cbn [chain_len fold_right]; [lia|].
  fold (chain_len pb). lia.
Qed.

Lemma recv_loop_deferred (App : App_t) (pcb : option Lwip.tcp_pcb) (f : fn_ptr)
    (pb : list Lwip.pbuf) :
  (forall g a d l w, obj (fst (App g a (OnData d l) w)) = set_ack_pcb false (obj w)) ->
  Forall (fun b => 0 <= Lwip.len b) pb ->
  forall w,
  _recv_cb (obj w) = Some f ->
  0 <= _rx_ack_len (obj w) ->
  _rx_ack_len (obj w) + chain_len pb < 2 ^ 32 ->
  let r := _recv_loop App pcb pb w in
  acked_bytes (trace r) = 0 /\
  calls (trace r) = map Lwip.PbufFree pb /\
  _rx_ack_len (obj (post r)) = _rx_ack_len (obj w) + chain_len pb.
Proof.
  intros Hclr Hlen. induction Hlen as [|b pb Hb Hpb IH]; intros w Hf Hx Hsum r; subst r.
  - cbn. repeat split. lia.
  - cbn [chain_len fold_right] in Hsum. fold (chain_len pb) in Hsum.
    pose proof (chain_len_nonneg pb Hpb) as Hnn.
    cbn [_recv_loop]. exec. rewrite Hf. repeat (progress (exec; rewrite ?Hclr)).
    match goal with |- context [_recv_loop App pcb pb ?w'] => set (w1 := w') end.
    assert (Hx1 : _rx_ack_len (obj w1) = _rx_ack_len (obj w) + Lwip.len b).
    { subst w1. fields. unfold uint32. rewrite Z.mod_small; lia. }
    destruct (IH w1) as [IH1 [IH2 IH3]]; [exact Hf|lia|lia|].
    destruct (_recv_loop App pcb pb w1) as [[u w2] t1]. fields.
    cbn [chain_len fold_right]. fold (chain_len pb).
    repeat split.
    + unfold acked_bytes in *. cbn [calls flat_map app fold_right]. exact IH1.
    + cbn [calls flat_map app map]. fold (calls t1). now rewrite IH2.
    + lia.
Qed.

(** X9: an [onData] handler that clears the auto-ack flag.  [_recv] of a chain
    calls [tcp_recved] for none of it, frees every buffer, and grows the backlog
    by the chain's length; [ack] of that length then returns it and puts the
    backlog back where it was.  The transport is told the length narrowed to 16
    bits: exactly the length for a chain of fewer than 65536 bytes. *)
Theorem deferred_delivery_round_trip
    (App : App_t) (pcb : option Lwip.tcp_pcb) (f : fn_ptr) (b : Lwip.pbuf)
    (pb : list Lwip.pbuf) (err : Z) (w : World) :
  (forall g a d l w', obj (fst (App g a (OnData d l) w')) = set_ack_pcb false (obj w')) ->
  Forall (fun b => 0 <= Lwip.len b) (b :: pb) ->
  _recv_cb (obj w) = Some f ->
  0 <= _rx_ack_len (obj w) ->
  _rx_ack_len (obj w) + chain_len (b :: pb) < 2 ^ 32 ->
  let r := _recv App pcb (b :: pb) err w in
  let r' := ack (chain_len (b :: pb)) (post r) in
  acked_bytes (trace r) = 0 /\
  calls (trace r) = map Lwip.PbufFree (b :: pb) /\
  _rx_ack_len (obj (post r)) = _rx_ack_len (obj w) + chain_len (b :: pb) /\
  val r' = chain_len (b :: pb) /\
  acked_bytes (trace r') = uint16 (chain_len (b :: pb)) /\
  (chain_len (b :: pb) < 2 ^ 16 -> acked_bytes (trace r') = chain_len (b :: pb)) /\
  _rx_ack_len (obj (post r')) = _rx_ack_len (obj w).
Proof.
  intros Hclr Hlen Hf Hx Hsum r r'.
  pose proof (chain_len_nonneg _ Hlen) as Hnn.
  assert (Hr : acked_bytes (trace r) = 0 /\
               calls (trace r) = map Lwip.PbufFree (b :: pb) /\
               _rx_ack_len (obj (post r)) = _rx_ack_len (obj w) + chain_len (b :: pb)).
  { subst r. unfold _recv. exec. rewrite run_then_ret. fields.
    match goal with |- context [_recv_loop App pcb (b :: pb) ?w'] =>
      destruct (recv_loop_deferred App pcb f (b :: pb) Hclr Hlen w') as [H1 [H2 H3]];
      [exact Hf|exact Hx|exact Hsum|] end.
    repeat split; assumption. }
  destruct Hr as [H1 [H2 H3]].
  assert (Hmin : Z.min (chain_len (b :: pb)) (_rx_ack_len (obj (post r))) =
                 chain_len (b :: pb)) by lia.
  assert (Hacked : acked_bytes (trace r') = uint16 (chain_len (b :: pb))).
  { subst r'. rewrite (run_ack _ (post r)) by lia. rewrite Hmin. cbn [trace snd].
    destruct (Z.eqb_spec (chain_len (b :: pb)) 0) as [E|E].
    - rewrite E. reflexivity.
    - unfold acked_bytes. cbn. lia. }
  split; [exact H1|]. split; [exact H2|]. split; [exact H3|].
  split; [|split; [exact Hacked|split]].
  - subst r'. rewrite (run_ack _ (post r)) by lia. exact Hmin.
  - intros Hsmall. rewrite Hacked. apply uint16_small. lia.
  - subst r'. rewrite (run_ack _ (post r)) by lia. cbn [post fst snd obj _rx_ack_len
      set_rx_ack_len]. lia.
Qed.

Lemma deferred_delivery_round_trip_witness :
  _rx_ack_len (obj (post (_recv Sample.defers (Some (Sample.established 100))
                            [Sample.packet 40; Sample.packet 10] 0 (Sample.world 100)))) = 50 /\
  acked_bytes
    (trace (ack 50 (post (_recv Sample.defers (Some (Sample.established 100))
                            [Sample.packet 40; Sample.packet 10] 0
                            (Sample.world 100))))) = 50 /\
  _rx_ack_len
    (obj (post (ack 50 (post (_recv Sample.defers (Some (Sample.established 100))
                                [Sample.packet 40; Sample.packet 10] 0
                                (Sample.world 100)))))) = 0.
Proof.
  pose proof (deferred_delivery_round_trip Sample.defers (Some (Sample.established 100)) 5%nat
                (Sample.packet 40) [Sample.packet 10] 0 (Sample.world 100)
                (fun _ _ _ _ _ => eq_refl)
                ltac:(repeat constructor; cbn; lia) eq_refl ltac:(cbn; lia)
                ltac:(cbn; lia)) as H.
  cbv zeta in H. destruct H as [_ [_ [H1 [_ [_ [H2 H3]]]]]].
  split; [exact H1|]. split; [apply H2; cbn; lia|exact H3].
Defined.

(** ** Establishing a connection *)

Lemma run_bind_ip_route {B} (addr : Z) (k : bool -> M B) (w : World) :
  bind (ip_route addr) k w = prepend [Net (Lwip.IpRoute addr)] (k (route (sys w) addr) w).
Proof. rewrite run_bind_prepend. reflexivity. Qed.

Lemma run_bind_tcp_new {B} (k : option Lwip.tcp_pcb -> M B) (w : World) :
  bind tcp_new k w =
  prepend [Net Lwip.TcpNew]
    (match pool (sys w) with
     | [] => k None w
     | b :: rest => k (Some b) (with_pool rest w)
     end).
Proof. rewrite run_bind_prepend. unfold tcp_new. now destruct (pool (sys w)). Qed.

(** [connect]: on success the first block of the pool is taken and carries
    the error callback. *)
Lemma run_connect (ip port : Z) (w : World) :
  connect ip port w =
  match _pcb (obj w) with
  | Some _ => (false, w, [])
  | None =>
      if route (sys w) ip then
        match pool (sys w) with
        | [] => (false, w, [Net (Lwip.IpRoute ip); Net Lwip.TcpNew])
        | b :: rest =>
            (true, with_errf (Some (Lwip.pcb_id b)) true (with_pool rest w),
             connecting_calls b ip port)
        end
      else (false, w, [Net (Lwip.IpRoute ip)])
  end.
Proof.
  unfold connect. exec. destruct (_pcb (obj w)); [reflexivity|].
  rewrite run_bind_ip_route. destruct (route (sys w) ip); [|reflexivity].
  cbn [negb]. rewrite run_bind_tcp_new. destruct (pool (sys w)) as [|b rest]; [reflexivity|].
  exec. reflexivity.
Qed.

(** X10: [connect(ip, port)] leaves the object as it was and fires no callback.
    It returns [true] exactly when no handle is held, [ip] has a route and
    [tcp_new] has a block to give; then it takes the first block and its calls
    are [connecting_calls].  With a handle held it does nothing at all; whenever
    it returns [false] the pool is intact and [tcp_connect] was never called. *)
Theorem connect_outcomes (ip port : Z) (w : World) :
  let r := connect ip port w in
  obj (post r) = obj w /\
  callbacks (trace r) = [] /\
  (val r = true <->
   _pcb (obj w) = None /\ route (sys w) ip = true /\ pool (sys w) <> []) /\
  (_pcb (obj w) <> None -> trace r = []) /\
  (val r = false -> pool (sys (post r)) = pool (sys w) /\
                    forall h a p, ~ In (Lwip.TcpConnect h a p) (calls (trace r))) /\
  (val r = true ->
   exists b, pool (sys w) = b :: pool (sys (post r)) /\ trace r = connecting_calls b ip port).
Proof.
  intros r. subst r. rewrite run_connect.
  destruct (_pcb (obj w)) as [p|] eqn:Hp.
  { cbn. intuition (try discriminate; try congruence). }
  destruct (route (sys w) ip) eqn:Hr.
  2:{ cbn. intuition (try discriminate; try congruence). }
  destruct (pool (sys w)) as [|b rest] eqn:Hpool.
  { cbn. intuition (try discriminate; try congruence). }
  cbn. intuition (try discriminate; try congruence).
  exists b. split; reflexivity.
Qed.

(** X11: [connect] does not record the handle it creates.  On an object with no
    handle and two free blocks, a second [connect] made before the first is
    established succeeds as well: both blocks are taken, both get a
    [tcp_connect], and the object still holds no handle. *)
Theorem pending_connect_does_not_block_a_second (ip1 port1 ip2 port2 : Z) (w : World)
    (b1 b2 : Lwip.tcp_pcb) (rest : list Lwip.tcp_pcb) :
  _pcb (obj w) = None ->
  route (sys w) ip1 = true ->
  route (sys w) ip2 = true ->
  pool (sys w) = b1 :: b2 :: rest ->
  let r1 := connect ip1 port1 w in
  let r2 := connect ip2 port2 (post r1) in
  val r1 = true /\ val r2 = true /\
  _pcb (obj (post r2)) = None /\
  pool (sys (post r2)) = rest /\
  trace r1 ++ trace r2 = connecting_calls b1 ip1 port1 ++ connecting_calls b2 ip2 port2.
Proof.
  intros Hp H1 H2 Hpool r1 r2. subst r2 r1.
  rewrite (run_connect ip1 port1 w), Hp, H1, Hpool. fields.
  rewrite run_connect. rewrite ?obj_with_errf, ?route_with_errf, ?pool_with_errf. fields.
  rewrite Hp, H2. fields. rewrite ?obj_with_errf, ?pool_with_errf. fields.
  repeat split. exact Hp.
Qed.

Lemma pending_connect_does_not_block_a_second_witness :
  val (connect 10 80 Fixture.unconnected) = true /\
  val (connect 11 80 (post (connect 10 80 Fixture.unconnected))) = true.
Proof.
  pose proof (pending_connect_does_not_block_a_second 10 80 11 80 Fixture.unconnected
                (Lwip.mk_pcb 2 0 2920) (Lwip.mk_pcb 3 0 2920) [] eq_refl eq_refl eq_refl
                eq_refl) as H.
  cbv zeta in H. destruct H as [H1 [H2 _]].
  split; [exact H1|exact H2].
Defined.

(** X12: [connect] followed by lwIP's connected event for the same block.  Both
    succeed ([_connected] returns [ERR_OK] for any [err]).  The trace of
    [connect] is [connecting_calls], which sets the argument and the error
    callback; the trace of [_connected] is the priority, receive, sent and poll
    registrations, in that order, and only after them [onConnect], which runs on
    an object that holds the handle, has no send in flight and has its error
    callback on file. *)
Theorem establishment_registers_every_callback
    (App : App_t) (ip port err : Z) (w : World) (b : Lwip.tcp_pcb) (rest : list Lwip.tcp_pcb)
    (now_block : Lwip.tcp_pcb) :
  _pcb (obj w) = None ->
  route (sys w) ip = true ->
  pool (sys w) = b :: rest ->
  Lwip.pcb_id now_block = Lwip.pcb_id b ->
  let r1 := connect ip port w in
  let r2 := _connected App (Some now_block) err (post r1) in
  let h := Some (Lwip.pcb_id b) in
  let ready := mkWorld (set_pcb_busy false (set_pcb (Some now_block) (obj w)))
                       (sys (post r1)) in
  let fired := invoke App (_connect_cb (obj w)) (_connect_cb_arg (obj w)) OnConnect ready in
  val r1 = true /\ val r2 = Lwip.ERR_OK /\
  trace r1 = connecting_calls b ip port /\
  trace r2 = [Net (Lwip.TcpSetprio h Lwip.TCP_PRIO_MIN); Net (Lwip.TcpRecv h true);
              Net (Lwip.TcpSent h true); Net (Lwip.TcpPoll h true 1)] ++ trace fired /\
  errf (sys ready) (Lwip.pcb_id b) = true /\
  callbacks (trace r1 ++ trace r2) =
    (if _connect_cb (obj w) is Some _ then [OnConnect] else []) /\
  post r2 = post fired.
Proof.
  intros Hp Hr Hpool Hid r1 r2 h ready fired. subst fired ready r2 r1 h.
  rewrite (run_connect ip port w), Hp, Hr, Hpool. fields.
  unfold _connected. exec. rewrite Hid.
  destruct (_connect_cb (obj w)) as [f|]; exec; repeat split; apply errf_with_same.
Qed.

Lemma establishment_registers_every_callback_witness :
  trace (_connected Sample.quiet (Some (Lwip.mk_pcb 2 4 2920)) 0
           (post (connect 10 80 Fixture.unconnected))) =
  [Net (Lwip.TcpSetprio (Some 2%nat) Lwip.TCP_PRIO_MIN); Net (Lwip.TcpRecv (Some 2%nat) true);
   Net (Lwip.TcpSent (Some 2%nat) true); Net (Lwip.TcpPoll (Some 2%nat) true 1);
   Fire OnConnect 1%nat 0 []].
Proof.
  pose proof (establishment_registers_every_callback Sample.quiet 10 80 0 Fixture.unconnected
                (Lwip.mk_pcb 2 0 2920) [Lwip.mk_pcb 3 0 2920] (Lwip.mk_pcb 2 4 2920)
                eq_refl eq_refl eq_refl eq_refl) as H.
  cbv zeta in H. destruct H as [_ [_ [_ [H _]]]].
  exact H.
Defined.

(** X13: [connect(host, port)] with the resolver answering [ERR_INPROGRESS]
    returns [true] after the one resolver call, with the pool untouched.  When
    the address arrives, [_dns_found] makes exactly the calls of a [connect] to
    that address and to the port remembered from the first call; no callback
    fires on the way. *)
Theorem deferred_connect_uses_the_stored_port
    (App : App_t) (host : string) (addr port : Z) (w : World) (b : Lwip.tcp_pcb)
    (rest : list Lwip.tcp_pcb) :
  fst (resolver (sys w) host) = Lwip.ERR_INPROGRESS ->
  _pcb (obj w) = None ->
  route (sys w) addr = true ->
  pool (sys w) = b :: rest ->
  let started := connect_host host port w in
  let r := _dns_found App (Some addr) (post started) in
  val started = true /\
  calls (trace started) = [Lwip.DnsGetHostByName host] /\
  pool (sys (post started)) = pool (sys w) /\
  trace r = connecting_calls b addr port /\
  callbacks (trace started ++ trace r) = [] /\
  _pcb (obj (post r)) = None.
Proof.
  intros Hdns Hp Hr Hpool started r.
  assert (Hs : started = (true, mkWorld (set_connect_port port (obj w)) (sys w),
                          [Net (Lwip.DnsGetHostByName host)])).
  { subst started. unfold connect_host, dns_gethostbyname.
    rewrite run_bind_prepend. cbn [val post trace fst snd]. rewrite Hdns.
    cbn [Z.eqb Lwip.ERR_INPROGRESS Lwip.ERR_OK]. exec. reflexivity. }
  subst r. rewrite Hs. fields. unfold _dns_found. exec. rewrite run_then_ret.
  rewrite run_connect. fields. rewrite Hp, Hr, Hpool. fields. repeat split. exact Hp.
Qed.

Lemma deferred_connect_uses_the_stored_port_witness :
  trace (_dns_found Sample.quiet (Some 10)
           (post (connect_host "example.org" 8080 Fixture.unconnected))) =
  connecting_calls (Lwip.mk_pcb 2 0 2920) 10 8080.
Proof.
  pose proof (deferred_connect_uses_the_stored_port Sample.quiet "example.org" 10 8080
                Fixture.unconnected (Lwip.mk_pcb 2 0 2920) [Lwip.mk_pcb 3 0 2920]
                eq_refl eq_refl eq_refl eq_refl) as H.
  cbv zeta in H. destruct H as [_ [_ [_ [H _]]]].
  exact H.
Defined.

(** X14: [_dns_found] with an address: no callback fires and the object is
    unchanged, also when the [connect] it makes returns [false], in which case
    no [tcp_connect] is issued either.  A connection that cannot be started
    after a successful resolution is reported to nobody. *)
Theorem resolved_address_never_notifies (App : App_t) (addr : Z) (w : World) :
  let r := _dns_found App (Some addr) w in
  callbacks (trace r) = [] /\
  obj (post r) = obj w /\
  (val (connect addr (_connect_port (obj w)) w) = false ->
   forall h a p, ~ In (Lwip.TcpConnect h a p) (calls (trace r))).
Proof.
  intros r. subst r. unfold _dns_found. exec. rewrite run_then_ret.
  rewrite run_connect. fields.
  destruct (_pcb (obj w)) as [p|] eqn:Hp.
  { cbn. intuition (try discriminate; try congruence). }
  destruct (route (sys w) addr) eqn:Hr.
  2:{ cbn. intuition (try discriminate; try congruence). }
  destruct (pool (sys w)) as [|b rest] eqn:Hpool.
  { cbn. intuition (try discriminate; try congruence). }
  cbn. intuition (try discriminate; try congruence).
Qed.

(** X15: an attempt started by [connect] that lwIP fails before establishment.
    The object holds no handle, so [_error] makes no lwIP call; the callbacks of
    the whole attempt are [onError] with the code, when installed, followed by
    [onDisconnect], when installed after the error handler ran. *)
Theorem failed_attempt_reports_error_then_disconnect
    (App : App_t) (ip port err : Z) (w : World) :
  _pcb (obj w) = None ->
  let r1 := connect ip port w in
  let r := _error App err (post r1) in
  let e := invoke App (_error_cb (obj w)) (_error_cb_arg (obj w)) (OnError err) (post r1) in
  calls (trace r) = [] /\
  callbacks (trace r1 ++ trace r) =
    (if _error_cb (obj w) is Some _ then [OnError err] else []) ++
    (if _discard_cb (obj (post e)) is Some _ then [OnDisconnect] else []).
Proof.
  intros Hp r1 r e.
  assert (Ho : obj (post r1) = obj w /\ callbacks (trace r1) = []).
  { subst r1. rewrite run_connect, Hp.
    destruct (route (sys w) ip); [destruct (pool (sys w))|]; split; reflexivity. }
  destruct Ho as [Ho Hc].
  assert (Hcb : forall t1 t2, callbacks (t1 ++ t2) = callbacks t1 ++ callbacks t2).
  { intros t1 t2. unfold callbacks. apply flat_map_app. }
  rewrite Hcb, Hc. subst r e. remember (post r1) as w1 eqn:Hw1. clear Hw1 Hc.
  unfold _error. repeat (progress (exec; rewrite ?Ho, ?Hp)).
  destruct (_error_cb (obj w)) as [f|]; repeat (progress (exec; rewrite ?Ho)).
  - destruct (_discard_cb _); split; reflexivity.
  - destruct (_discard_cb (obj w)); split; reflexivity.
Qed.

Lemma failed_attempt_reports_error_then_disconnect_witness :
  callbacks (trace (connect 10 80 Fixture.unconnected) ++
             trace (_error Sample.quiet (-9) (post (connect 10 80 Fixture.unconnected)))) =
  [OnError (-9); OnDisconnect].
Proof.
  pose proof (failed_attempt_reports_error_then_disconnect Sample.quiet 10 80 (-9)
                Fixture.unconnected eq_refl) as H.
  cbv zeta in H. destruct H as [_ H].
  exact H.
Defined.

(** ** Teardown and the tick *)

(** X16: [_close] with a handle held always calls [tcp_close].  It returns
    [ERR_OK] exactly when that call succeeded; otherwise it returns [ERR_ABRT],
    and [tcp_abort] is called exactly in that case.  [onDisconnect] fires either
    way. *)
Theorem close_falls_back_to_abort (App : App_t) (w : World) (p : Lwip.tcp_pcb) :
  _pcb (obj w) = Some p ->
  let h := Some (Lwip.pcb_id p) in
  let r := _close App w in
  (val r = Lwip.ERR_OK <-> next_result w = Lwip.ERR_OK) /\
  (val r = Lwip.ERR_ABRT <-> next_result w <> Lwip.ERR_OK) /\
  (In (Lwip.TcpAbort h) (calls (trace r)) <-> next_result w <> Lwip.ERR_OK) /\
  In (Lwip.TcpClose h) (calls (trace r)) /\
  callbacks (trace r) = (if _discard_cb (obj w) is Some _ then [OnDisconnect] else []).
Proof.
  intros Hp h r. destruct (close_held_outside App w p Hp) as [Hc [Hb [Hv _]]].
  fold h r in Hc, Hb, Hv. rewrite Hc, Hv, Hb.
  destruct (Z.eqb_spec (next_result w) Lwip.ERR_OK) as [E|E].
  - cbn. intuition (try discriminate; try congruence).
  - cbn. intuition (try discriminate; try congruence).
Qed.

Lemma close_falls_back_to_abort_witness :
  val (_close Sample.quiet Fixture.flaky_world) = Lwip.ERR_OK /\
  val (_close Sample.quiet (took_result Fixture.flaky_world)) = Lwip.ERR_ABRT.
Proof.
  pose proof (close_falls_back_to_abort Sample.quiet Fixture.flaky_world
                (Sample.established 100) eq_refl) as H.
  pose proof (close_falls_back_to_abort Sample.quiet (took_result Fixture.flaky_world)
                (Sample.established 100) eq_refl) as H'.
  cbv zeta in H, H'. destruct H as [[_ H] _]. destruct H' as [_ [[_ H'] _]].
  split; [apply H; reflexivity|apply H'; discriminate].
Defined.

(** X17: [stop()] with a handle held makes one [tcp_recved] of the backlog,
    narrowed to the 16 bits of its parameter, sets the deferred-close flag and
    fires nothing; the handle stays.  The next tick deregisters the callbacks,
    calls [tcp_close] (and [tcp_abort] if that fails), releases the handle and
    fires [onDisconnect]. *)
Theorem deferred_close_happens_on_the_next_tick
    (App : App_t) (pcb : option Lwip.tcp_pcb) (w : World) (p : Lwip.tcp_pcb) :
  _pcb (obj w) = Some p ->
  let h := Some (Lwip.pcb_id p) in
  let r1 := stop App w in
  let r2 := _poll App pcb (post r1) in
  calls (trace r1) = [Lwip.TcpRecved h (uint16 (_rx_ack_len (obj w)))] /\
  callbacks (trace r1) = [] /\
  _pcb (obj (post r1)) = Some p /\
  _close_pcb (obj (post r1)) = true /\
  calls (trace r2) =
    calls (deregister h) ++ Lwip.TcpClose h ::
    (if next_result w =? Lwip.ERR_OK then [] else [Lwip.TcpAbort h]) /\
  callbacks (trace r2) = (if _discard_cb (obj w) is Some _ then [OnDisconnect] else []) /\
  post r2 = post (invoke App (_discard_cb (obj w)) (_discard_cb_arg (obj w)) OnDisconnect
                    (released (took_result
                       (mkWorld (set_close_pcb false (obj w)) (sys w))))).
Proof.
  intros Hp h r1 r2.
  assert (H1 : r1 = (tt, mkWorld (set_close_pcb true (obj w)) (sys w),
                     [Net (Lwip.TcpRecved h (uint16 (_rx_ack_len (obj w))))])).
  { subst r1 h. unfold stop, close. exec. rewrite Hp. reflexivity. }
  subst r2. rewrite H1. fields. unfold _poll. exec. rewrite run_then_ret.
  match goal with |- context [_close App ?w'] =>
    destruct (close_held_outside App w' p) as [Hc [Hb [_ Hw]]]; [exact Hp|] end.
  fields. repeat split; assumption.
Qed.

Lemma deferred_close_happens_on_the_next_tick_witness :
  _pcb (obj (post (stop Sample.quiet (Sample.world 100)))) = Some (Sample.established 100) /\
  callbacks (trace (_poll Sample.quiet None (post (stop Sample.quiet (Sample.world 100))))) =
  [OnDisconnect].
Proof.
  pose proof (deferred_close_happens_on_the_next_tick Sample.quiet None (Sample.world 100)
                (Sample.established 100) eq_refl) as H.
  cbv zeta in H. destruct H as [_ [_ [H1 [_ [_ [H2 _]]]]]].
  split; [exact H1|exact H2].
Defined.

(** X18: a held handle and a backlog below 65536.  [close(false)] hands the
    whole backlog to [tcp_recved] and leaves the counter and the handle as they
    were, so an [ack(n)] before the tick passes [min(n, backlog)] to
    [tcp_recved] again: the total acknowledged exceeds what was received and
    held back. *)
Theorem close_acknowledges_backlog_without_clearing_it
    (App : App_t) (n : Z) (w : World) (p : Lwip.tcp_pcb) :
  _pcb (obj w) = Some p ->
  0 <= n -> 0 <= _rx_ack_len (obj w) < 2 ^ 16 ->
  let h := Some (Lwip.pcb_id p) in
  let backlog := _rx_ack_len (obj w) in
  let r1 := close App false w in
  let r2 := ack n (post r1) in
  calls (trace r1) = [Lwip.TcpRecved h backlog] /\
  _pcb (obj (post r1)) = Some p /\
  _rx_ack_len (obj (post r1)) = backlog /\
  val r2 = Z.min n backlog /\
  calls (trace r2) =
    (if Z.min n backlog =? 0 then [] else [Lwip.TcpRecved h (Z.min n backlog)]) /\
  acked_bytes (trace r1 ++ trace r2) = backlog + Z.min n backlog.
Proof.
  intros Hp Hn Hb h backlog r1 r2.
  assert (H1 : r1 = (tt, mkWorld (set_close_pcb true (obj w)) (sys w),
                     [Net (Lwip.TcpRecved h backlog)])).
  { subst r1 h backlog. unfold close. exec. rewrite Hp, uint16_small by exact Hb.
    reflexivity. }
  assert (Hp1 : _pcb (obj (post r1)) = Some p) by (rewrite H1; exact Hp).
  assert (Hb1 : _rx_ack_len (obj (post r1)) = backlog) by (rewrite H1; reflexivity).
  destruct (ack_inv n (post r1) p Hp1 Hn) as [V [C [A _]]]; [lia|lia|].
  fold r2 in V, C, A. rewrite Hb1 in V, C, A.
  rewrite acked_bytes_app, A, V, C. rewrite H1. cbn [trace snd].
  assert (Ha : acked_bytes [Net (Lwip.TcpRecved h backlog)] = backlog)
    by (unfold acked_bytes; cbn; lia).
  rewrite Ha. repeat split; assumption.
Qed.

Lemma close_acknowledges_backlog_without_clearing_it_witness :
  acked_bytes (trace (close Sample.quiet false Fixture.backlog_40) ++
               trace (ack 25 (post (close Sample.quiet false Fixture.backlog_40)))) = 65.
Proof.
  pose proof (close_acknowledges_backlog_without_clearing_it Sample.quiet 25
                Fixture.backlog_40 (Sample.established 100) eq_refl ltac:(lia)
                ltac:(cbn; lia)) as H.
  cbv zeta in H. destruct H as [_ [_ [_ [_ [_ H]]]]].
  exact H.
Defined.

Lemma callbacks_close_any (App : App_t) (w : World) :
  callbacks (trace (_close App w)) =
  (if _pcb (obj w) is Some _
   then (if _discard_cb (obj w) is Some _ then [OnDisconnect] else []) else []).
Proof.
  destruct (_pcb (obj w)) as [p|] eqn:Hp.
  - now destruct (close_held_outside App w p Hp) as [_ [H _]].
  - now rewrite (run_close_none App w Hp).
Qed.

Lemma calls_close_none (App : App_t) (w : World) :
  _pcb (obj w) = None -> calls (trace (_close App w)) = [].
Proof. intros H. now rewrite (run_close_none App w H). Qed.

(** A tick reports an ack timeout only with a send in flight and a nonzero
    ack timeout. *)
Lemma no_timeout_unless_due (App : App_t) (pcb : option Lwip.tcp_pcb) (w : World) :
  _pcb_busy (obj w) = false \/ _ack_timeout (obj w) = 0 ->
  forall e, ~ In (OnTimeout e) (callbacks (trace (_poll App pcb w))).
Proof.
  intros H e. rewrite poll_refines_tick. cbv zeta. cbn [trace snd].
  assert (Ha : ack_timeout_due (obj w) (next_millis w) = false).
  { unfold ack_timeout_due. destruct H as [-> | ->]; [reflexivity|].
    rewrite Z.eqb_refl. cbn. now rewrite andb_false_r. }
  unfold tick_choice. rewrite Ha.
  destruct (_close_pcb (obj w)) eqn:Hc.
  - unfold perform. exec. rewrite run_then_ret. cbn [trace snd].
    rewrite callbacks_close_any. fields.
    destruct (_pcb (obj w)); [destruct (_discard_cb (obj w))|]; cbn;
      intuition (try discriminate).
  - destruct (idle_timeout_due (obj w) (next_millis w)); unfold perform.
    + rewrite run_then_ret. cbn [trace snd]. rewrite callbacks_close_any.
      rewrite ?obj_tick_clock.
      destruct (_pcb (obj w)); [destruct (_discard_cb (obj w))|]; cbn;
        intuition (try discriminate).
    + exec. destruct (_poll_cb (obj w)); cbn; intuition (try discriminate).
Qed.

(** X19: a tick on which the ack timeout is due and no close is pending, with
    handlers that leave the in-flight flag alone.  The tick fires [onTimeout]
    with the elapsed time, makes no lwIP call and clears the flag; the tick after
    it fires no [onTimeout]. *)
Theorem ack_timeout_is_reported_once
    (App : App_t) (pcb pcb' : option Lwip.tcp_pcb) (w : World) :
  (forall f a ev w', _pcb_busy (obj (fst (App f a ev w'))) = _pcb_busy (obj w')) ->
  _close_pcb (obj w) = false ->
  ack_timeout_due (obj w) (next_millis w) = true ->
  let e := elapsed (next_millis w) (_pcb_sent_at (obj w)) in
  let r := _poll App pcb w in
  callbacks (trace r) = (if _timeout_cb (obj w) is Some _ then [OnTimeout e] else []) /\
  calls (trace r) = [] /\
  _pcb_busy (obj (post r)) = false /\
  forall e', ~ In (OnTimeout e') (callbacks (trace (_poll App pcb' (post r)))).
Proof.
  intros Hkeep Hc Ha e r.
  assert (Hr : callbacks (trace r) = (if _timeout_cb (obj w) is Some _ then [OnTimeout e] else [])
               /\ calls (trace r) = [] /\ _pcb_busy (obj (post r)) = false).
  { subst r. rewrite poll_refines_tick. cbv zeta. unfold tick_choice. rewrite Hc, Ha.
    unfold perform. exec. fold e.
    destruct (_timeout_cb (obj w)) as [f|]; exec; repeat split. apply Hkeep. }
  destruct Hr as [H1 [H2 H3]]. repeat split; try assumption.
  apply no_timeout_unless_due. now left.
Qed.

Lemma ack_timeout_is_reported_once_witness :
  callbacks (trace (_poll Sample.quiet None Fixture.in_flight)) = [OnTimeout 6000] /\
  (forall e, In (OnTimeout e)
               (callbacks (trace (_poll Sample.quiet None
                                    (post (_poll Sample.quiet None Fixture.in_flight))))) ->
             False).
Proof.
  pose proof (ack_timeout_is_reported_once Sample.quiet None None Fixture.in_flight
                (fun _ _ _ _ => eq_refl) eq_refl eq_refl) as H.
  cbv zeta in H. destruct H as [H1 [_ [_ H2]]].
  split; [exact H1|exact H2].
Defined.

(** X20: [_sent] returns [ERR_OK], makes no lwIP call, fires [onAck] with the
    length and the time since the send, and clears the in-flight flag; with
    handlers that leave the flag alone, the tick after it fires no [onTimeout]. *)
Theorem sent_confirmation_cancels_the_ack_timeout
    (App : App_t) (pcb pcb' : option Lwip.tcp_pcb) (len : Z) (w : World) :
  (forall f a ev w', _pcb_busy (obj (fst (App f a ev w'))) = _pcb_busy (obj w')) ->
  let r := _sent App pcb len w in
  val r = Lwip.ERR_OK /\
  calls (trace r) = [] /\
  callbacks (trace r) =
    (if _sent_cb (obj w) is Some _
     then [OnAck len (elapsed (next_millis (tick_clock w)) (_pcb_sent_at (obj w)))] else []) /\
  _pcb_busy (obj (post r)) = false /\
  forall e, ~ In (OnTimeout e) (callbacks (trace (_poll App pcb' (post r)))).
Proof.
  intros Hkeep r.
  assert (Hr : val r = Lwip.ERR_OK /\ calls (trace r) = [] /\
               callbacks (trace r) =
                 (if _sent_cb (obj w) is Some _
                  then [OnAck len (elapsed (next_millis (tick_clock w)) (_pcb_sent_at (obj w)))]
                  else []) /\
               _pcb_busy (obj (post r)) = false).
  { subst r. unfold _sent, elapsed. exec.
    destruct (_sent_cb (obj w)) as [f|]; exec; repeat split. apply Hkeep. }
  destruct Hr as [H1 [H2 [H3 H4]]]. repeat split; try assumption.
  apply no_timeout_unless_due. now left.
Qed.

Lemma sent_confirmation_cancels_the_ack_timeout_witness :
  _pcb_busy (obj Fixture.in_flight) = true /\
  _pcb_busy (obj (post (_sent Sample.quiet None 10 Fixture.in_flight))) = false.
Proof.
  pose proof (sent_confirmation_cancels_the_ack_timeout Sample.quiet None None 10
                Fixture.in_flight (fun _ _ _ _ => eq_refl)) as H.
  cbv zeta in H. destruct H as [_ [_ [_ [H _]]]].
  split; [reflexivity|exact H].
Defined.

(** X21: zero switches a timeout off.  After [setAckTimeout(0)] no tick fires
    [onTimeout]; after [setRxTimeout(0)] a tick with no close pending and no ack
    timeout due makes no lwIP call and fires [onPoll] only. *)
Theorem zero_disables_the_timeouts
    (App : App_t) (pcb : option Lwip.tcp_pcb) (w : World) :
  (forall e, ~ In (OnTimeout e)
               (callbacks (trace (_poll App pcb (post (setAckTimeout 0 w)))))) /\
  (_close_pcb (obj w) = false ->
   ack_timeout_due (obj w) (next_millis w) = false ->
   let r := _poll App pcb (post (setRxTimeout 0 w)) in
   calls (trace r) = [] /\
   callbacks (trace r) = (if _poll_cb (obj w) is Some _ then [OnPoll] else [])).
Proof.
  split.
  - apply no_timeout_unless_due. right. reflexivity.
  - intros Hc Ha r. subst r. rewrite poll_refines_tick. cbv zeta.
    unfold tick_choice, setRxTimeout, upd. fields.
    change (ack_timeout_due (set_rx_since_timeout 0 (obj w)) ?n) with
      (ack_timeout_due (obj w) n).
    change (next_millis (mkWorld (set_rx_since_timeout 0 (obj w)) (sys w))) with
      (next_millis w).
    rewrite Hc, Ha. unfold idle_timeout_due. fields. cbn [Z.eqb negb andb].
    unfold perform. exec. destruct (_poll_cb (obj w)); split; reflexivity.
Qed.

(** X22: a send in flight for [d] milliseconds of true time, [d] below 2^32 and
    at least the ack timeout, with [millis()] read modulo 2^32.  The tick fires
    [onTimeout] with exactly [d], also when the clock has wrapped since the
    send. *)
Theorem ack_timeout_survives_clock_wrap
    (App : App_t) (pcb : option Lwip.tcp_pcb) (w : World) (d : Z) (f : fn_ptr) :
  _close_pcb (obj w) = false ->
  _pcb_busy (obj w) = true ->
  _timeout_cb (obj w) = Some f ->
  0 <= _pcb_sent_at (obj w) < 2 ^ 32 ->
  0 < _ack_timeout (obj w) <= d ->
  d < 2 ^ 32 ->
  next_millis w = uint32 (_pcb_sent_at (obj w) + d) ->
  callbacks (trace (_poll App pcb w)) = [OnTimeout d].
Proof.
  intros Hc Hb Hf Hs Ht Hd Hnow.
  assert (He : elapsed (next_millis w) (_pcb_sent_at (obj w)) = d).
  { rewrite Hnow. unfold elapsed, uint32. rewrite Zminus_mod_idemp_l.
    replace (_pcb_sent_at (obj w) + d - _pcb_sent_at (obj w)) with d by lia.
    apply Z.mod_small. lia. }
  assert (Ha : ack_timeout_due (obj w) (next_millis w) = true).
  { unfold ack_timeout_due. rewrite Hb, He. cbn [andb].
    apply andb_true_intro. split.
    - apply negb_true_iff, Z.eqb_neq. lia.
    - apply Z.leb_le. lia. }
  rewrite poll_refines_tick. cbv zeta. unfold tick_choice. rewrite Hc, Ha, He.
  unfold perform. exec. rewrite Hf. reflexivity.
Qed.

Lemma ack_timeout_survives_clock_wrap_witness :
  _pcb_sent_at (obj Fixture.in_flight) = 4294967196 /\
  next_millis Fixture.in_flight = 5900 /\
  callbacks (trace (_poll Sample.quiet None Fixture.in_flight)) = [OnTimeout 6000].
Proof.
  split; [reflexivity|]. split; [reflexivity|].
  apply (ack_timeout_survives_clock_wrap Sample.quiet None Fixture.in_flight 6000 6%nat);
    try reflexivity; cbn; lia.
Defined.

(** X23: the idle threshold is [_rx_since_timeout * 1000] in 32 bits.  With a
    timeout whose product reaches 2^32, a tick at which the idle time has reached
    the wrapped product closes the connection, although the idle time is still
    short of the configured timeout. *)
Theorem idle_timeout_above_range_closes_early
    (App : App_t) (pcb : option Lwip.tcp_pcb) (w : World) (p : Lwip.tcp_pcb) :
  _pcb (obj w) = Some p ->
  _close_pcb (obj w) = false ->
  _pcb_busy (obj w) = false ->
  2 ^ 32 <= _rx_since_timeout (obj w) * 1000 ->
  uint32 (_rx_since_timeout (obj w) * 1000) <=
    elapsed (next_millis w) (_rx_last_packet (obj w)) ->
  elapsed (next_millis w) (_rx_last_packet (obj w)) < _rx_since_timeout (obj w) * 1000 /\
  In (Lwip.TcpClose (Some (Lwip.pcb_id p))) (calls (trace (_poll App pcb w))) /\
  callbacks (trace (_poll App pcb w)) =
    (if _discard_cb (obj w) is Some _ then [OnDisconnect] else []).
Proof.
  intros Hp Hc Hb Hbig Hdue. split.
  { unfold elapsed, uint32.
    pose proof (Z.mod_pos_bound (next_millis w - _rx_last_packet (obj w)) (2 ^ 32)). lia. }
  assert (Ha : ack_timeout_due (obj w) (next_millis w) = false).
  { unfold ack_timeout_due. now rewrite Hb. }
  assert (Hi : idle_timeout_due (obj w) (next_millis w) = true).
  { unfold idle_timeout_due, idle_limit. apply andb_true_intro. split.
    - apply negb_true_iff, Z.eqb_neq. lia.
    - apply Z.leb_le. exact Hdue. }
  rewrite poll_refines_tick. cbv zeta. unfold tick_choice. rewrite Hc, Ha, Hi.
  unfold perform. rewrite run_then_ret. cbn [trace snd].
  destruct (close_held_outside App (tick_clock w) p Hp) as [H1 [H2 _]].
  rewrite H1, H2. split; [|reflexivity].
  apply in_or_app. right. left. reflexivity.
Qed.

Lemma idle_timeout_above_range_closes_early_witness :
  elapsed (next_millis Fixture.long_idle) (_rx_last_packet (obj Fixture.long_idle)) = 1500 /\
  In (Lwip.TcpClose (Some 1%nat)) (calls (trace (_poll Sample.quiet None Fixture.long_idle))).
Proof.
  split; [reflexivity|].
  pose proof (idle_timeout_above_range_closes_early Sample.quiet None Fixture.long_idle
                (Sample.established 100) eq_refl eq_refl eq_refl
                ltac:(vm_compute; discriminate) ltac:(vm_compute; discriminate)) as H.
  destruct H as [_ [H _]]. exact H.
Defined.
(** ** State predicates and labels *)

(** Case analysis over lwIP's eleven states and over the error codes. *)
Lemma small_state_cases (P : Z -> Prop) :
  (forall k, (k <= 10)%nat -> P (Z.of_nat k)) -> forall n, 0 <= n <= 10 -> P n.
Proof.
  intros H n Hn. replace n with (Z.of_nat (Z.to_nat n)) by lia. apply H. lia.
Qed.

Lemma error_code_cases (P : Z -> Prop) :
  (forall k, (k <= 15)%nat -> P (- Z.of_nat k)) -> P (-55) ->
  forall e, -15 <= e <= 0 \/ e = -55 -> P e.
Proof.
  intros H H55 e [He| ->]; [|exact H55].
  replace e with (- Z.of_nat (Z.to_nat (- e))) by lia. apply H. lia.
Qed.

(** X24: for a state in lwIP's range 0..10, exactly one of [connected],
    [connecting], [disconnecting] and [disconnected] holds; [connected] is the
    established state; [freeable], and with it [free], is the negation of
    connected-or-connecting; and the state has a label other than UNKNOWN. *)
Theorem state_predicates_partition (c : AsyncClient) :
  0 <= state c <= 10 ->
  Z.b2z (connected c) + Z.b2z (connecting c) + Z.b2z (disconnecting c) +
  Z.b2z (disconnected c) = 1 /\
  connected c = (state c =? 4) /\
  freeable c = negb (connected c || connecting c) /\
  free c = freeable c /\
  stateToString c <> "UNKNOWN"%string.
Proof.
  unfold state, connected, connecting, disconnecting, disconnected, freeable, free,
    stateToString, state.
  destruct (_pcb c) as [p|].
  - intros H. pattern (Lwip.state p). apply small_state_cases; [|exact H].
    intros k Hk.
    do 11 (destruct k as [|k]; [cbn; repeat split; discriminate|]). lia.
  - intros _. cbn. repeat split. discriminate.
Qed.

Lemma state_predicates_partition_witness :
  Z.b2z (connected (Sample.client 100)) + Z.b2z (connecting (Sample.client 100)) +
  Z.b2z (disconnecting (Sample.client 100)) + Z.b2z (disconnected (Sample.client 100)) = 1.
Proof.
  pose proof (state_predicates_partition (Sample.client 100) ltac:(cbn; lia)) as H.
  destruct H as [H _]. exact H.
Defined.

(** X25: on lwIP's codes 0 down to -15 and the resolution-failure code -55,
    [errorToString] is injective: the text identifies the code. *)
Theorem error_labels_are_distinct (e1 e2 : Z) :
  (-15 <= e1 <= 0 \/ e1 = -55) -> (-15 <= e2 <= 0 \/ e2 = -55) ->
  errorToString e1 = errorToString e2 -> e1 = e2.
Proof.
  intros H1 H2. revert e2 H2. pattern e1. apply error_code_cases; [| |exact H1].
  - intros k Hk.
    do 16 (destruct k as [|k];
           [intros e2 H2; pattern e2; apply error_code_cases; [| |exact H2];
            [intros j Hj;
             do 16 (destruct j as [|j]; [cbn; intros E; try reflexivity; discriminate E|]);
             lia
            |cbn; intros E; discriminate E]|]).
    lia.
  - intros e2 H2. pattern e2. apply error_code_cases; [| |exact H2].
    + intros j Hj.
      do 16 (destruct j as [|j]; [cbn; intros E; discriminate E|]). lia.
    + reflexivity.
Qed.

Lemma error_labels_are_distinct_witness :
  (-15 <= -8 <= 0 \/ -8 = -55) /\ (-15 <= -9 <= 0 \/ -9 = -55) /\
  (errorToString (-8) = errorToString (-9) -> -8 = -9).
Proof.
  assert (H8 : -15 <= -8 <= 0 \/ -8 = -55) by (left; lia).
  assert (H9 : -15 <= -9 <= 0 \/ -9 = -55) by (left; lia).
  split; [exact H8|]. split; [exact H9|].
  exact (error_labels_are_distinct (-8) (-9) H8 H9).
Defined.

(** ** A freshly constructed object *)

(** The six calls that put the object's callbacks on a handle; lwIP keeps
    the error callback on file. *)
Lemma run_construct (max_ack : Z) (pcb : option Lwip.tcp_pcb) (w : World) :
  let c := mkAsyncClient pcb None 0 None 0 None 0 None 0 None 0 None 0
             (_poll_cb (obj w)) (_poll_cb_arg (obj w))
             false 0 false true (_rx_ack_len (obj w)) 0 0 max_ack 0 in
  construct max_ack pcb w =
  (tt, with_errf (Lwip.ptr pcb) true (mkWorld c (sys w)),
   if pcb is Some _ then
     [Net (Lwip.TcpSetprio (Lwip.ptr pcb) Lwip.TCP_PRIO_MIN);
      Net (Lwip.TcpArg (Lwip.ptr pcb) true); Net (Lwip.TcpRecv (Lwip.ptr pcb) true);
      Net (Lwip.TcpSent (Lwip.ptr pcb) true); Net (Lwip.TcpErr (Lwip.ptr pcb) true);
      Net (Lwip.TcpPoll (Lwip.ptr pcb) true 1)]
   else []).
Proof.
  intros c. subst c. unfold construct. exec. destruct pcb as [b|]; exec; reflexivity.
Qed.

(** X26: the constructor.  The object holds the handle it was given; a non-null
    handle gets priority, argument and the receive, sent, error and poll
    callbacks, a null one no call; the ack timeout is the default and the idle
    timeout is off.  No handler is installed: close, error, sent and connected
    events fire nothing, and no tick fires [onTimeout]. *)
Theorem constructed_object_owns_the_handle_and_is_silent
    (App : App_t) (max_ack : Z) (pcb : option Lwip.tcp_pcb) (w : World) :
  let built := construct max_ack pcb w in
  let w0 := post built in
  _pcb (obj w0) = pcb /\
  calls (trace built) =
    (if pcb is Some _ then
       [Lwip.TcpSetprio (Lwip.ptr pcb) Lwip.TCP_PRIO_MIN; Lwip.TcpArg (Lwip.ptr pcb) true;
        Lwip.TcpRecv (Lwip.ptr pcb) true; Lwip.TcpSent (Lwip.ptr pcb) true;
        Lwip.TcpErr (Lwip.ptr pcb) true; Lwip.TcpPoll (Lwip.ptr pcb) true 1]
     else []) /\
  getAckTimeout (obj w0) = max_ack /\
  getRxTimeout (obj w0) = 0 /\
  callbacks (trace (_close App w0)) = [] /\
  (forall err, callbacks (trace (_error App err w0)) = []) /\
  (forall p len, callbacks (trace (_sent App p len w0)) = []) /\
  (forall p err, callbacks (trace (_connected App p err w0)) = []) /\
  (forall p e, ~ In (OnTimeout e) (callbacks (trace (_poll App p w0)))).
Proof.
  intros built w0. subst w0 built. rewrite run_construct. fields.
  rewrite ?obj_with_errf. fields.
  repeat split.
  - now destruct pcb.
  - rewrite callbacks_close_any. fields. now destruct pcb.
  - intros err. unfold _error. exec. destruct pcb; exec; reflexivity.
  - intros p err. unfold _connected. exec. destruct p; exec; reflexivity.
  - intros p e. apply no_timeout_unless_due. left. reflexivity.
Qed.

(** ** The passive listener *)

(** X27: [begin()] with a handle held is a no-op.  Without one, the server ends
    with a handle exactly when the pool has two blocks and [tcp_bind] succeeds;
    it then holds the listening block, in state LISTEN, with argument and accept
    callback set, after binding to its address and port.  If it ends without a
    handle the server is unchanged, and a block that was taken has been closed. *)
Theorem begin_binds_or_leaves_unbound (s : Server.AsyncServer) (y : Sys) :
  let r := Server.begin s y in
  let s' := fst (fst r) in
  (Server._pcb s <> None -> r = (s, y, [])) /\
  (Server._pcb s = None ->
   (Server._pcb s' <> None <->
    exists b1 b2 rest, pool y = b1 :: b2 :: rest /\ lwip_err y (lwip_n y) = Lwip.ERR_OK) /\
   (Server._pcb s' = None -> s' = s) /\
   (forall b1 rest, pool y = b1 :: rest -> Server._pcb s' = None ->
      In (Server.Lw (Lwip.TcpClose (Some (Lwip.pcb_id b1)))) (snd r)) /\
   (forall b1 b2 rest,
      pool y = b1 :: b2 :: rest -> lwip_err y (lwip_n y) = Lwip.ERR_OK ->
      s' = Server.set_pcb (Some (Lwip.mk_pcb (Lwip.pcb_id b2) 1 (Lwip.snd_buf b2))) s /\
      Server.status s' = 1 /\
      pool (snd (fst r)) = rest /\
      snd r = [Server.Lw Lwip.TcpNew;
               Server.Srv (Server.TcpBind (Some (Lwip.pcb_id b1)) (Server._addr s)
                             (Server._port s));
               Server.Srv (Server.TcpListen (Some (Lwip.pcb_id b1)));
               Server.Lw (Lwip.TcpArg (Some (Lwip.pcb_id b2)) true);
               Server.Srv (Server.TcpAccept (Some (Lwip.pcb_id b2)) true)])).
Proof.
  intros r s'. subst s' r. unfold Server.begin. split.
  { destruct (Server._pcb s); [reflexivity|contradiction]. }
  intros Hs. rewrite Hs. unfold Server.listen_block, Server.take_block, Server.take_result.
  destruct y as [ck rd le ln pl rt rs]. cbn [pool lwip_err lwip_n fst snd].
  destruct pl as [|b1 pl]; cbn [fst snd pool lwip_err lwip_n clock reads route resolver].
  { split; [|split; [|split]].
    - split; [intros H; contradiction|intros [b1 [b2 [rest [H _]]]]; discriminate].
    - reflexivity.
    - intros b1 rest H. discriminate.
    - intros b1 b2 rest H. discriminate. }
  destruct (Z.eqb_spec (le ln) Lwip.ERR_OK) as [E|E];
    cbn [negb fst snd pool lwip_err lwip_n clock reads route resolver].
  2:{ split; [|split; [|split]].
      - split; [intros H; contradiction|intros [c1 [c2 [rest [_ H]]]]; exfalso; apply E; exact H].
      - reflexivity.
      - intros c1 rest [= <- <-] _. cbn. tauto.
      - intros c1 c2 rest _ H. exfalso. apply E. exact H. }
  destruct pl as [|b2 pl];
    cbn [fst snd pool option_map lwip_err lwip_n clock reads route resolver].
  { split; [|split; [|split]].
    - split; [intros H; contradiction|intros [c1 [c2 [rest [H _]]]]; discriminate].
    - reflexivity.
    - intros c1 rest [= <- <-] _. cbn. tauto.
    - intros c1 c2 rest H. discriminate. }
  split; [|split; [|split]].
  - split; [intros _; exists b1, b2, pl; split; [reflexivity|exact E]|intros _; discriminate].
  - cbn. intros H. discriminate.
  - cbn. intros c1 rest _ H. discriminate.
  - intros c1 c2 rest [= <- <- <-] _. repeat split.
Qed.

(** After [begin] the listener is as before, or as before with a handle. *)
Lemma begin_state (s : Server.AsyncServer) (y : Sys) :
  Server._pcb s = None ->
  fst (fst (Server.begin s y)) = s \/
  exists q, fst (fst (Server.begin s y)) = Server.set_pcb (Some q) s.
Proof.
  intros Hs. unfold Server.begin. rewrite Hs.
  unfold Server.listen_block, Server.take_block, Server.take_result.
  destruct (pool y) as [|b1 pl]; cbn [fst snd]; [now left|].
  destruct (negb _); [now left|]. cbn [pool].
  destruct pl as [|b2 pl]; cbn [fst snd option_map]; [now left|].
  right. eexists. reflexivity.
Qed.

(** X28: [end()] leaves no handle and status 0; with a handle held it aborts it
    and clears its argument and accept callback, otherwise it makes no call.  A
    second [end()] does nothing, and [end()] after [begin()] on a server that
    was not listening gives the server back as it was. *)
Theorem end_is_idempotent_and_undoes_begin (s : Server.AsyncServer) (y y' : Sys) :
  let r := Server.end_ s y in
  let s' := fst (fst r) in
  Server._pcb s' = None /\
  Server.status s' = 0 /\
  snd (fst r) = y /\
  Server.end_ s' y' = (s', y', []) /\
  snd r = (if Server._pcb s is Some _ then
             [Server.Lw (Lwip.TcpAbort (Lwip.ptr (Server._pcb s)));
              Server.Lw (Lwip.TcpArg (Lwip.ptr (Server._pcb s)) false);
              Server.Srv (Server.TcpAccept (Lwip.ptr (Server._pcb s)) false)]
           else []) /\
  (Server._pcb s = None ->
   fst (fst (Server.end_ (fst (fst (Server.begin s y))) y')) = s).
Proof.
  intros r s'. subst s' r. unfold Server.end_, Server.status.
  destruct (Server._pcb s) as [p|] eqn:Hs; cbn [fst snd Server._pcb Server.set_pcb].
  - repeat split. intros H. discriminate.
  - rewrite Hs. repeat split. intros _.
    destruct (begin_state s y Hs) as [H|[q H]]; rewrite H.
    + now rewrite Hs.
    + cbn [Server._pcb Server.set_pcb fst]. destruct s. cbn in Hs. now subst.
Qed.

(** X29: an incoming connection with no [onClient] callback, or with [new]
    failing.  [_accept] returns [ERR_OK], yields no client, calls [tcp_close] on
    the handle and [tcp_abort] exactly if that fails, never sets the
    argument of the handle and fires no callback. *)
Theorem accept_without_a_taker_closes_the_handle
    (App : App_t) (max_ack : Z) (storage : option AsyncClient) (pcb : option Lwip.tcp_pcb)
    (err : Z) (s : Server.AsyncServer) (y : Sys) :
  Server._connect_cb s = None \/ storage = None ->
  let r := Server._accept App max_ack storage pcb err s y in
  fst (fst r) = Lwip.ERR_OK /\
  fst (snd (fst r)) = None /\
  In (Server.Lw (Lwip.TcpClose (Lwip.ptr pcb))) (snd r) /\
  (In (Server.Lw (Lwip.TcpAbort (Lwip.ptr pcb))) (snd r) <->
   lwip_err y (lwip_n y) <> Lwip.ERR_OK) /\
  (forall f a t, ~ In (Server.Accepted f a t) (snd r)) /\
  (forall c, ~ In (Server.Lw (Lwip.TcpArg (Lwip.ptr pcb) c)) (snd r)).
Proof.
  intros H r. subst r. unfold Server._accept, Server.refuse, Server.take_result.
  cbn [fst snd].
  destruct (Z.eqb_spec (lwip_err y (lwip_n y)) Lwip.ERR_OK) as [E|E];
    destruct (Server._connect_cb s) as [f|]; destruct storage as [raw|];
    try (destruct H as [H|H]; discriminate H);
    cbn; intuition (try discriminate; try congruence).
Qed.

Lemma accept_without_a_taker_closes_the_handle_witness :
  In (Server.Lw (Lwip.TcpClose (Some 1%nat)))
     (snd (Server._accept Sample.quiet 5000 None (Some (Sample.established 100)) 0
             Fixture.listener Sample.env)).
Proof.
  pose proof (accept_without_a_taker_closes_the_handle Sample.quiet 5000 None
                (Some (Sample.established 100)) 0 Fixture.listener Sample.env
                (or_intror eq_refl)) as H.
  cbv zeta in H. destruct H as [_ [_ [H _]]].
  exact H.
Defined.

(** X30: an incoming connection with an [onClient] callback.  [_accept] sets
    Nagle from the server's flag, constructs a client that holds the handle,
    with the six registrations, the error callback on file and no handler
    installed, then calls the callback once with it and returns [ERR_OK]; the
    client and the system are as the callback left them. *)
Theorem accept_hands_over_a_client_that_owns_the_handle
    (App : App_t) (max_ack : Z) (raw : AsyncClient) (b : Lwip.tcp_pcb) (err : Z)
    (s : Server.AsyncServer) (y : Sys) (f : fn_ptr) :
  Server._connect_cb s = Some f ->
  let h := Some (Lwip.pcb_id b) in
  let w0 := post (construct max_ack (Some b) (mkWorld raw y)) in
  let taken := App f (Server._connect_cb_arg s) OnConnect w0 in
  let r := Server._accept App max_ack (Some raw) (Some b) err s y in
  fst (fst r) = Lwip.ERR_OK /\
  _pcb (obj w0) = Some b /\
  _connect_cb (obj w0) = None /\ _discard_cb (obj w0) = None /\
  _error_cb (obj w0) = None /\ _recv_cb (obj w0) = None /\
  sys w0 = set_errf h true y /\
  errf (sys w0) (Lwip.pcb_id b) = true /\
  snd (fst r) = (Some (obj (fst taken)), sys (fst taken)) /\
  snd r =
    [Server.Srv (if Server._noDelay s then Server.TcpNagleDisable h
                 else Server.TcpNagleEnable h);
     Server.Lw (Lwip.TcpSetprio h Lwip.TCP_PRIO_MIN); Server.Lw (Lwip.TcpArg h true);
     Server.Lw (Lwip.TcpRecv h true); Server.Lw (Lwip.TcpSent h true);
     Server.Lw (Lwip.TcpErr h true); Server.Lw (Lwip.TcpPoll h true 1);
     Server.Accepted f (Server._connect_cb_arg s) (snd taken)].
Proof.
  intros Hf h w0 taken r. subst r taken w0 h. unfold Server._accept. rewrite Hf.
  cbv zeta. rewrite run_construct. fields. repeat split.
  apply errf_with_same.
Qed.

Lemma accept_hands_over_a_client_that_owns_the_handle_witness :
  fst (fst (Server._accept Sample.quiet 5000 (Some (Sample.client 0))
              (Some (Sample.established 100)) 0 Fixture.listener Sample.env)) = Lwip.ERR_OK /\
  _pcb (obj (post (construct 5000 (Some (Sample.established 100))
                     (mkWorld (Sample.client 0) Sample.env)))) =
  Some (Sample.established 100).
Proof.
  pose proof (accept_hands_over_a_client_that_owns_the_handle Sample.quiet 5000
                (Sample.client 0) (Sample.established 100) 0 Fixture.listener Sample.env
                9%nat eq_refl) as H.
  cbv zeta in H. destruct H as [H1 [H2 _]].
  split; [exact H1|exact H2].
Defined.
